(** * TX7332 backend: register transactions, delay encoding, apply
      sequences and diagnostics

    A shallow embedding of the Python backend
    ([backend/device/controller.py], [backend/services/*.py],
    [backend/api/routers/{beamforming,patterns}.py]) and the properties of
    its register protocol.

    Python integers are unbounded, so they are [Z]; [&], [|] and [<<] are
    [Z.land], [Z.lor] and [Z.shiftl] (two's complement on negative numbers,
    as in Python).  Python [float]s are idealised as real numbers, with the
    places where Python or numpy leave the finite numbers (division by
    zero) written out.  Exceptions are values of [exn]; code that can raise
    returns a [Result]. *)

From Stdlib Require Import ZArith List String Ascii Bool Lia DecimalString.
From Stdlib Require Import Reals Lra.
Import ListNotations.

#[local] Open Scope string_scope.
#[local] Open Scope Z_scope.

(** ** Exceptions and results *)

(** The exception classes the modelled code raises or lets through.
    [TransportError] stands for whatever the USB layer raises. *)
Inductive exn : Type :=
| DeviceControllerError (msg : string)
| ValueError (msg : string)
| IndexError (msg : string)
| AttributeError (msg : string)
| ZeroDivisionError (msg : string)
| OverflowError (msg : string)
| TransportError (msg : string)
| HTTPException (status_code : Z) (detail : string).

(** [str(e)] *)
Definition str_exn (e : exn) : string :=
  match e with
  | DeviceControllerError m | ValueError m | IndexError m | AttributeError m
  | ZeroDivisionError m | OverflowError m | TransportError m => m
  | HTTPException c d => d
  end.

(** [isinstance(e, HTTPException)] *)
Definition is_HTTPException (e : exn) : bool :=
  match e with HTTPException _ _ => true | _ => false end.

Inductive Result (A : Type) : Type :=
| Ok (a : A)
| Raise (e : exn).
Arguments Ok {A} a.
Arguments Raise {A} e.

Class Monad (m : Type -> Type) : Type := {
  ret : forall {A}, A -> m A;
  bind : forall {A B}, m A -> (A -> m B) -> m B
}.

Declare Scope monad_scope.
Delimit Scope monad_scope with monad.
Notation "x <- c ;; k" := (bind c (fun x => k))
  (at level 61, c at next level, right associativity) : monad_scope.
Notation "c ;; k" := (bind c (fun _ => k))
  (at level 61, right associativity) : monad_scope.
#[local] Open Scope monad_scope.

#[global] Instance Monad_Result : Monad Result := {
  ret := fun A a => Ok a;
  bind := fun A B c k => match c with Ok a => k a | Raise e => Raise e end
}.

(** A [for] loop whose body can raise: stops at the first exception. *)
Fixpoint for_ {m} `{Monad m} {A : Type} (l : list A) (body : A -> m unit)
  : m unit :=
  match l with
  | [] => ret tt
  | x :: l' => body x ;; for_ l' body
  end.

(** ** Python built-ins used by the code *)

Definition len {A} (l : list A) : Z := Z.of_nat (List.length l).

(** [range(lo, hi, step)] for a positive step. *)
Fixpoint range_from (lo step : Z) (n : nat) : list Z :=
  match n with
  | O => []
  | S n' => lo :: range_from (lo + step) step n'
  end.

Definition range (lo hi step : Z) : list Z :=
  range_from lo step (Z.to_nat ((hi - lo + step - 1) / step)).

(** [enumerate(l)] *)
Definition enumerate {A} (l : list A) : list (Z * A) :=
  combine (range 0 (len l) 1) l.

(** [l[i]]: negative indices count from the end, out of range raises. *)
Definition getitem (l : list Z) (i : Z) : Result Z :=
  let j := if i <? 0 then i + len l else i in
  if (j <? 0) || (len l <=? j)
  then Raise (IndexError "list index out of range")
  else Ok (nth (Z.to_nat j) l 0).

(** ** Floating-point values

    A Python [float] is idealised as a real number: the arguments of the
    modelled functions are finite floats, and the model has no rounding,
    overflow or underflow.  numpy's division does not raise on a zero
    divisor but yields an infinity or a NaN, which [int()] later refuses;
    these two values are kept as the results of such a division.  The
    properties of the computed delays are stated on ranges of the
    arguments and in terms (signs, zeros, bounds with room) that the
    rounding of the floating-point computation does not change. *)

Inductive npfloat : Type :=
| Finite (x : R)
| Infinite
| NotANumber.

(** Python's [x / y] on floats. *)
Definition float_truediv (x y : R) : Result R :=
  if Req_dec_T y 0 then Raise (ZeroDivisionError "float division by zero")
  else Ok (x / y)%R.

(** numpy's [x / y] for a finite [x] and a Python float [y]; whether
    [x] is zero is decided on the real number. *)
Definition np_truediv (x y : R) : npfloat :=
  if Req_dec_T y 0
  then if Req_dec_T x 0 then NotANumber else Infinite
  else Finite (x / y).

(** numpy's [v / y] for a nonzero constant [y]. *)
Definition np_div_const (v : npfloat) (y : R) : npfloat :=
  match v with
  | Finite x => Finite (x / y)
  | Infinite => Infinite
  | NotANumber => NotANumber
  end.

(** [np.deg2rad] *)
Definition deg2rad (x : R) : R := (x * (PI / 180))%R.

(** Rounding to the nearest integer, halves to the even neighbour, as
    [np.round] does. *)
Definition round_half_even (x : R) : Z :=
  let f := Int_part x in
  let r := (x - IZR f)%R in
  if Rlt_dec r (1 / 2) then f
  else if Rlt_dec (1 / 2) r then f + 1
  else if Z.even f then f else f + 1.

(** [int(np.round(v))] *)
Definition int_round (v : npfloat) : Result Z :=
  match v with
  | Finite x => Ok (round_half_even x)
  | Infinite =>
      Raise (OverflowError "cannot convert float infinity to integer")
  | NotANumber => Raise (ValueError "cannot convert float NaN to integer")
  end.

(** [min(l)] of a list of integers. *)
Definition py_min (l : list Z) : Result Z :=
  match l with
  | [] => Raise (ValueError "min() arg is an empty sequence")
  | x :: l' => Ok (fold_left Z.min l' x)
  end.

(** Modelled from the spec: the type of [compute_focus_delays] of
    [BeamformingSimulation/cal_foc_point.py], which is not part of the
    sources: "a pure function [computeFocusDelays(numElements,
    pitchMicrons, focusPoint, speedOfSound, delayResolutionNs) -> [int]]".
    The functions that call it take it as a parameter. *)
Definition FocusSolver : Type :=
  Z -> R -> R * R -> R -> R -> Result (list Z).

(** ** [BeamformingService] *)

Module BeamformingService.

(** Element positions for the 32-channel array. *)
Definition ELEMENT_POSITIONS : list R :=
  [ -0.00182; -0.00171; -0.0016; -0.00149; -0.00138; -0.00127; -0.00116;
    -0.00105; -0.000935; -0.000825; -0.000715; -0.000605; -0.000495;
    -0.000385; -0.000275; -0.000165;
    0.000165; 0.000275; 0.000385; 0.000495; 0.000605; 0.000715; 0.000825;
    0.000935; 0.00105; 0.00116; 0.00127; 0.00138; 0.00149; 0.0016;
    0.00171; 0.00182 ]%R.

Definition calculate_delays_from_focal_point
  (compute_focus_delays : FocusSolver)
  (focal_x_mm focal_z_mm speed_of_sound : R)
  (num_elements : Z) (pitch_um delay_resolution_ns : R)
  : Result (list Z) :=
  compute_focus_delays num_elements pitch_um (focal_x_mm, focal_z_mm)
    speed_of_sound delay_resolution_ns.

(** The loop of [calculate_delays_from_angle] over the positions. *)
Fixpoint angle_loop (angle_rad speed_of_sound : R) (positions : list R)
  (delays : list Z) : Result (list Z) :=
  match positions with
  | [] => ret delays
  | pos :: positions' =>
      (* Calculate time delay for plane wave steering *)
      let delay_time := np_truediv (pos * sin angle_rad) speed_of_sound in
      (* Convert to clock cycles (assuming 250 MHz clock = 4ns period) *)
      delay_cycles <- int_round (np_div_const delay_time 4e-9) ;;
      angle_loop angle_rad speed_of_sound positions'
        (delays ++ [Z.max 0 delay_cycles])
  end.

Definition calculate_delays_from_angle
  (steering_angle_deg speed_of_sound frequency_hz : R) : Result (list Z) :=
  wavelength <- float_truediv speed_of_sound frequency_hz ;;
  let angle_rad := deg2rad steering_angle_deg in
  delays <- angle_loop angle_rad speed_of_sound ELEMENT_POSITIONS [] ;;
  (* Normalize to minimum delay *)
  min_delay <- py_min delays ;;
  let delays := map (fun d => d - min_delay) delays in
  ret delays.

(** [encode_delay_to_hex]: format [15]=0, [14]=FRAC_DEL, [13:0]=DEL. *)
Definition encode_delay_to_hex (delay_cycles : Z) (fractional : bool) : Z :=
  let value := Z.land delay_cycles 0x3FFF in
  if fractional then Z.lor value 0x4000 else value.

(** The body of the loop of [combine_channel_delays] at index [i]. *)
Definition combine_pair (delays : list Z) (i : Z) : Result Z :=
  d0 <- getitem delays i ;;
  let delay_odd := encode_delay_to_hex d0 false in
  d1 <- getitem delays (i + 1) ;;
  let delay_even := encode_delay_to_hex d1 false in
  let combined_value := Z.lor (Z.shiftl delay_even 16) delay_odd in
  ret combined_value.

(** The loop [for i in range(0, 32, 2): ... combined.append(...)]. *)
Fixpoint combine_loop (delays : list Z) (idx : list Z) (combined : list Z)
  : Result (list Z) :=
  match idx with
  | [] => ret combined
  | i :: idx' =>
      v <- combine_pair delays i ;;
      combine_loop delays idx' (combined ++ [v])
  end.

Definition combine_channel_delays (delays : list Z) : Result (list Z) :=
  if negb (len delays =? 32)
  then Raise (ValueError "Must provide exactly 32 delay values")
  else combine_loop delays (range 0 32 2) [].

End BeamformingService.

(** ** The USB transport *)

(** One call received by the transport. *)
Inductive call : Type :=
| WriteReg (address value : Z)
| ReadReg (address : Z)
| EnableSync (enable : bool).

(** Modelled from the spec: the class [USBQPort] of [EVM_FTDI_API], which
    is imported by [controller.py] and is not part of the sources.  The
    spec treats it as "an opaque register-read/register-write primitive"
    with the interface [transport.write(addr, value)],
    [transport.read(addr) -> value], [transport.enableSync(bool)], whose
    failures are propagated as [TransportError].  Here it is a port that
    records the calls it completed, oldest first.  What a read returns and
    whether a call raises are arbitrary functions of the calls completed so
    far, so that every deterministic device is covered. *)
Record USBQPort : Type := mkPort {
  calls : list call;
  respond : list call -> Z -> Z;
  fault : list call -> call -> option string
}.

Definition record_call (c : call) (d : USBQPort) : USBQPort :=
  mkPort (calls d ++ [c]) (respond d) (fault d).

Module Port.

Definition writeReg (address value : Z) (d : USBQPort)
  : Result unit * USBQPort :=
  match fault d (calls d) (WriteReg address value) with
  | Some msg => (Raise (TransportError msg), d)
  | None => (Ok tt, record_call (WriteReg address value) d)
  end.

Definition readReg (address : Z) (d : USBQPort) : Result Z * USBQPort :=
  match fault d (calls d) (ReadReg address) with
  | Some msg => (Raise (TransportError msg), d)
  | None => (Ok (respond d (calls d) address), record_call (ReadReg address) d)
  end.

Definition enableSync (enable : bool) (d : USBQPort)
  : Result unit * USBQPort :=
  match fault d (calls d) (EnableSync enable) with
  | Some msg => (Raise (TransportError msg), d)
  | None => (Ok tt, record_call (EnableSync enable) d)
  end.

End Port.

(** ** [TX7332Controller] *)

(** The fields of the controller the register methods use ([usb_address],
    [connection_time] and [last_error] are only touched by [connect] and
    [disconnect]). *)
Record TX7332Controller : Type := mkController {
  device : option USBQPort;
  connected : bool
}.

(** A method of the controller: it may raise, and it leaves a controller
    behind in both cases (what was written before an exception stays
    written). *)
Definition M (A : Type) : Type :=
  TX7332Controller -> Result A * TX7332Controller.

#[global] Instance Monad_M : Monad M := {
  ret := fun A a => fun s => (Ok a, s);
  bind := fun A B c k => fun s =>
    match c s with
    | (Ok a, s') => k a s'
    | (Raise e, s') => (Raise e, s')
    end
}.

Definition raise {A} (e : exn) : M A := fun s => (Raise e, s).

(** A pure computation that can raise, run inside a method. *)
Definition lift {A} (r : Result A) : M A := fun s => (r, s).

(** [try: body  except Exception as e: handler(e)] *)
Definition try_except {A} (body : M A) (handler : exn -> M A) : M A :=
  fun s =>
    match body s with
    | (Ok a, s') => (Ok a, s')
    | (Raise e, s') => handler e s'
    end.

(** [self.device.<method>(...)]: the attribute access fails on [None]. *)
Definition on_device {A} (method : string)
  (f : USBQPort -> Result A * USBQPort) : M A :=
  fun s =>
    match device s with
    | None =>
        (Raise (AttributeError
           ("'NoneType' object has no attribute '" ++ method ++ "'")), s)
    | Some d =>
        let (r, d') := f d in (r, mkController (Some d') (connected s))
    end.

(** [self.connected and self.device is not None] *)
Definition has_port (s : TX7332Controller) : bool :=
  connected s && match device s with Some _ => true | None => false end.

Module Controller.

Definition is_connected : M bool :=
  fun s => (Ok (has_port s), s).

Definition ensure_connected : M unit :=
  c <- is_connected ;;
  if negb c then raise (DeviceControllerError "Device not connected")
  else ret tt.

Definition enable_sync (enable : bool) : M unit :=
  ensure_connected ;;
  on_device "enableSync" (Port.enableSync enable).

Definition write_reg (address value : Z) (page_select : Z) : M unit :=
  ensure_connected ;;
  (* Set page select *)
  on_device "writeReg" (Port.writeReg 2 page_select) ;;
  (* Write value *)
  on_device "writeReg" (Port.writeReg address value) ;;
  (* Reset page select *)
  on_device "writeReg" (Port.writeReg 2 0).

Definition read_reg (address : Z) (page_select : Z) : M Z :=
  ensure_connected ;;
  (* Set page select *)
  on_device "writeReg" (Port.writeReg 2 page_select) ;;
  (* Enable read mode *)
  on_device "writeReg" (Port.writeReg 0 2) ;;
  (* Read value *)
  value <- on_device "readReg" (Port.readReg address) ;;
  (* Disable read mode *)
  on_device "writeReg" (Port.writeReg 0 0) ;;
  (* Reset page select *)
  on_device "writeReg" (Port.writeReg 2 0) ;;
  ret value.

End Controller.

(** What the transport sees for one complete register write and for one
    complete register read. *)
Definition write_transaction (address value page_select : Z) : list call :=
  [WriteReg 2 page_select; WriteReg address value; WriteReg 2 0].

Definition read_transaction (address page_select : Z) : list call :=
  [WriteReg 2 page_select; WriteReg 0 2; ReadReg address;
   WriteReg 0 0; WriteReg 2 0].

(** The page the device is left on: the value of the last write to
    register 2, page 0 before any such write. *)
Fixpoint page_selector_from (page : Z) (cs : list call) : Z :=
  match cs with
  | [] => page
  | WriteReg a v :: cs' =>
      page_selector_from (if a =? 2 then v else page) cs'
  | _ :: cs' => page_selector_from page cs'
  end.

(** The calls a controller's port has completed ([[]] without a port). *)
Definition calls_of (s : TX7332Controller) : list call :=
  match device s with Some d => calls d | None => [] end.

(** A port on which no call ever raises. *)
Definition fault_free (d : USBQPort) : Prop :=
  forall h c, fault d h c = None.

(** ** Python strings and number literals *)

Definition slen (s : string) : Z := Z.of_nat (String.length s).

(** [s[lo:hi]], a bound left out is [None]: negative bounds count from the
    end and both are clamped to the string. *)
Definition clamp_index (n i : Z) : Z :=
  let j := if i <? 0 then i + n else i in
  Z.max 0 (Z.min n j).

Definition slice (s : string) (lo hi : option Z) : string :=
  let n := slen s in
  let a := match lo with Some i => clamp_index n i | None => 0 end in
  let b := match hi with Some i => clamp_index n i | None => n end in
  substring (Z.to_nat a) (Z.to_nat (b - a)) s.

(** [s[i]] *)
Definition str_getitem (s : string) (i : Z) : Result string :=
  let j := if i <? 0 then i + slen s else i in
  if (j <? 0) || (slen s <=? j)
  then Raise (IndexError "string index out of range")
  else Ok (substring (Z.to_nat j) 1 s).

(** The value of a digit character in a base up to 16. *)
Definition digit_value (c : ascii) : option Z :=
  let n := Z.of_nat (nat_of_ascii c) in
  if (48 <=? n) && (n <=? 57) then Some (n - 48)
  else if (65 <=? n) && (n <=? 70) then Some (n - 55)
  else if (97 <=? n) && (n <=? 102) then Some (n - 87)
  else None.

(** Digits of a literal after sign and prefix: at least one digit, single
    underscores only between digits ([sep] says that an underscore may
    come next, [seen] that the last character was a digit). *)
Fixpoint parse_digits (base : Z) (s : string) (acc : Z) (sep seen : bool)
  : option Z :=
  match s with
  | EmptyString => if seen then Some acc else None
  | String c s' =>
      if Ascii.eqb c "_"
      then if sep then parse_digits base s' acc false false else None
      else match digit_value c with
           | Some d =>
               if d <? base
               then parse_digits base s' (acc * base + d) true true
               else None
           | None => None
           end
  end.

(** The white space [int()] skips around a literal of ASCII text
    ([Py_ISSPACE]): tab, line feed, vertical tab, form feed, carriage
    return and space. *)
Definition is_space (c : ascii) : bool :=
  let n := Z.of_nat (nat_of_ascii c) in
  ((9 <=? n) && (n <=? 13)) || (n =? 32).

Fixpoint lstrip (s : string) : string :=
  match s with
  | String c s' => if is_space c then lstrip s' else s
  | EmptyString => EmptyString
  end.

Fixpoint rev_string (s : string) (acc : string) : string :=
  match s with
  | EmptyString => acc
  | String c s' => rev_string s' (String c acc)
  end.

Definition strip (s : string) : string :=
  rev_string (lstrip (rev_string (lstrip s) "")) "".

(** The letter of the prefix [0b] or [0x] of a base. *)
Definition prefix_letter (base : Z) (c : ascii) : bool :=
  if base =? 2 then Ascii.eqb c "b" || Ascii.eqb c "B"
  else if base =? 16 then Ascii.eqb c "x" || Ascii.eqb c "X"
  else false.

(** Text of ASCII characters only.  The strings of the code are
    modelled for such text: a Python string with other characters goes
    through [int()]'s translation of Unicode digits and spaces and through
    the escapes [repr] has for them, which are not modelled; the
    properties of strings that come from a request assume [ascii_text]. *)
Fixpoint ascii_text (s : string) : bool :=
  match s with
  | EmptyString => true
  | String c s' => (nat_of_ascii c <? 128)%nat && ascii_text s'
  end.

Fixpoint has_char (c : ascii) (s : string) : bool :=
  match s with
  | EmptyString => false
  | String c' s' => Ascii.eqb c c' || has_char c s'
  end.

Definition double_quote : ascii := ascii_of_nat 34.

Definition hex_char (n : nat) : ascii :=
  ascii_of_nat (if (n <? 10)%nat then 48 + n else 87 + n).

(** One character of [repr(s)] inside the quotes [quote]. *)
Definition repr_char (quote c : ascii) : string :=
  let n := nat_of_ascii c in
  if Ascii.eqb c quote || Ascii.eqb c "\" then String "\" (String c "")
  else if (n =? 9)%nat then "\t"
  else if (n =? 10)%nat then "\n"
  else if (n =? 13)%nat then "\r"
  else if (n <? 32)%nat || (n =? 127)%nat
  then "\x" ++ String (hex_char (n / 16)) (String (hex_char (n mod 16)) "")
  else String c "".

Fixpoint repr_body (quote : ascii) (s : string) : string :=
  match s with
  | EmptyString => ""
  | String c s' => repr_char quote c ++ repr_body quote s'
  end.

(** [repr(s)] of ASCII text: single quotes, unless the text has a single
    quote and no double quote; the quote in use, the backslash and the
    control characters are escaped. *)
Definition py_repr (s : string) : string :=
  let quote :=
    if has_char "'" s && negb (has_char double_quote s)
    then double_quote else "'"%char in
  String quote (repr_body quote s ++ String quote "").

(** [int(s, base)] for base 2 or 16 on ASCII text: surrounding white
    space, an optional sign, an optional prefix (after which one
    underscore may come), digits with single underscores between them.
    The message of the [ValueError] holds the first 200 characters of
    [repr(s)]. *)
Definition int_of_string (s : string) (base : Z) : Result Z :=
  let t := strip s in
  let (neg, body) :=
    match t with
    | String "-" r => (true, r)
    | String "+" r => (false, r)
    | _ => (false, t)
    end in
  let digits :=
    match body with
    | String "0" (String p r) =>
        if prefix_letter base p then parse_digits base r 0 true false
        else parse_digits base body 0 false false
    | _ => parse_digits base body 0 false false
    end in
  match digits with
  | Some n => Ok (if neg then - n else n)
  | None =>
      Raise (ValueError ("invalid literal for int() with base "
                         ++ (if base =? 2 then "2" else "16")
                         ++ ": " ++ substring 0 200 (py_repr s)))
  end.

(** Binary digits of a positive number, most significant first. *)
Fixpoint bin_digits (p : positive) (acc : string) : string :=
  match p with
  | xH => String "1" acc
  | xO p' => bin_digits p' (String "0" acc)
  | xI p' => bin_digits p' (String "1" acc)
  end.

Fixpoint zeros (n : nat) : string :=
  match n with
  | O => ""
  | S n' => String "0" (zeros n')
  end.

(** [format(n, '032b')]: sign, then zeros up to a width of 32, then the
    binary digits. *)
Definition format_032b (n : Z) : string :=
  let sign := if n <? 0 then "-" else "" in
  let digits :=
    match n with
    | Z0 => "0"
    | Zpos p | Zneg p => bin_digits p ""
    end in
  sign ++ zeros (Z.to_nat (32 - slen sign - slen digits)) ++ digits.

(** [str(n)] for an integer. *)
Definition str_int (n : Z) : string :=
  DecimalString.NilZero.string_of_int (Z.to_int n).

(** ** [PatternService] *)

Record Preset : Type := mkPreset {
  name : string;
  preset_pattern_type : string;
  preset_frequency_mhz : R;
  preset_cycles : Z;
  pattern_hex : list Z;
  pattern_start_word : Z;
  preset_description : string
}.

Module PatternService.

(** The dictionary [PRESET_PATTERNS], in the order it is written. *)
Definition PRESET_PATTERNS : list (string * Preset) :=
  [ ("5.6MHz_3LVL_A",
     mkPreset "5.6 MHz 3-Level A" "5.6MHz_3LVL_A" 5.6%R 2
       [0x00020002; 0x0000B5B1] 0x001E
       ("Standard 5.6 MHz 3-level waveform. "
        ++ "Under 250MHz clock, each transition = 22 cycles. "
        ++ "0xB1: 22 cycles PHV (positive high voltage), "
        ++ "0xB5: 22 cycles MHV (negative high voltage)"));
    ("5.6MHz_3LVL_extended",
     mkPreset "5.6 MHz 3-Level Extended" "5.6MHz_3LVL_extended" 5.6%R 2
       [0xB5B10100; 0xC8C80500; 0x0000FF00] 0x001E
       ("Extended 5.6 MHz with guard bands. "
        ++ "Includes GND transitions for safety."));
    ("3.4MHz_2LVL_A",
     mkPreset "3.4 MHz 2-Level A" "3.4MHz_2LVL_A" 3.4%R 2
       [0x31F90300; 0x050035FD; 0xFF00C8C8] 0x001E
       ("3.4 MHz 2-level waveform. "
        ++ "250MHz / (2*37) = 3.38 MHz. "
        ++ "Uses PHV and MHV levels only."));
    ("test_glitch",
     mkPreset "Test Glitch Pattern" "test_glitch" 0%R 0
       [0xA0A00000] 0x001E
       "Test pattern for T/R switch glitch testing") ].

(** [PRESET_PATTERNS.get(pattern_type)] *)
Fixpoint dict_get (d : list (string * Preset)) (key : string)
  : option Preset :=
  match d with
  | [] => None
  | (k, v) :: d' => if String.eqb k key then Some v else dict_get d' key
  end.

Definition get_preset_by_type (pattern_type : string) : option Preset :=
  dict_get PRESET_PATTERNS pattern_type.

End PatternService.

(** ** The API models the two apply routes use *)

Record PatternConfig : Type := mkPatternConfig {
  pattern_type : string;
  frequency_mhz : R;
  cycles : Z;
  custom_hex : option (list string);
  description : string
}.

Record BeamformingConfig : Type := mkBeamformingConfig {
  focal_point_x_mm : R;
  focal_point_z_mm : R;
  steering_angle_deg : R;
  speed_of_sound : R;
  auto_calculate : bool
}.

(** A value of the [data] dictionary of a response. *)
Inductive pyval : Type :=
| VStr (s : string)
| VInt (n : Z)
| VFloat (x : R).

Record ApiResponse : Type := mkApiResponse {
  success : bool;
  message : string;
  data : list (string * pyval)
}.

(** ** Route [POST /api/patterns/apply] *)

(** [[int(h, 16) ... for h in custom_hex]]: the entries of [custom_hex]
    are strings. *)
Fixpoint parse_custom_hex (hs : list string) : Result (list Z) :=
  match hs with
  | [] => ret []
  | h :: hs' =>
      v <- int_of_string h 16 ;;
      vs <- parse_custom_hex hs' ;;
      ret (v :: vs)
  end.

(** The words to write and their start word, from the current pattern. *)
Definition pattern_data (_current_pattern : PatternConfig)
  : Result (list Z * Z) :=
  match custom_hex _current_pattern with
  | Some (h :: hs) =>
      (* Use custom pattern *)
      pattern_hex <- parse_custom_hex (h :: hs) ;;
      ret (pattern_hex, 0x001E)
  | _ =>
      (* Use preset pattern *)
      match PatternService.get_preset_by_type
              (pattern_type _current_pattern) with
      | None => Raise (HTTPException 400 "Pattern type not found")
      | Some preset => ret (pattern_hex preset, pattern_start_word preset)
      end
  end.

(** The handlers shared by the routes:
    [except HTTPException: raise] and
    [except Exception as e: raise HTTPException(500, prefix + str(e))]. *)
Definition http_errors {A} (prefix : string) (body : M A) : M A :=
  try_except body
    (fun e =>
       if is_HTTPException e then raise e
       else raise (HTTPException 500 (prefix ++ str_exn e))).

Definition apply_pattern (_current_pattern : PatternConfig) : M ApiResponse :=
  http_errors "Error applying pattern: "
    (c <- Controller.is_connected ;;
     (if negb c then raise (HTTPException 400 "Device not connected")
      else ret tt) ;;
     (* Get pattern data *)
     pd <- lift (pattern_data _current_pattern) ;;
     let pattern_hex := fst pd in
     let pattern_start_word := snd pd in
     (* Disable sync before writing *)
     Controller.enable_sync false ;;
     Controller.write_reg 0x08 0x00000000 0 ;;
     (* Set pattern start word for all channels (registers 0x0C to 0x13) *)
     for_ (range 0x0C 0x14 1)
       (fun reg_index =>
          Controller.write_reg reg_index
            (Z.lor (Z.shiftl pattern_start_word 16) pattern_start_word) 0) ;;
     (* Write pattern to memory (all 16 channels, page select 0x0000FFFF) *)
     for_ (enumerate pattern_hex)
       (fun ip =>
          Controller.write_reg (0x40 + pattern_start_word + fst ip) (snd ip)
            0x0000FFFF) ;;
     ret (mkApiResponse true "Pattern applied to device"
            [("pattern_type", VStr (pattern_type _current_pattern));
             ("frequency_mhz", VFloat (frequency_mhz _current_pattern));
             ("pattern_words", VInt (len pattern_hex))])).

(** ** Route [POST /api/beamforming/apply] *)

(** The delays of the current configuration, with the default arguments
    of the two service functions filled in. *)
Definition current_delays (compute_focus_delays : FocusSolver)
  (_current_beamforming : BeamformingConfig) : Result (list Z) :=
  if auto_calculate _current_beamforming
  then BeamformingService.calculate_delays_from_focal_point
         compute_focus_delays
         (focal_point_x_mm _current_beamforming)
         (focal_point_z_mm _current_beamforming)
         (speed_of_sound _current_beamforming)
         32 110 4
  else BeamformingService.calculate_delays_from_angle
         (steering_angle_deg _current_beamforming)
         (speed_of_sound _current_beamforming)
         5.6e6.

Definition apply_beamforming (compute_focus_delays : FocusSolver)
  (_current_beamforming : BeamformingConfig) : M ApiResponse :=
  http_errors "Error applying beamforming: "
    (c <- Controller.is_connected ;;
     (if negb c then raise (HTTPException 400 "Device not connected")
      else ret tt) ;;
     (* Calculate delays *)
     delays <- lift (current_delays compute_focus_delays
                       _current_beamforming) ;;
     (* Combine delays into register values *)
     combined_delays <-
       lift (BeamformingService.combine_channel_delays delays) ;;
     (* Disable sync before writing *)
     Controller.enable_sync false ;;
     (* Set delay start word (using TX7364 approach) *)
     let delay_start_word := 0x0 in
     for_ (range 0x0D 0x15 1)  (* Registers 0x0D to 0x14 *)
       (fun reg_index =>
          Controller.write_reg reg_index
            (Z.lor (Z.shiftl delay_start_word 16) delay_start_word) 0) ;;
     (* Write delay values to device, delay page select 0x00010000 *)
     for_ (enumerate combined_delays)
       (fun id =>
          let reg_address := 0x40 + delay_start_word * 8 + fst id in
          Controller.write_reg reg_address (snd id) 0x00010000) ;;
     (* Enable sync *)
     Controller.enable_sync true ;;
     Controller.write_reg 0x08 0x00000002 0 ;;  (* clock sync detection *)
     ret (mkApiResponse true "Beamforming configuration applied"
            [("focal_point_x_mm",
              VFloat (focal_point_x_mm _current_beamforming));
             ("focal_point_z_mm",
              VFloat (focal_point_z_mm _current_beamforming));
             ("delays_applied", VInt (len combined_delays))])).

(** ** [DiagnosticsService] *)

(** One entry of the list of checks; [value] is [None] for the entries
    that are not read from a register. *)
Record Check : Type := mkCheck {
  check_name : string;
  passed : bool;
  check_message : string;
  value : option string
}.

Module DiagnosticsService.

(** The six registers as 32-character bit strings. *)
Record Snapshot : Type := mkSnapshot {
  reg1D_bin : string;
  reg4D_bin : string;
  reg4E_bin : string;
  reg62_bin : string;
  reg6C_bin : string;
  reg78_bin : string
}.

(** [(s[i] == expected, name, s[i])] *)
Definition bit_check (s : string) (i : Z) (expected : string)
  (name : string) : Result (bool * string * string) :=
  b <- str_getitem s i ;;
  ret (String.eqb b expected, name, b).

(** [(int(s[-6:], 2) == 0, name, s[-6:])] *)
Definition low6_check (s : string) (name : string)
  : Result (bool * string * string) :=
  n <- int_of_string (slice s (Some (-6)) None) 2 ;;
  ret (n =? 0, name, slice s (Some (-6)) None).

(** [(int(s[:5], 2) == expected, name, str(int(s[:5], 2)))] *)
Definition flag_check (s : string) (expected : Z) (name : string)
  : Result (bool * string * string) :=
  n <- int_of_string (slice s None (Some 5)) 2 ;;
  n' <- int_of_string (slice s None (Some 5)) 2 ;;
  ret (n =? expected, name, str_int n').

(** A Python list display: the elements are evaluated in order. *)
Fixpoint sequence {A} (l : list (Result A)) : Result (list A) :=
  match l with
  | [] => ret []
  | r :: l' => x <- r ;; xs <- sequence l' ;; ret (x :: xs)
  end.

Definition diagnostic_checks (r : Snapshot)
  : Result (list (bool * string * string)) :=
  sequence
    [ low6_check (reg4D_bin r) "TEMP_SHUT_ERR[11:6]";
      low6_check (reg62_bin r) "TEMP_SHUT_ERR[5:0]";
      bit_check (reg6C_bin r) 15 "1" "NO_CLK_ERR";
      bit_check (reg1D_bin r) 31 "0" "SINGLE_LVL_ERR";
      bit_check (reg1D_bin r) 29 "0" "LONG_TRAN_ERR";
      bit_check (reg4E_bin r) 27 "0" "P5V_SUP_ERR";
      bit_check (reg4E_bin r) 26 "0" "M5V_SUP_ERR";
      bit_check (reg4E_bin r) 16 "0" "PHV_RANGE_ERR";
      bit_check (reg78_bin r) 29 "0" "TRIG_ERR";
      bit_check (reg78_bin r) 31 "0" "STANDBY_ERR";
      flag_check (reg4D_bin r) 21 "VALID_FLAG_1";
      flag_check (reg4E_bin r) 10 "VALID_FLAG_2";
      flag_check (reg62_bin r) 11 "VALID_FLAG_3";
      flag_check (reg6C_bin r) 22 "VALID_FLAG_4";
      flag_check (reg78_bin r) 25 "VALID_FLAG_5";
      bit_check (reg4D_bin r) 15 "0" "ERROR_RST" ].

(** The loop that turns the tuples into entries; it returns the list of
    checks and [all_passed]. *)
Fixpoint report_loop (l : list (bool * string * string))
  (checks : list Check) (all_passed : bool) : list Check * bool :=
  match l with
  | [] => (checks, all_passed)
  | (passed, check_name, value) :: l' =>
      let status_msg :=
        check_name ++ ": " ++ (if passed then "PASSED" else "FAILED") in
      report_loop l'
        (checks ++ [mkCheck check_name passed status_msg (Some value)])%list
        (if negb passed then false else all_passed)
  end.

(** The attempt to reset the error flags; [time.sleep(1)] has no effect
    on the model. *)
Definition reset_error_flags (r : Snapshot) (checks : list Check)
  : M (list Check) :=
  try_except
    ((* Check for NO_CLK_ERR *)
     b <- lift (str_getitem (reg6C_bin r) 15) ;;
     (if negb (String.eqb b "1")
      then Controller.write_reg 0x08 0x00000002 0
      else ret tt) ;;
     (* Reset error flags *)
     Controller.write_reg 0x4D (Z.shiftl 1 16) 0 ;;  (* Set ERROR_RST *)
     Controller.write_reg 0x4D 0 0 ;;  (* Clear ERROR_RST *)
     ret (checks ++ [mkCheck "ERROR_RESET" true
                       "Error flags reset attempted" None])%list)
    (fun e =>
       ret (checks ++ [mkCheck "ERROR_RESET" false
                         ("Failed to reset error flags: " ++ str_exn e)
                         None])%list).

(** [run_diagnostics].  The list [checks] is created before the outer
    [try] and only appended to after the registers are read and the tuples
    built; from the first append on no exception leaves the body (the
    inner [try] catches every exception), so the outer handler always
    finds [checks] empty. *)
Definition run_diagnostics : M (string * list Check) :=
  Controller.ensure_connected ;;
  let checks : list Check := [] in
  let all_passed := true in
  try_except
    ((* Read diagnostic registers *)
     reg1D <- Controller.read_reg 0x1D 0 ;;
     reg4D <- Controller.read_reg 0x4D 0 ;;
     reg4E <- Controller.read_reg 0x4E 0 ;;
     reg62 <- Controller.read_reg 0x62 0 ;;
     reg6C <- Controller.read_reg 0x6C 0 ;;
     reg78 <- Controller.read_reg 0x78 0 ;;
     (* Convert to binary strings *)
     let r := mkSnapshot (format_032b reg1D) (format_032b reg4D)
                (format_032b reg4E) (format_032b reg62)
                (format_032b reg6C) (format_032b reg78) in
     dc <- lift (diagnostic_checks r) ;;
     let reported := report_loop dc checks all_passed in
     let checks := fst reported in
     let all_passed := snd reported in
     (* If diagnostics failed, attempt to reset error flags *)
     checks <- (if negb all_passed then reset_error_flags r checks
                else ret checks) ;;
     let overall_status := if all_passed then "PASS" else "FAIL" in
     ret (overall_status, checks))
    (fun e =>
       ret ("FAIL",
            (checks ++ [mkCheck "DIAGNOSTICS" false
                          ("Diagnostic error: " ++ str_exn e) None])%list)).

End DiagnosticsService.

(** ** Vocabulary of the properties and sample values *)

(** What the loop of [calculate_delays_from_angle] appends for the
    element at [pos] when the quotient is finite: its cycles, clamped
    at 0. *)
Definition steering_cycles (angle_rad speed_of_sound pos : R) : Z :=
  Z.max 0 (round_half_even (pos * sin angle_rad / speed_of_sound / 4e-9)).

(** A port on which the next [n] calls do not raise. *)
Definition calm (n : nat) (d : USBQPort) : Prop :=
  forall h c,
    (List.length h < List.length (calls d) + n)%nat -> fault d h c = None.

(** A port after it has completed the calls [cs]. *)
Definition record_calls (cs : list call) (d : USBQPort) : USBQPort :=
  mkPort (calls d ++ cs) (respond d) (fault d).

(** The connected controller of a port. *)
Definition ready (d : USBQPort) : TX7332Controller :=
  mkController (Some d) true.

(** The calls [cs] made one after the other on a port, up to the first
    that raises: the calls the port completed, and the message of the call
    that raised, if one did. *)
Fixpoint send (cs : list call) (d : USBQPort) : list call * option string :=
  match cs with
  | [] => ([], None)
  | c :: cs' =>
      match fault d (calls d) c with
      | Some msg => ([], Some msg)
      | None =>
          let r := send cs' (record_call c d) in (c :: fst r, snd r)
      end
  end.

(** A method that, on a connected controller, makes the calls [cs] in
    order and returns [b], and that stops with the exception of the
    transport at the first call that raises. *)
Definition runs {B} (c : M B) (cs : list call) (b : B) : Prop :=
  forall d,
    c (ready d)
    = (match snd (send cs d) with
       | None => Ok b
       | Some msg => Raise (TransportError msg)
       end,
       ready (record_calls (fst (send cs d)) d)).

(** A call that is no [enableSync]. *)
Definition no_sync (c : call) : Prop :=
  match c with EnableSync _ => False | _ => True end.

(** The custom hex strings of a pattern, if it has any, are ASCII text. *)
Definition ascii_hex (pattern : PatternConfig) : bool :=
  match custom_hex pattern with
  | Some hs => forallb ascii_text hs
  | None => true
  end.

(** The arguments of the [enableSync] calls among [cs], in order. *)
Fixpoint sync_calls (cs : list call) : list bool :=
  match cs with
  | [] => []
  | EnableSync b :: cs' => b :: sync_calls cs'
  | _ :: cs' => sync_calls cs'
  end.

Definition syncs (s : TX7332Controller) : list bool :=
  sync_calls (calls_of s).


(** What the transport sees when a pattern is applied: sync off, clock
    sync detection off, the start word in the eight registers, the words
    in the pattern page. *)
Definition pattern_trace (words : list Z) (start_word : Z) : list call :=
  EnableSync false
  :: write_transaction 0x08 0x00000000 0
  ++ flat_map
       (fun reg_index =>
          write_transaction reg_index
            (Z.lor (Z.shiftl start_word 16) start_word) 0)
       (range 0x0C 0x14 1)
  ++ flat_map
       (fun ip =>
          write_transaction (0x40 + start_word + fst ip) (snd ip) 0x0000FFFF)
       (enumerate words).

(** What the transport sees when a delay table is applied. *)
Definition delay_trace (combined_delays : list Z) : list call :=
  EnableSync false
  :: flat_map (fun reg_index => write_transaction reg_index 0 0)
       (range 0x0D 0x15 1)
  ++ flat_map
       (fun id => write_transaction (0x40 + fst id) (snd id) 0x00010000)
       (enumerate combined_delays)
  ++ EnableSync true
  :: write_transaction 0x08 0x00000002 0.

(** The six registers the diagnostics read. *)
Definition diagnostic_registers : list Z :=
  [0x1D; 0x4D; 0x4E; 0x62; 0x6C; 0x78].

(** The snapshot of six registers that all read as zero. *)
Definition zero_snapshot : DiagnosticsService.Snapshot :=
  DiagnosticsService.mkSnapshot
    (format_032b 0) (format_032b 0) (format_032b 0)
    (format_032b 0) (format_032b 0) (format_032b 0).

(** The sixteen checks of [zero_snapshot]: result, name and value. *)
Definition zero_tuples : list (bool * string * string) :=
  [ (true, "TEMP_SHUT_ERR[11:6]", "000000");
    (true, "TEMP_SHUT_ERR[5:0]", "000000");
    (false, "NO_CLK_ERR", "0");
    (true, "SINGLE_LVL_ERR", "0");
    (true, "LONG_TRAN_ERR", "0");
    (true, "P5V_SUP_ERR", "0");
    (true, "M5V_SUP_ERR", "0");
    (true, "PHV_RANGE_ERR", "0");
    (true, "TRIG_ERR", "0");
    (true, "STANDBY_ERR", "0");
    (false, "VALID_FLAG_1", "0");
    (false, "VALID_FLAG_2", "0");
    (false, "VALID_FLAG_3", "0");
    (false, "VALID_FLAG_4", "0");
    (false, "VALID_FLAG_5", "0");
    (true, "ERROR_RST", "0") ].

(** Their entries in the report. *)
Definition zero_report : list Check :=
  map (fun t =>
         let '(passed, check_name, value) := t in
         mkCheck check_name passed
           (check_name ++ ": " ++ (if passed then "PASSED" else "FAILED"))
           (Some value))
    zero_tuples.

(** The names of the checks of a report that did not pass. *)
Definition failed_checks (checks : list Check) : list string :=
  map check_name (filter (fun c => negb (passed c)) checks).

(** The entries of a report with a given name. *)
Definition entries_named (n : string) (checks : list Check) : list Check :=
  filter (fun c => String.eqb (check_name c) n) checks.

(** A port that has seen nothing, answers every read with 0 and never
    raises. *)
Definition quiet_port : USBQPort :=
  mkPort [] (fun _ _ => 0) (fun _ _ => None).

(** A port like [quiet_port] whose call number [n] (counted from 0)
    raises. *)
Definition failing_port (n : nat) : USBQPort :=
  mkPort [] (fun _ _ => 0)
    (fun h _ => if Nat.eqb (List.length h) n
                then Some "USB write failed" else None).

Definition sample_delays : list Z :=
  [0; 1; 2; 3; 16383; 16384; -1; 70000; 8; 9; 10; 11; 12; 13; 14; 15;
   16; 17; 18; 19; 20; 21; 22; 23; 24; 25; 26; 27; 28; 29; 30; 31].

(** A focus solver that returns the same array for every focal point. *)
Definition constant_solver (delays : list Z) : FocusSolver :=
  fun _ _ _ _ _ => Ok delays.

(** The default [BeamformingConfig()] and the initial [_current_pattern]. *)
Definition default_beamforming : BeamformingConfig :=
  mkBeamformingConfig 0 15 0 1500 true.

Definition default_pattern : PatternConfig :=
  mkPatternConfig "5.6MHz_3LVL_A" 5.6 2 None "5.6 MHz 3-level wave".

(** A current pattern that carries the words of the first preset as
    custom hex strings. *)
Definition custom_pattern : PatternConfig :=
  mkPatternConfig "custom" 5.6 2 (Some ["00020002"; "0x0000B5B1"]) "".

(** ** The other methods of [TX7332Controller] *)

(** [software_reset]; [time.sleep] has no effect on the model. *)
Definition software_reset : M unit :=
  Controller.ensure_connected ;;
  Controller.write_reg 0x0 0x00000001 0.

(** [memory_reset]: a write that raises is reported with [print] and the
    loop goes on. *)
Definition memory_reset : M unit :=
  Controller.ensure_connected ;;
  for_ (range 0x00 0x40 1)
    (fun addr =>
       try_except (Controller.write_reg addr 0x00000000 0x0000FFFF)
         (fun e => ret tt)).


(** ** The rest of [PatternService] and of the pattern routes *)

(** [PatternService.get_presets] *)
Definition get_presets : list Preset :=
  map snd PatternService.PRESET_PATTERNS.

(** The loop of [validate_custom_pattern]; every [Z] is an [int]. *)
Fixpoint validate_loop (pattern_hex : list Z) : bool :=
  match pattern_hex with
  | [] => true
  | val :: rest =>
      if (val <? 0) || (0xFFFFFFFF <? val) then false
      else validate_loop rest
  end.

(** [PatternService.validate_custom_pattern] *)
Definition validate_custom_pattern (pattern_hex : list Z) : bool :=
  match pattern_hex with
  | [] => false
  | _ => validate_loop pattern_hex
  end.

(** Route [POST /api/patterns/custom].  The result is the pattern the
    route returns, which is also the new value of [_current_pattern];
    when the route raises, [_current_pattern] keeps its value.  [int(h, 16)]
    is outside any [try]: its [ValueError] leaves the route as it is. *)
Definition create_custom_pattern (pattern : PatternConfig)
  : Result PatternConfig :=
  match custom_hex pattern with
  | Some (h :: hs) =>
      (* Validate custom pattern *)
      pattern_hex <- parse_custom_hex (h :: hs) ;;
      if negb (validate_custom_pattern pattern_hex)
      then Raise (HTTPException 400 "Invalid custom pattern")
      else ret pattern
  | _ => ret pattern
  end.

(** The constructor [PatternConfig(...)]: pydantic checks the bounds of
    [frequency_mhz] ([ge=0.1, le=10.0]) and of [cycles] ([ge=1, le=100])
    and raises its [ValidationError], a subclass of [ValueError], when
    one fails.  Of its message only the first line is kept. *)
Definition PatternConfig_init (pattern_type : string) (frequency_mhz : R)
  (cycles : Z) (custom_hex : option (list string)) (description : string)
  : Result PatternConfig :=
  let frequency_ok :=
    if Rle_dec 0.1 frequency_mhz
    then if Rle_dec frequency_mhz 10.0 then true else false
    else false in
  let cycles_ok := (1 <=? cycles) && (cycles <=? 100) in
  if frequency_ok && cycles_ok
  then Ok (mkPatternConfig pattern_type frequency_mhz cycles custom_hex
             description)
  else Raise (ValueError
                (if frequency_ok || cycles_ok
                 then "1 validation error for PatternConfig"
                 else "2 validation errors for PatternConfig")).

(** Route [POST /api/patterns/apply-preset/{pattern_type}]: the new
    value of [_current_pattern], and what is done with the controller.
    The global is assigned before the pattern is applied. *)
Definition apply_preset_pattern (pattern_type : string)
  (_current_pattern : PatternConfig) : PatternConfig * M ApiResponse :=
  match PatternService.get_preset_by_type pattern_type with
  | None =>
      (_current_pattern,
       raise (HTTPException 404 "Pattern preset not found"))
  | Some preset =>
      (* Update current pattern *)
      match PatternConfig_init (preset_pattern_type preset)
              (preset_frequency_mhz preset) (preset_cycles preset)
              None (preset_description preset) with
      | Raise e => (_current_pattern, raise e)
      | Ok pattern =>
          (* Apply to device *)
          (pattern, apply_pattern pattern)
      end
  end.

(** ** Route [POST /api/beamforming/calculate] *)

Record BeamformingDelays : Type := mkBeamformingDelays {
  delays : list Z;
  delays_focal_point_x_mm : R;
  delays_focal_point_z_mm : R;
  delays_steering_angle_deg : R
}.

(** The route computes the delays of the configuration it is given as
    the apply route does for the current one, and answers every
    exception with status 500. *)
Definition calculate_delays (compute_focus_delays : FocusSolver)
  (config : BeamformingConfig) : Result BeamformingDelays :=
  match current_delays compute_focus_delays config with
  | Ok delays =>
      Ok (mkBeamformingDelays delays (focal_point_x_mm config)
            (focal_point_z_mm config) (steering_angle_deg config))
  | Raise e =>
      Raise (HTTPException 500 ("Calculation error: " ++ str_exn e))
  end.

(** The bounds [BeamformingConfig] puts on its fields. *)
Definition valid_beamforming (config : BeamformingConfig) : Prop :=
  (0 <= focal_point_z_mm config)%R /\
  (-30 <= steering_angle_deg config <= 30)%R /\
  (1000 <= speed_of_sound config <= 2000)%R.

(** ** The channel routes *)

Inductive Mode : Type := TX | RX.

Record ChannelConfig : Type := mkChannelConfig {
  channel_id : Z;
  enabled : bool;
  mode : Mode;
  delay_cycles : Z;
  delay_fractional : bool;
  power_down : bool
}.

(** [l[i]] and [l[i] = x] on a list of any type. *)
Definition list_index {A} (l : list A) (i : Z) : option nat :=
  let j := if i <? 0 then i + len l else i in
  if (j <? 0) || (len l <=? j) then None else Some (Z.to_nat j).

Fixpoint replace_nth {A} (n : nat) (x : A) (l : list A) : list A :=
  match l, n with
  | [], _ => []
  | _ :: l', O => x :: l'
  | y :: l', S n' => y :: replace_nth n' x l'
  end.

Definition list_getitem {A} (l : list A) (i : Z) : Result A :=
  match list_index l i with
  | Some j =>
      match nth_error l j with
      | Some x => Ok x
      | None => Raise (IndexError "list index out of range")
      end
  | None => Raise (IndexError "list index out of range")
  end.

Definition list_setitem {A} (l : list A) (i : Z) (x : A) : Result (list A) :=
  match list_index l i with
  | Some j => Ok (replace_nth j x l)
  | None => Raise (IndexError "list assignment index out of range")
  end.

(** A route that works on the global [_channel_state]: it may raise, and
    leaves the list behind in both cases. *)
Definition Ch (A : Type) : Type :=
  list ChannelConfig -> Result A * list ChannelConfig.

#[global] Instance Monad_Ch : Monad Ch := {
  ret := fun A a => fun st => (Ok a, st);
  bind := fun A B c k => fun st =>
    match c st with
    | (Ok a, st') => k a st'
    | (Raise e, st') => (Raise e, st')
    end
}.

Definition ch_raise {A} (e : exn) : Ch A := fun st => (Raise e, st).

(** [_channel_state[i]] *)
Definition ch_get (i : Z) : Ch ChannelConfig :=
  fun st => (list_getitem st i, st).

(** [_channel_state[i] = channel] *)
Definition ch_set (i : Z) (channel : ChannelConfig) : Ch unit :=
  fun st =>
    match list_setitem st i channel with
    | Ok st' => (Ok tt, st')
    | Raise e => (Raise e, st)
    end.

(** The whole list, as the routes return it. *)
Definition ch_all : Ch (list ChannelConfig) := fun st => (Ok st, st).

Definition _initialize_channel_state : Ch unit :=
  fun st =>
    match st with
    | [] =>
        (Ok tt,
         map (fun i => mkChannelConfig i true TX 0 false false)
           (range 1 33 1))
    | _ => (Ok tt, st)
    end.

Definition get_all_channels : Ch (list ChannelConfig) :=
  _initialize_channel_state ;;
  ch_all.

Definition get_channel (channel_id : Z) : Ch ChannelConfig :=
  _initialize_channel_state ;;
  if (channel_id <? 1) || (32 <? channel_id)
  then ch_raise (HTTPException 400 "Channel ID must be 1-32")
  else ch_get (channel_id - 1).

Definition update_channel (id : Z) (channel : ChannelConfig)
  : Ch ChannelConfig :=
  _initialize_channel_state ;;
  if (id <? 1) || (32 <? id)
  then ch_raise (HTTPException 400 "Channel ID must be 1-32")
  else if negb (channel_id channel =? id)
  then ch_raise (HTTPException 400 "Channel ID mismatch")
  else ch_set (id - 1) channel ;; ret channel.

Definition update_channels_bulk (channels : list ChannelConfig)
  : Ch (list ChannelConfig) :=
  _initialize_channel_state ;;
  for_ channels
    (fun channel =>
       if (1 <=? channel_id channel) && (channel_id channel <=? 32)
       then ch_set (channel_id channel - 1) channel
       else ret tt) ;;
  ch_all.

(** [_channel_state[i].mode = m; _channel_state[i].enabled = True] *)
Definition set_mode (m : Mode) (i : Z) : Ch unit :=
  channel <- ch_get i ;;
  ch_set i (mkChannelConfig (channel_id channel) (enabled channel) m
              (delay_cycles channel) (delay_fractional channel)
              (power_down channel)) ;;
  channel <- ch_get i ;;
  ch_set i (mkChannelConfig (channel_id channel) true (mode channel)
              (delay_cycles channel) (delay_fractional channel)
              (power_down channel)).

(** Route [POST /api/channels/preset]; the preset is one of ["all_tx"],
    ["all_rx"], ["half_tx_half_rx"] and ["custom"]. *)
Definition apply_preset (preset : string) : Ch (list ChannelConfig) :=
  _initialize_channel_state ;;
  (if String.eqb preset "all_tx"
   then for_ (range 0 32 1) (set_mode TX)
   else if String.eqb preset "all_rx"
   then for_ (range 0 32 1) (set_mode RX)
   else if String.eqb preset "half_tx_half_rx"
   then for_ (range 0 16 1) (set_mode TX) ;;
        for_ (range 16 32 1) (set_mode RX)
   else ret tt) ;;
  ch_all.

(** The loop that builds the power-down mask of [apply_channel_config]. *)
Fixpoint power_down_loop (l : list (Z * ChannelConfig)) (power_down_mask : Z)
  : Z :=
  match l with
  | [] => power_down_mask
  | (i, channel) :: l' =>
      power_down_loop l'
        (if power_down channel || negb (enabled channel)
         then Z.lor power_down_mask (Z.shiftl 1 i)
         else power_down_mask)
  end.

(** Route [POST /api/channels/apply], on the controller and on
    [_channel_state]: the list is initialised only once the controller is
    known to be connected. *)
Definition apply_channel_config (st : list ChannelConfig)
  (s : TX7332Controller)
  : (Result ApiResponse * TX7332Controller) * list ChannelConfig :=
  let st' := if has_port s then snd (_initialize_channel_state st) else st in
  (http_errors "Error applying configuration: "
     (c <- Controller.is_connected ;;
      (if negb c then raise (HTTPException 400 "Device not connected")
       else ret tt) ;;
      (* Disable sync before writing *)
      Controller.enable_sync false ;;
      (* Build power-down mask for disabled channels *)
      let power_down_mask := power_down_loop (enumerate st') 0 in
      (* Apply power down configuration *)
      Controller.write_reg 0x07
        (Z.lor (Z.shiftl 0xFFFF 16) power_down_mask) 0 ;;
      ret (mkApiResponse true "Channel configuration applied to device"
             [("channels_configured", VInt 32)])) s,
   st').

(** The list has its 32 entries and channel [k] is entry [k - 1]. *)
Definition channels_in_place (st : list ChannelConfig) : Prop :=
  List.length st = 32%nat /\
  forall i, (i < 32)%nat ->
    option_map channel_id (nth_error st i) = Some (Z.of_nat i + 1).

(** ** Route [POST /api/device/diagnostics] *)

Record DiagnosticsResponse : Type := mkDiagnosticsResponse {
  timestamp : string;
  overall_status : string;
  checks : list Check;
  error_count : Z
}.

(** [now] is what [datetime.now()] gives. *)
Definition run_diagnostics (now : string) : M DiagnosticsResponse :=
  http_errors "Diagnostics error: "
    (c <- Controller.is_connected ;;
     (if negb c then raise (HTTPException 400 "Device not connected")
      else ret tt) ;;
     report <- DiagnosticsService.run_diagnostics ;;
     let overall_status := fst report in
     let checks := snd report in
     let error_count :=
       len (filter (fun check => negb (passed check)) checks) in
     ret (mkDiagnosticsResponse now overall_status checks error_count)).

(** A channel after a preset gave it the mode [m]: enabled, the other
    fields kept. *)
Definition with_mode (m : Mode) (channel : ChannelConfig) : ChannelConfig :=
  mkChannelConfig (channel_id channel) true m (delay_cycles channel)
    (delay_fractional channel) (power_down channel).

(** The list a channel route works on: [_channel_state] once
    [_initialize_channel_state] has run. *)
Definition initialized (st : list ChannelConfig) : list ChannelConfig :=
  snd (_initialize_channel_state st).

(** Whether the channel at index [i] is switched off in the mask of
    [apply_channel_config]. *)
Definition switched_off (st : list ChannelConfig) (i : nat) : bool :=
  match nth_error st i with
  | Some channel => power_down channel || negb (enabled channel)
  | None => false
  end.

(** A list of 32 channels with the identifiers 1..32, some of them
    changed. *)
Definition sample_channels : list ChannelConfig :=
  map (fun i =>
         mkChannelConfig i (negb (i =? 3)) (if i <? 9 then TX else RX)
           (i * 10) false ((i =? 20) || (i =? 1)))
    (range 1 33 1).

(** The [w] low bits of [n] as characters, most significant first. *)
Definition bit_char (b : bool) : ascii := if b then "1"%char else "0"%char.

Fixpoint bit_string (w : nat) (n : Z) : string :=
  match w with
  | O => EmptyString
  | S w' => String (bit_char (Z.testbit n (Z.of_nat w'))) (bit_string w' n)
  end.

(** Bit [k] of a register as the string ["0"] or ["1"]. *)
Definition bit_value (reg k : Z) : string :=
  String (bit_char (Z.testbit reg k)) "".

(** The sixteen checks on six 32-bit register values, as tests on their
    bits: result, name and reported value of each.  The value of a
    temperature check is the six low bits as a string, that of a flag
    check the decimal number of the five top bits, that of any other
    check the bit it tests. *)
Definition bit_checks (reg1D reg4D reg4E reg62 reg6C reg78 : Z)
  : list (bool * string * string) :=
  [ (Z.land reg4D 0x3F =? 0, "TEMP_SHUT_ERR[11:6]", bit_string 6 reg4D);
    (Z.land reg62 0x3F =? 0, "TEMP_SHUT_ERR[5:0]", bit_string 6 reg62);
    (Z.testbit reg6C 16, "NO_CLK_ERR", bit_value reg6C 16);
    (negb (Z.testbit reg1D 0), "SINGLE_LVL_ERR", bit_value reg1D 0);
    (negb (Z.testbit reg1D 2), "LONG_TRAN_ERR", bit_value reg1D 2);
    (negb (Z.testbit reg4E 4), "P5V_SUP_ERR", bit_value reg4E 4);
    (negb (Z.testbit reg4E 5), "M5V_SUP_ERR", bit_value reg4E 5);
    (negb (Z.testbit reg4E 15), "PHV_RANGE_ERR", bit_value reg4E 15);
    (negb (Z.testbit reg78 2), "TRIG_ERR", bit_value reg78 2);
    (negb (Z.testbit reg78 0), "STANDBY_ERR", bit_value reg78 0);
    (Z.shiftr reg4D 27 =? 21, "VALID_FLAG_1", str_int (Z.shiftr reg4D 27));
    (Z.shiftr reg4E 27 =? 10, "VALID_FLAG_2", str_int (Z.shiftr reg4E 27));
    (Z.shiftr reg62 27 =? 11, "VALID_FLAG_3", str_int (Z.shiftr reg62 27));
    (Z.shiftr reg6C 27 =? 22, "VALID_FLAG_4", str_int (Z.shiftr reg6C 27));
    (Z.shiftr reg78 27 =? 25, "VALID_FLAG_5", str_int (Z.shiftr reg78 27));
    (negb (Z.testbit reg4D 16), "ERROR_RST", bit_value reg4D 16) ].

(** Register values that pass every check. *)
Definition healthy_port : USBQPort :=
  mkPort []
    (fun _ address =>
       if address =? 0x4D then 0xA8000000
       else if address =? 0x4E then 0x50000000
       else if address =? 0x62 then 0x58000000
       else if address =? 0x6C then 0xB0010000
       else if address =? 0x78 then 0xC8000000
       else 0)
    (fun _ _ => None).

(** The names of the sixteen checks, in the order of the report. *)
Definition check_names : list string :=
  [ "TEMP_SHUT_ERR[11:6]"; "TEMP_SHUT_ERR[5:0]"; "NO_CLK_ERR";
    "SINGLE_LVL_ERR"; "LONG_TRAN_ERR"; "P5V_SUP_ERR"; "M5V_SUP_ERR";
    "PHV_RANGE_ERR"; "TRIG_ERR"; "STANDBY_ERR"; "VALID_FLAG_1";
    "VALID_FLAG_2"; "VALID_FLAG_3"; "VALID_FLAG_4"; "VALID_FLAG_5";
    "ERROR_RST" ].

(** The entry the report loop makes of one tuple. *)
Definition report_entry (t : bool * string * string) : Check :=
  let '(passed, check_name, value) := t in
  mkCheck check_name passed
    (check_name ++ ": " ++ (if passed then "PASSED" else "FAILED"))
    (Some value).

(** * Properties *)

(** ** The Python built-ins on examples *)

Example range_start_word_registers :
  range 0x0C 0x14 1 = [0x0C; 0x0D; 0x0E; 0x0F; 0x10; 0x11; 0x12; 0x13].
Proof. reflexivity. Qed.

Example range_pairs :
  range 0 32 2 = [0; 2; 4; 6; 8; 10; 12; 14; 16; 18; 20; 22; 24; 26; 28; 30].
Proof. reflexivity. Qed.

Example enumerate_words :
  enumerate [0x00020002; 0x0000B5B1] = [(0, 0x00020002); (1, 0x0000B5B1)].
Proof. reflexivity. Qed.

Example format_032b_positive :
  format_032b 0x00010005 = "00000000000000010000000000000101".
Proof. reflexivity. Qed.

Example format_032b_negative :
  format_032b (-5) = "-0000000000000000000000000000101".
Proof. reflexivity. Qed.

Example slice_last_six :
  slice (format_032b 0x2A) (Some (-6)) None = "101010".
Proof. reflexivity. Qed.

Example slice_first_five :
  slice (format_032b 0xA8000000) None (Some 5) = "10101".
Proof. reflexivity. Qed.

Example int_of_string_binary : int_of_string "10101" 2 = Ok 21.
Proof. reflexivity. Qed.

Example int_of_string_hex : int_of_string " -0x1f_F " 16 = Ok (-511).
Proof. reflexivity. Qed.

Example int_of_string_invalid :
  int_of_string "12" 2
  = Raise (ValueError "invalid literal for int() with base 2: '12'").
Proof. reflexivity. Qed.

Example str_int_examples : str_int 21 = "21" /\ str_int 0 = "0".
Proof. split; reflexivity. Qed.

Example pattern_data_custom :
  pattern_data custom_pattern = Ok ([0x00020002; 0x0000B5B1], 0x001E).
Proof. reflexivity. Qed.

Example pattern_data_preset :
  pattern_data default_pattern = Ok ([0x00020002; 0x0000B5B1], 0x001E).
Proof. reflexivity. Qed.

(** ** The delay encoder *)

Section Encoder.

Import BeamformingService.

Lemma land_3FFF (n : Z) : Z.land n 0x3FFF = n mod 2 ^ 14.
Proof. exact (Z.land_ones n 14 ltac:(lia)). Qed.

Lemma encode_plain (cycles : Z) :
  encode_delay_to_hex cycles false = cycles mod 2 ^ 14.
Proof. unfold encode_delay_to_hex. apply land_3FFF. Qed.

(** Setting bit 14 of a 14-bit value adds [2^14]. *)
Lemma encode_fractional (cycles : Z) :
  encode_delay_to_hex cycles true = cycles mod 2 ^ 14 + 2 ^ 14.
Proof.
  unfold encode_delay_to_hex. rewrite land_3FFF.
  change 0x4000 with (2 ^ 14).
  assert (Hdisj : Z.land (cycles mod 2 ^ 14) (2 ^ 14) = 0).
  { apply Z.bits_inj'. intros n Hn.
    rewrite Z.land_spec, Z.bits_0, Z.pow2_bits_eqb by lia.
    destruct (Z.eqb_spec 14 n) as [<- | Hne];
      [| now rewrite andb_false_r].
    rewrite Z.mod_pow2_bits_high by lia. reflexivity. }
  rewrite <- Z.lxor_lor by exact Hdisj.
  symmetry. now apply Z.add_nocarry_lxor.
Qed.

Lemma encode_value (cycles : Z) (fractional : bool) :
  encode_delay_to_hex cycles fractional
  = cycles mod 2 ^ 14 + (if fractional then 2 ^ 14 else 0).
Proof.
  destruct fractional.
  - apply encode_fractional.
  - rewrite encode_plain. lia.
Qed.

Lemma encode_bounds (cycles : Z) (fractional : bool) :
  0 <= encode_delay_to_hex cycles fractional < 2 ^ 15.
Proof.
  rewrite encode_value.
  pose proof (Z.mod_pos_bound cycles (2 ^ 14) ltac:(lia)).
  destruct fractional; lia.
Qed.

End Encoder.

Lemma testbit_div (a n : Z) :
  0 <= n -> Z.testbit a n = Z.odd (a / 2 ^ n).
Proof.
  intros Hn. now rewrite Z.testbit_odd, Z.shiftr_div_pow2.
Qed.

(** C3: for [cycles] in 0..16383, [encode_delay_to_hex] returns
    [cycles & 0x3FFF] with bit 14 set exactly when [fractional] is true
    and bit 15 clear, and bits [13:0] of the result give [cycles] back. *)
Theorem encode_delay_to_hex_in_range (cycles : Z) (fractional : bool) :
  0 <= cycles <= 16383 ->
  BeamformingService.encode_delay_to_hex cycles fractional
  = Z.lor (Z.land cycles 0x3FFF) (if fractional then 0x4000 else 0) /\
  Z.testbit (BeamformingService.encode_delay_to_hex cycles fractional) 14
  = fractional /\
  Z.testbit (BeamformingService.encode_delay_to_hex cycles fractional) 15
  = false /\
  Z.land (BeamformingService.encode_delay_to_hex cycles fractional) 0x3FFF
  = cycles.
Proof.
  intros Hc.
  assert (Hmod : cycles mod 2 ^ 14 = cycles) by (apply Z.mod_small; lia).
  split.
  { unfold BeamformingService.encode_delay_to_hex.
    destruct fractional; [reflexivity | now rewrite Z.lor_0_r]. }
  rewrite land_3FFF, encode_value, Hmod.
  repeat split.
  - rewrite testbit_div by lia.
    destruct fractional.
    + replace ((cycles + 2 ^ 14) / 2 ^ 14) with 1; [reflexivity |].
      apply Z.div_unique with (r := cycles); lia.
    + rewrite Z.add_0_r, Z.div_small by lia. reflexivity.
  - rewrite testbit_div by lia.
    rewrite Z.div_small; [reflexivity |]. destruct fractional; lia.
  - destruct fractional.
    + rewrite <- (Z.mul_1_l (2 ^ 14)) at 1.
      rewrite Z.mod_add by lia. exact Hmod.
    + rewrite Z.add_0_r. exact Hmod.
Qed.

Lemma encode_delay_to_hex_in_range_witness :
  0 <= 12345 <= 16383 /\
  BeamformingService.encode_delay_to_hex 12345 true = 0x7039 /\
  Z.land (BeamformingService.encode_delay_to_hex 12345 true) 0x3FFF = 12345.
Proof.
  split; [lia |].
  split; [reflexivity |].
  apply (encode_delay_to_hex_in_range 12345 true). lia.
Defined.

(** C10: for every integer [cycles] outside 0..16383, negative ones
    included, [encode_delay_to_hex] returns a value (it is a total
    function, nothing is rejected): [cycles] reduced modulo [2^14], plus
    bit 14 when [fractional]; the low 14 bits no longer give [cycles]. *)
Theorem encode_delay_to_hex_out_of_range (cycles : Z) (fractional : bool) :
  cycles < 0 \/ 16383 < cycles ->
  BeamformingService.encode_delay_to_hex cycles fractional
  = cycles mod 2 ^ 14 + (if fractional then 2 ^ 14 else 0) /\
  Z.land (BeamformingService.encode_delay_to_hex cycles fractional) 0x3FFF
  = cycles mod 2 ^ 14 /\
  Z.land (BeamformingService.encode_delay_to_hex cycles fractional) 0x3FFF
  <> cycles.
Proof.
  intros Hout.
  pose proof (Z.mod_pos_bound cycles (2 ^ 14) ltac:(lia)) as Hb.
  assert (Hlow : Z.land
            (BeamformingService.encode_delay_to_hex cycles fractional) 0x3FFF
          = cycles mod 2 ^ 14).
  { rewrite land_3FFF, encode_value. destruct fractional.
    - rewrite <- (Z.mul_1_l (2 ^ 14)) at 2.
      rewrite Z.mod_add by lia. now rewrite Z.mod_mod by lia.
    - now rewrite Z.add_0_r, Z.mod_mod by lia. }
  split; [apply encode_value |].
  split; [exact Hlow |].
  rewrite Hlow. lia.
Qed.

Lemma encode_delay_to_hex_out_of_range_witness :
  BeamformingService.encode_delay_to_hex (-1) false = 16383 /\
  BeamformingService.encode_delay_to_hex 16384 true = 16384 /\
  Z.land (BeamformingService.encode_delay_to_hex (-1) false) 0x3FFF <> -1.
Proof.
  split; [reflexivity |].
  split; [reflexivity |].
  apply (encode_delay_to_hex_out_of_range (-1) false). left. lia.
Defined.

(** ** Pairing two channels in one register *)

Lemma small_bits_high (lo n : Z) :
  0 <= lo < 2 ^ 16 -> 16 <= n -> Z.testbit lo n = false.
Proof.
  intros Hlo Hn.
  rewrite <- (Z.mod_small lo (2 ^ 16)) by lia.
  apply Z.mod_pow2_bits_high. lia.
Qed.

Lemma pack_low (hi lo : Z) :
  0 <= lo < 2 ^ 16 -> Z.land (Z.lor (Z.shiftl hi 16) lo) 0xFFFF = lo.
Proof.
  intros Hlo. change 0xFFFF with (Z.ones 16).
  apply Z.bits_inj'. intros n Hn.
  rewrite Z.land_spec, Z.lor_spec.
  destruct (Z.lt_ge_cases n 16) as [Hlt | Hge].
  - rewrite Z.shiftl_spec_low, Z.ones_spec_low by lia.
    now rewrite andb_true_r.
  - rewrite Z.ones_spec_high, (small_bits_high lo n) by lia.
    now rewrite andb_false_r.
Qed.

Lemma pack_high (hi lo : Z) :
  0 <= lo < 2 ^ 16 -> Z.shiftr (Z.lor (Z.shiftl hi 16) lo) 16 = hi.
Proof.
  intros Hlo.
  rewrite Z.shiftr_lor, Z.shiftr_shiftl_l, Z.sub_diag, Z.shiftl_0_r by lia.
  rewrite (Z.shiftr_div_pow2 lo), Z.div_small by lia.
  apply Z.lor_0_r.
Qed.

Lemma pack_bounds (hi lo : Z) :
  0 <= lo < 2 ^ 16 -> 0 <= hi < 2 ^ 16 ->
  0 <= Z.lor (Z.shiftl hi 16) lo < 2 ^ 32.
Proof.
  intros Hlo Hhi.
  assert (Hnn : 0 <= Z.lor (Z.shiftl hi 16) lo).
  { apply Z.lor_nonneg. split; [apply Z.shiftl_nonneg |]; lia. }
  split; [exact Hnn |].
  pose proof (pack_low hi lo Hlo) as Hl.
  pose proof (pack_high hi lo Hlo) as Hh.
  rewrite Z.shiftr_div_pow2 in Hh by lia.
  change 0xFFFF with (Z.ones 16) in Hl.
  rewrite Z.land_ones in Hl by lia.
  rewrite (Z.div_mod (Z.lor (Z.shiftl hi 16) lo) (2 ^ 16)) by lia.
  rewrite Hl, Hh. lia.
Qed.

Lemma encode_fits_16 (cycles : Z) (fractional : bool) :
  0 <= BeamformingService.encode_delay_to_hex cycles fractional < 2 ^ 16.
Proof.
  pose proof (encode_bounds cycles fractional). lia.
Qed.

Lemma length_32_inv {A} (l : list A) :
  List.length l = 32%nat ->
  exists a0 a1 a2 a3 a4 a5 a6 a7 a8 a9 a10 a11 a12 a13 a14 a15
         a16 a17 a18 a19 a20 a21 a22 a23 a24 a25 a26 a27 a28 a29 a30 a31,
    l = [a0; a1; a2; a3; a4; a5; a6; a7; a8; a9; a10; a11; a12; a13; a14;
         a15; a16; a17; a18; a19; a20; a21; a22; a23; a24; a25; a26; a27;
         a28; a29; a30; a31].
Proof.
  intros H.
  do 32 (destruct l as [| ? l]; [discriminate H |]).
  destruct l; [| discriminate H].
  repeat eexists.
Qed.

(** The sixteen words of a 32-entry array, written out. *)
Lemma combine_channel_delays_32 (delays : list Z) :
  List.length delays = 32%nat ->
  BeamformingService.combine_channel_delays delays
  = Ok (map (fun i =>
               Z.lor (Z.shiftl (BeamformingService.encode_delay_to_hex
                                  (nth (2 * i + 1) delays 0) false) 16)
                     (BeamformingService.encode_delay_to_hex
                        (nth (2 * i) delays 0) false))
            (seq 0 16)).
Proof.
  intros H.
  destruct (length_32_inv delays H)
    as (a0 & a1 & a2 & a3 & a4 & a5 & a6 & a7 & a8 & a9 & a10 & a11 & a12
        & a13 & a14 & a15 & a16 & a17 & a18 & a19 & a20 & a21 & a22 & a23
        & a24 & a25 & a26 & a27 & a28 & a29 & a30 & a31 & ->).
  reflexivity.
Qed.

(** C2: for every array of exactly 32 integers,
    [combine_channel_delays] returns exactly 16 words of 32 bits, and for
    every [i] in 0..15 the low 16 bits of word [i] are the encoding of
    [delays[2i]] and the high 16 bits the encoding of [delays[2i+1]]. *)
Theorem combine_channel_delays_pairs (delays : list Z) :
  List.length delays = 32%nat ->
  exists combined,
    BeamformingService.combine_channel_delays delays = Ok combined /\
    List.length combined = 16%nat /\
    forall i, (i < 16)%nat ->
      Z.land (nth i combined 0) 0xFFFF
      = BeamformingService.encode_delay_to_hex (nth (2 * i) delays 0) false /\
      Z.shiftr (nth i combined 0) 16
      = BeamformingService.encode_delay_to_hex
          (nth (2 * i + 1) delays 0) false /\
      0 <= nth i combined 0 < 2 ^ 32.
Proof.
  intros H. eexists. split; [apply combine_channel_delays_32, H |].
  split; [reflexivity |].
  intros i Hi.
  set (f := fun i : nat => Z.lor _ _).
  assert (Hnth : nth i (map f (seq 0 16)) 0 = f i).
  { rewrite (nth_indep _ 0 (f 0%nat))
      by (rewrite length_map, length_seq; exact Hi).
    rewrite map_nth, seq_nth by exact Hi. reflexivity. }
  rewrite Hnth. unfold f.
  split; [apply pack_low, encode_fits_16 |].
  split; [apply pack_high, encode_fits_16 |].
  apply pack_bounds; apply encode_fits_16.
Qed.

Lemma combine_channel_delays_pairs_witness :
  exists combined,
    BeamformingService.combine_channel_delays sample_delays = Ok combined /\
    List.length combined = 16%nat /\
    forall i, (i < 16)%nat ->
      Z.land (nth i combined 0) 0xFFFF
      = BeamformingService.encode_delay_to_hex
          (nth (2 * i) sample_delays 0) false /\
      Z.shiftr (nth i combined 0) 16
      = BeamformingService.encode_delay_to_hex
          (nth (2 * i + 1) sample_delays 0) false /\
      0 <= nth i combined 0 < 2 ^ 32.
Proof.
  apply (combine_channel_delays_pairs sample_delays). reflexivity.
Defined.

(** ** Arrays of the wrong length *)

Lemma combine_channel_delays_rejects (delays : list Z) :
  List.length delays <> 32%nat ->
  BeamformingService.combine_channel_delays delays
  = Raise (ValueError "Must provide exactly 32 delay values").
Proof.
  intros H. unfold BeamformingService.combine_channel_delays.
  destruct (Z.eqb_spec (len delays) 32) as [E | _]; [| reflexivity].
  unfold len in E. lia.
Qed.

(** C9: for every array whose length is not 32,
    [combine_channel_delays] raises its [ValueError], and the apply route
    that was given such an array by the delay computation fails with the
    controller and its port unchanged: no register is written. *)
Theorem combine_channel_delays_wrong_length (delays : list Z) :
  List.length delays <> 32%nat ->
  BeamformingService.combine_channel_delays delays
  = Raise (ValueError "Must provide exactly 32 delay values") /\
  forall compute_focus_delays cfg s,
    current_delays compute_focus_delays cfg = Ok delays ->
    apply_beamforming compute_focus_delays cfg s
    = (Raise (if has_port s
              then HTTPException 500
                     ("Error applying beamforming: "
                      ++ "Must provide exactly 32 delay values")
              else HTTPException 400 "Device not connected"), s).
Proof.
  intros H. split; [now apply combine_channel_delays_rejects |].
  intros solver cfg s Hd.
  unfold apply_beamforming, http_errors, try_except.
  cbn [bind Monad_M Controller.is_connected].
  destruct (has_port s); cbn [negb raise ret Monad_M is_HTTPException];
    [| reflexivity].
  unfold lift. rewrite Hd, (combine_channel_delays_rejects delays H).
  reflexivity.
Qed.

Lemma combine_channel_delays_wrong_length_witness :
  BeamformingService.combine_channel_delays (repeat 0 31)
  = Raise (ValueError "Must provide exactly 32 delay values") /\
  apply_beamforming (constant_solver (repeat 0 31)) default_beamforming
    (ready quiet_port)
  = (Raise (HTTPException 500
              ("Error applying beamforming: "
               ++ "Must provide exactly 32 delay values")),
     ready quiet_port).
Proof.
  assert (H : List.length (repeat 0 31) <> 32%nat) by (simpl; lia).
  split.
  - apply (combine_channel_delays_wrong_length (repeat 0 31) H).
  - apply (proj2 (combine_channel_delays_wrong_length (repeat 0 31) H)
             (constant_solver (repeat 0 31)) default_beamforming
             (ready quiet_port)).
    reflexivity.
Defined.

(** ** Register transactions *)

Lemma page_selector_from_app (page : Z) (cs cs' : list call) :
  page_selector_from page (cs ++ cs')
  = page_selector_from (page_selector_from page cs) cs'.
Proof.
  revert page. induction cs as [| c cs IH]; intros page; [reflexivity |].
  destruct c; cbn [app page_selector_from]; apply IH.
Qed.

Lemma record_calls_nil (d : USBQPort) : record_calls [] d = d.
Proof.
  destruct d as [cs r f]. unfold record_calls. cbn [calls respond fault].
  now rewrite app_nil_r.
Qed.

Lemma record_calls_app (cs cs' : list call) (d : USBQPort) :
  record_calls cs' (record_calls cs d) = record_calls (cs ++ cs') d.
Proof.
  unfold record_calls. cbn [calls respond fault]. now rewrite app_assoc.
Qed.

Lemma fault_free_record (cs : list call) (d : USBQPort) :
  fault_free d -> fault_free (record_calls cs d).
Proof. intros H h c. apply H. Qed.

(** A call through [self.device] that returns did reach a port, was not
    refused, and is recorded. *)
Lemma on_device_writeReg_inv (m : string) (a v : Z)
  (s s' : TX7332Controller) :
  on_device m (Port.writeReg a v) s = (Ok tt, s') ->
  exists d, device s = Some d /\
            s' = mkController (Some (record_calls [WriteReg a v] d))
                   (connected s).
Proof.
  unfold on_device, Port.writeReg. destruct (device s) as [d |];
    [| discriminate].
  destruct (fault d (calls d) (WriteReg a v)); [discriminate |].
  intros [= <-]. now exists d.
Qed.

Lemma on_device_readReg_inv (m : string) (a x : Z)
  (s s' : TX7332Controller) :
  on_device m (Port.readReg a) s = (Ok x, s') ->
  exists d, device s = Some d /\
            x = respond d (calls d) a /\
            s' = mkController (Some (record_calls [ReadReg a] d))
                   (connected s).
Proof.
  unfold on_device, Port.readReg. destruct (device s) as [d |];
    [| discriminate].
  destruct (fault d (calls d) (ReadReg a)); [discriminate |].
  intros [= <- <-]. now exists d.
Qed.

Lemma on_device_enableSync_ok (m : string) (e : bool) (d : USBQPort)
  (b : bool) :
  fault_free d ->
  on_device m (Port.enableSync e) (mkController (Some d) b)
  = (Ok tt, mkController (Some (record_calls [EnableSync e] d)) b).
Proof.
  intros H. unfold on_device, Port.enableSync. cbn [device connected].
  now rewrite H.
Qed.

Lemma ensure_connected_ready (d : USBQPort) :
  Controller.ensure_connected (ready d) = (Ok tt, ready d).
Proof. reflexivity. Qed.

Lemma ensure_connected_inv (s s' : TX7332Controller) :
  Controller.ensure_connected s = (Ok tt, s') ->
  s' = s /\ has_port s = true.
Proof.
  unfold Controller.ensure_connected, Controller.is_connected.
  cbn [bind Monad_M]. destruct (has_port s); cbn [negb raise ret Monad_M].
  - intros [= <-]. now split.
  - discriminate.
Qed.

(** Running [c ;; k] to a result means running [c] to a result first. *)
Lemma bind_Ok_inv {A B} (c : M A) (k : A -> M B) (s s' : TX7332Controller)
  (b : B) :
  bind c k s = (Ok b, s') ->
  exists a s1, c s = (Ok a, s1) /\ k a s1 = (Ok b, s').
Proof.
  cbn [bind Monad_M]. destruct (c s) as [[a | e] s1]; [| discriminate].
  intros H. now exists a, s1.
Qed.

Lemma bind_Ok {A B} (c : M A) (k : A -> M B) (s s1 : TX7332Controller)
  (a : A) :
  c s = (Ok a, s1) -> bind c k s = k a s1.
Proof. intros H. cbn [bind Monad_M]. now rewrite H. Qed.

Lemma fault_free_calm (n : nat) (d : USBQPort) : fault_free d -> calm n d.
Proof. intros H h c _. apply H. Qed.

Lemma calm_record (cs : list call) (n : nat) (d : USBQPort) :
  calm (List.length cs + n) d -> calm n (record_calls cs d).
Proof.
  intros H h c Hh. apply H. cbn [record_calls calls] in Hh.
  rewrite length_app in Hh. lia.
Qed.

(** The fault function is asked about the call that comes after the ones
    recorded. *)
Lemma calm_next (cs : list call) (n : nat) (d : USBQPort) (c : call) :
  calm n d -> (List.length cs <? n)%nat = true ->
  fault (record_calls cs d) (calls (record_calls cs d)) c = None.
Proof.
  intros H Hn. apply Nat.ltb_lt in Hn.
  cbn [record_calls calls fault]. apply H.
  rewrite length_app. lia.
Qed.

Lemma on_device_writeReg_step (m : string) (a v : Z) (d : USBQPort)
  (b : bool) :
  fault d (calls d) (WriteReg a v) = None ->
  on_device m (Port.writeReg a v) (mkController (Some d) b)
  = (Ok tt, mkController (Some (record_calls [WriteReg a v] d)) b).
Proof.
  intros H. unfold on_device, Port.writeReg. cbn [device connected].
  now rewrite H.
Qed.

Lemma on_device_readReg_step (m : string) (a : Z) (d : USBQPort) (b : bool) :
  fault d (calls d) (ReadReg a) = None ->
  on_device m (Port.readReg a) (mkController (Some d) b)
  = (Ok (respond d (calls d) a),
     mkController (Some (record_calls [ReadReg a] d)) b).
Proof.
  intros H. unfold on_device, Port.readReg. cbn [device connected].
  now rewrite H.
Qed.

(** A register read needs the next five calls not to raise. *)
Lemma read_reg_calm (a p : Z) (d : USBQPort) :
  calm 5 d ->
  Controller.read_reg a p (ready d)
  = (Ok (respond d (calls d ++ [WriteReg 2 p; WriteReg 0 2]) a),
     ready (record_calls (read_transaction a p) d)).
Proof.
  intros H. unfold Controller.read_reg.
  rewrite (bind_Ok _ _ _ _ _ (ensure_connected_ready d)).
  unfold ready. rewrite <- (record_calls_nil d) at 1.
  rewrite (bind_Ok _ _ _ _ _
             (on_device_writeReg_step _ 2 p _ true
                (calm_next [] 5 d _ H eq_refl))).
  rewrite record_calls_app.
  rewrite (bind_Ok _ _ _ _ _
             (on_device_writeReg_step _ 0 2 _ true
                (calm_next [WriteReg 2 p] 5 d _ H eq_refl))).
  rewrite record_calls_app.
  rewrite (bind_Ok _ _ _ _ _
             (on_device_readReg_step _ a _ true
                (calm_next [WriteReg 2 p; WriteReg 0 2] 5 d _ H eq_refl))).
  rewrite record_calls_app.
  rewrite (bind_Ok _ _ _ _ _
             (on_device_writeReg_step _ 0 0 _ true
                (calm_next [WriteReg 2 p; WriteReg 0 2; ReadReg a] 5 d _ H
                   eq_refl))).
  rewrite record_calls_app.
  rewrite (bind_Ok _ _ _ _ _
             (on_device_writeReg_step _ 2 0 _ true
                (calm_next
                   [WriteReg 2 p; WriteReg 0 2; ReadReg a; WriteReg 0 0]
                   5 d _ H eq_refl))).
  rewrite record_calls_app. reflexivity.
Qed.

Lemma on_device_writeReg_ok (m : string) (a v : Z) (d : USBQPort) (b : bool) :
  fault_free d ->
  on_device m (Port.writeReg a v) (mkController (Some d) b)
  = (Ok tt, mkController (Some (record_calls [WriteReg a v] d)) b).
Proof. intros H. apply on_device_writeReg_step, H. Qed.

Lemma write_reg_ok (a v p : Z) (d : USBQPort) :
  fault_free d ->
  Controller.write_reg a v p (ready d)
  = (Ok tt, ready (record_calls (write_transaction a v p) d)).
Proof.
  intros H. unfold Controller.write_reg.
  rewrite (bind_Ok _ _ _ _ _ (ensure_connected_ready d)).
  unfold ready.
  rewrite (bind_Ok _ _ _ _ _ (on_device_writeReg_ok _ 2 p d true H)).
  rewrite (bind_Ok _ _ _ _ _
             (on_device_writeReg_ok _ a v _ true
                (fault_free_record _ d H))).
  rewrite on_device_writeReg_ok
    by (apply fault_free_record, fault_free_record, H).
  now rewrite !record_calls_app.
Qed.

Lemma read_reg_ok (a p : Z) (d : USBQPort) :
  fault_free d ->
  Controller.read_reg a p (ready d)
  = (Ok (respond d (calls d ++ [WriteReg 2 p; WriteReg 0 2]) a),
     ready (record_calls (read_transaction a p) d)).
Proof. intros H. apply read_reg_calm, fault_free_calm, H. Qed.

Ltac invert_bind H :=
  let a := fresh "a" in
  let s1 := fresh "s" in
  let H1 := fresh "Hstep" in
  apply bind_Ok_inv in H as (a & s1 & H1 & H);
  try match type of a with unit => destruct a end.

Ltac invert_write H :=
  let d := fresh "d" in
  let Hd := fresh "Hd" in
  apply on_device_writeReg_inv in H as (d & Hd & ->);
  cbn [device connected] in *;
  try (injection Hd as <-).

Lemma write_reg_inv (a v p : Z) (s s' : TX7332Controller) :
  Controller.write_reg a v p s = (Ok tt, s') ->
  exists d, device s = Some d /\ has_port s = true /\
            s' = mkController
                   (Some (record_calls (write_transaction a v p) d))
                   (connected s).
Proof.
  intros H. unfold Controller.write_reg in H.
  invert_bind H. apply ensure_connected_inv in Hstep as [-> Hp].
  invert_bind H. invert_write Hstep.
  invert_bind H. invert_write Hstep.
  invert_write H.
  exists d. rewrite !record_calls_app. now repeat split.
Qed.

Lemma read_reg_inv (a p x : Z) (s s' : TX7332Controller) :
  Controller.read_reg a p s = (Ok x, s') ->
  exists d, device s = Some d /\ has_port s = true /\
            x = respond d (calls d ++ [WriteReg 2 p; WriteReg 0 2]) a /\
            s' = mkController
                   (Some (record_calls (read_transaction a p) d))
                   (connected s).
Proof.
  intros H. unfold Controller.read_reg in H.
  invert_bind H. apply ensure_connected_inv in Hstep as [-> Hp].
  invert_bind H. invert_write Hstep.
  invert_bind H. invert_write Hstep.
  invert_bind H.
  apply on_device_readReg_inv in Hstep as (d' & Hd' & -> & ->).
  cbn [device connected] in *. injection Hd' as <-.
  invert_bind H. invert_write Hstep.
  invert_bind H. invert_write Hstep.
  cbn [ret Monad_M] in H. injection H as <- <-.
  exists d. rewrite !record_calls_app.
  rewrite <- app_assoc. now repeat split.
Qed.

Lemma page_selector_reset (page : Z) (cs cs' : list call) :
  page_selector_from page (cs ++ cs' ++ [WriteReg 2 0]) = 0.
Proof.
  now rewrite app_assoc, page_selector_from_app.
Qed.

(** C1: a register write that completes has made the transport see
    exactly: write register 2 = page select, write the target register,
    write register 2 = 0; a register read that completes has made it see
    exactly: write register 2 = page select, write register 0 = 2, read
    the target register, write register 0 = 0, write register 2 = 0.  In
    both cases the page selector is back at 0.  On a connected controller
    whose port does not raise both transactions complete. *)
Theorem register_transactions (address value page_select : Z)
  (s : TX7332Controller) :
  (forall s',
     Controller.write_reg address value page_select s = (Ok tt, s') ->
     calls_of s'
     = (calls_of s ++ write_transaction address value page_select)%list /\
     forall page, page_selector_from page (calls_of s') = 0) /\
  (forall x s',
     Controller.read_reg address page_select s = (Ok x, s') ->
     calls_of s'
     = (calls_of s ++ read_transaction address page_select)%list /\
     forall page, page_selector_from page (calls_of s') = 0) /\
  (forall d,
     s = ready d -> fault_free d ->
     Controller.write_reg address value page_select s
     = (Ok tt,
        ready (record_calls
                 (write_transaction address value page_select) d)) /\
     Controller.read_reg address page_select s
     = (Ok (respond d (calls d ++ [WriteReg 2 page_select; WriteReg 0 2])
              address),
        ready (record_calls (read_transaction address page_select) d))).
Proof.
  split; [| split].
  - intros s' H.
    apply write_reg_inv in H as (d & Hd & _ & ->).
    unfold calls_of. rewrite Hd. cbn [device record_calls calls].
    split; [reflexivity |]. intros page.
    apply (page_selector_reset page (calls d)
             [WriteReg 2 page_select; WriteReg address value]).
  - intros x s' H.
    apply read_reg_inv in H as (d & Hd & _ & _ & ->).
    unfold calls_of. rewrite Hd. cbn [device record_calls calls].
    split; [reflexivity |]. intros page.
    apply (page_selector_reset page (calls d)
             [WriteReg 2 page_select; WriteReg 0 2; ReadReg address;
              WriteReg 0 0]).
  - intros d -> Hff. split.
    + now apply write_reg_ok.
    + now apply read_reg_ok.
Qed.

Lemma register_transactions_witness :
  Controller.write_reg 0x40 0xB5B1 0xFFFF (ready quiet_port)
  = (Ok tt,
     ready (record_calls
              [WriteReg 2 0xFFFF; WriteReg 0x40 0xB5B1; WriteReg 2 0]
              quiet_port)) /\
  Controller.read_reg 0x40 0xFFFF (ready quiet_port)
  = (Ok 0,
     ready (record_calls
              [WriteReg 2 0xFFFF; WriteReg 0 2; ReadReg 0x40; WriteReg 0 0;
               WriteReg 2 0]
              quiet_port)).
Proof.
  apply (proj2 (proj2 (register_transactions 0x40 0xB5B1 0xFFFF
                         (ready quiet_port)))
           quiet_port).
  - reflexivity.
  - intros h c. reflexivity.
Defined.

(** ** The apply sequences on a port that does not raise *)

Lemma is_connected_ready (d : USBQPort) :
  Controller.is_connected (ready d) = (Ok true, ready d).
Proof. reflexivity. Qed.

Lemma enable_sync_ok (e : bool) (d : USBQPort) :
  fault_free d ->
  Controller.enable_sync e (ready d)
  = (Ok tt, ready (record_calls [EnableSync e] d)).
Proof.
  intros H. unfold Controller.enable_sync.
  rewrite (bind_Ok _ _ _ _ _ (ensure_connected_ready d)).
  now apply on_device_enableSync_ok.
Qed.

(** A loop of register writes performs the transactions one after the
    other. *)
Lemma for_write_reg_ok {A} (l : list A) (fa fv fp : A -> Z) (d : USBQPort) :
  fault_free d ->
  for_ l (fun x => Controller.write_reg (fa x) (fv x) (fp x)) (ready d)
  = (Ok tt,
     ready (record_calls
              (flat_map (fun x => write_transaction (fa x) (fv x) (fp x)) l)
              d)).
Proof.
  revert d. induction l as [| x l IH]; intros d H.
  - cbn [for_ flat_map ret Monad_M]. now rewrite record_calls_nil.
  - cbn [for_ flat_map].
    rewrite (bind_Ok _ _ _ _ _ (write_reg_ok (fa x) (fv x) (fp x) d H)).
    rewrite IH by now apply fault_free_record.
    now rewrite record_calls_app.
Qed.

Lemma http_errors_Ok {A} (prefix : string) (body : M A)
  (s s' : TX7332Controller) (a : A) :
  body s = (Ok a, s') -> http_errors prefix body s = (Ok a, s').
Proof. intros H. unfold http_errors, try_except. now rewrite H. Qed.

Lemma ret_Ok {A} (a : A) (s : TX7332Controller) :
  ret (m := M) a s = (Ok a, s).
Proof. reflexivity. Qed.

Lemma lift_Ok {A} (r : Result A) (a : A) (s : TX7332Controller) :
  r = Ok a -> lift r s = (Ok a, s).
Proof. now intros ->. Qed.

Lemma apply_pattern_ok (cfg : PatternConfig) (words : list Z) (start : Z)
  (d : USBQPort) :
  fault_free d ->
  pattern_data cfg = Ok (words, start) ->
  apply_pattern cfg (ready d)
  = (Ok (mkApiResponse true "Pattern applied to device"
           [("pattern_type", VStr (pattern_type cfg));
            ("frequency_mhz", VFloat (frequency_mhz cfg));
            ("pattern_words", VInt (len words))]),
     ready (record_calls (pattern_trace words start) d)).
Proof.
  intros H Hpd. unfold apply_pattern. apply http_errors_Ok.
  rewrite (bind_Ok _ _ _ _ _ (is_connected_ready d)). cbn [negb].
  rewrite (bind_Ok _ _ _ _ _ (ret_Ok tt _)).
  rewrite (bind_Ok _ _ _ _ _ (lift_Ok _ _ _ Hpd)). cbn [fst snd].
  rewrite (bind_Ok _ _ _ _ _ (enable_sync_ok false d H)).
  rewrite (bind_Ok _ _ _ _ _
             (write_reg_ok _ _ _ _ (fault_free_record _ d H))).
  rewrite record_calls_app.
  rewrite (bind_Ok _ _ _ _ _
             (for_write_reg_ok _ (fun r => r) _ (fun _ => 0) _
                (fault_free_record _ d H))).
  rewrite record_calls_app.
  rewrite (bind_Ok _ _ _ _ _
             (for_write_reg_ok _ (fun ip => 0x40 + start + fst ip)
                (fun ip => snd ip) (fun _ => 0x0000FFFF) _
                (fault_free_record _ d H))).
  rewrite record_calls_app. cbn [ret Monad_M].
  unfold pattern_trace. cbn [app]. now rewrite <- !app_assoc.
Qed.

Lemma apply_beamforming_ok (solver : FocusSolver) (cfg : BeamformingConfig)
  (delays combined : list Z) (d : USBQPort) :
  fault_free d ->
  current_delays solver cfg = Ok delays ->
  BeamformingService.combine_channel_delays delays = Ok combined ->
  apply_beamforming solver cfg (ready d)
  = (Ok (mkApiResponse true "Beamforming configuration applied"
           [("focal_point_x_mm", VFloat (focal_point_x_mm cfg));
            ("focal_point_z_mm", VFloat (focal_point_z_mm cfg));
            ("delays_applied", VInt (len combined))]),
     ready (record_calls (delay_trace combined) d)).
Proof.
  intros H Hd Hc. unfold apply_beamforming. apply http_errors_Ok.
  rewrite (bind_Ok _ _ _ _ _ (is_connected_ready d)). cbn [negb].
  rewrite (bind_Ok _ _ _ _ _ (ret_Ok tt _)).
  rewrite (bind_Ok _ _ _ _ _ (lift_Ok _ _ _ Hd)).
  rewrite (bind_Ok _ _ _ _ _ (lift_Ok _ _ _ Hc)).
  rewrite (bind_Ok _ _ _ _ _ (enable_sync_ok false d H)).
  cbv zeta.
  rewrite (bind_Ok _ _ _ _ _
             (for_write_reg_ok _ (fun r => r) _ (fun _ => 0) _
                (fault_free_record _ d H))).
  rewrite record_calls_app.
  rewrite (bind_Ok _ _ _ _ _
             (for_write_reg_ok _ (fun id => 0x40 + 0x0 * 8 + fst id)
                (fun id => snd id) (fun _ => 0x00010000) _
                (fault_free_record _ d H))).
  rewrite record_calls_app.
  rewrite (bind_Ok _ _ _ _ _
             (enable_sync_ok true _ (fault_free_record _ d H))).
  rewrite record_calls_app.
  rewrite (bind_Ok _ _ _ _ _
             (write_reg_ok _ _ _ _ (fault_free_record _ d H))).
  rewrite record_calls_app. cbn [ret Monad_M].
  unfold delay_trace. cbn [app]. rewrite <- !app_assoc. reflexivity.
Qed.

(** C5: applying the pattern [0x00020002, 0x0000B5B1] with start word
    0x001E makes the transport see, after sync is disabled and 0 is
    written to register 0x08, the value 0x001E001E written to each of the
    registers 0x0C..0x13 with page select 0, and then the first word
    written to 0x40+0x1E and the second to 0x40+0x1F with page select
    0x0000FFFF, and nothing else. *)
Theorem apply_pattern_trace (cfg : PatternConfig) (d : USBQPort) :
  fault_free d ->
  pattern_data cfg = Ok ([0x00020002; 0x0000B5B1], 0x001E) ->
  exists response,
    apply_pattern cfg (ready d)
    = (Ok response,
       ready (record_calls
                ([EnableSync false]
                 ++ write_transaction 0x08 0x00000000 0
                 ++ flat_map
                      (fun address => write_transaction address 0x001E001E 0)
                      [0x0C; 0x0D; 0x0E; 0x0F; 0x10; 0x11; 0x12; 0x13]
                 ++ write_transaction (0x40 + 0x1E) 0x00020002 0x0000FFFF
                 ++ write_transaction (0x40 + 0x1F) 0x0000B5B1 0x0000FFFF)
                d)).
Proof.
  intros H Hpd. eexists.
  rewrite (apply_pattern_ok cfg _ _ d H Hpd). reflexivity.
Qed.

Lemma apply_pattern_trace_witness :
  exists response,
    apply_pattern default_pattern (ready quiet_port)
    = (Ok response,
       ready (record_calls
                ([EnableSync false]
                 ++ write_transaction 0x08 0x00000000 0
                 ++ flat_map
                      (fun address => write_transaction address 0x001E001E 0)
                      [0x0C; 0x0D; 0x0E; 0x0F; 0x10; 0x11; 0x12; 0x13]
                 ++ write_transaction (0x40 + 0x1E) 0x00020002 0x0000FFFF
                 ++ write_transaction (0x40 + 0x1F) 0x0000B5B1 0x0000FFFF)
                quiet_port)).
Proof.
  apply (apply_pattern_trace default_pattern quiet_port).
  - intros h c. reflexivity.
  - reflexivity.
Defined.

Lemma combine_zero_delays :
  BeamformingService.combine_channel_delays (repeat 0 32) = Ok (repeat 0 16).
Proof. reflexivity. Qed.

(** C4: applying a 32-entry all-zero delay array makes the transport see,
    in this order: sync disabled; 0 written to each of the registers
    0x0D..0x14; 0 written to each of the registers 0x40..0x4F with page
    select 0x00010000; sync enabled; 0x00000002 written to register 0x08.
    All the writes of the delay table come before the call that enables
    sync. *)
Theorem apply_zero_delays_trace (solver : FocusSolver)
  (cfg : BeamformingConfig) (d : USBQPort) :
  fault_free d ->
  current_delays solver cfg = Ok (repeat 0 32) ->
  exists response,
    apply_beamforming solver cfg (ready d)
    = (Ok response,
       ready (record_calls
                ([EnableSync false]
                 ++ flat_map (fun address => write_transaction address 0 0)
                      [0x0D; 0x0E; 0x0F; 0x10; 0x11; 0x12; 0x13; 0x14]
                 ++ flat_map
                      (fun address =>
                         write_transaction address 0 0x00010000)
                      [0x40; 0x41; 0x42; 0x43; 0x44; 0x45; 0x46; 0x47;
                       0x48; 0x49; 0x4A; 0x4B; 0x4C; 0x4D; 0x4E; 0x4F]
                 ++ [EnableSync true]
                 ++ write_transaction 0x08 0x00000002 0)
                d)).
Proof.
  intros H Hd. eexists.
  rewrite (apply_beamforming_ok solver cfg _ _ d H Hd combine_zero_delays).
  reflexivity.
Qed.

Lemma apply_zero_delays_trace_witness :
  exists response,
    apply_beamforming (constant_solver (repeat 0 32)) default_beamforming
      (ready quiet_port)
    = (Ok response,
       ready (record_calls
                ([EnableSync false]
                 ++ flat_map (fun address => write_transaction address 0 0)
                      [0x0D; 0x0E; 0x0F; 0x10; 0x11; 0x12; 0x13; 0x14]
                 ++ flat_map
                      (fun address =>
                         write_transaction address 0 0x00010000)
                      [0x40; 0x41; 0x42; 0x43; 0x44; 0x45; 0x46; 0x47;
                       0x48; 0x49; 0x4A; 0x4B; 0x4C; 0x4D; 0x4E; 0x4F]
                 ++ [EnableSync true]
                 ++ write_transaction 0x08 0x00000002 0)
                quiet_port)).
Proof.
  apply (apply_zero_delays_trace (constant_solver (repeat 0 32))
           default_beamforming quiet_port).
  - intros h c. reflexivity.
  - reflexivity.
Defined.

(** ** Diagnostics on registers that read as zero *)

Lemma zero_snapshot_checks :
  DiagnosticsService.diagnostic_checks zero_snapshot = Ok zero_tuples.
Proof. vm_compute. reflexivity. Qed.

Lemma zero_snapshot_report :
  DiagnosticsService.report_loop zero_tuples [] true = (zero_report, false).
Proof. reflexivity. Qed.

Lemma zero_snapshot_no_clock :
  str_getitem (DiagnosticsService.reg6C_bin zero_snapshot) 15 = Ok "0".
Proof. vm_compute. reflexivity. Qed.

(** The reset sequence when the clock error bit reads 0 and no write
    raises: three register writes and one entry. *)
Lemma reset_error_flags_ok (r : DiagnosticsService.Snapshot)
  (checks : list Check) (d : USBQPort) :
  fault_free d ->
  str_getitem (DiagnosticsService.reg6C_bin r) 15 = Ok "0" ->
  DiagnosticsService.reset_error_flags r checks (ready d)
  = (Ok (checks ++ [mkCheck "ERROR_RESET" true
                      "Error flags reset attempted" None])%list,
     ready (record_calls
              (write_transaction 0x08 0x00000002 0
               ++ write_transaction 0x4D 0x10000 0
               ++ write_transaction 0x4D 0 0) d)).
Proof.
  intros H Hb. unfold DiagnosticsService.reset_error_flags, try_except.
  rewrite (bind_Ok _ _ _ _ _ (lift_Ok _ _ _ Hb)).
  cbn [String.eqb Ascii.eqb Bool.eqb negb].
  rewrite (bind_Ok _ _ _ _ _ (write_reg_ok _ _ _ d H)).
  rewrite (bind_Ok _ _ _ _ _
             (write_reg_ok _ _ _ _ (fault_free_record _ d H))).
  rewrite record_calls_app.
  rewrite (bind_Ok _ _ _ _ _
             (write_reg_ok _ _ _ _ (fault_free_record _ d H))).
  rewrite record_calls_app. cbn [ret Monad_M].
  now rewrite <- app_assoc.
Qed.

(** Whatever the writes of the reset sequence do, it adds exactly one
    [ERROR_RESET] entry and does not raise. *)
Lemma reset_error_flags_one_entry (r : DiagnosticsService.Snapshot)
  (checks : list Check) (s : TX7332Controller) :
  exists reset_passed reset_message s',
    DiagnosticsService.reset_error_flags r checks s
    = (Ok (checks ++ [mkCheck "ERROR_RESET" reset_passed reset_message
                        None])%list, s').
Proof.
  unfold DiagnosticsService.reset_error_flags, try_except.
  match goal with
  | |- context [match ?body s with _ => _ end] =>
      destruct (body s) as [[res | e] s1] eqn:E
  end.
  - invert_bind E. invert_bind E. invert_bind E. invert_bind E.
    cbn [ret Monad_M] in E. injection E as <- <-.
    do 3 eexists. reflexivity.
  - cbn [ret Monad_M]. do 3 eexists. reflexivity.
Qed.

(** C8: when the six diagnostic registers 0x1D, 0x4D, 0x4E, 0x62, 0x6C
    and 0x78 are read (the thirty transport calls of the six reads do not
    raise) and all read as zero, the checks that fail are [NO_CLK_ERR]
    (character 15 of the bit string of 0x6C is not 1) and the five
    [VALID_FLAG_*] checks, the overall status is FAIL, and the report
    holds exactly one [ERROR_RESET] entry, after its sixteen checks,
    whether the reset writes succeed or not.  When no call raises, the
    transport has seen the six reads and the three reset writes. *)
Theorem run_diagnostics_all_zero (d : USBQPort) :
  calm 30 d ->
  (forall h address,
     In address diagnostic_registers -> respond d h address = 0) ->
  exists reset_passed reset_message s',
    DiagnosticsService.run_diagnostics (ready d)
    = (Ok ("FAIL",
           (zero_report ++ [mkCheck "ERROR_RESET" reset_passed
                              reset_message None])%list), s') /\
    failed_checks zero_report
    = ["NO_CLK_ERR"; "VALID_FLAG_1"; "VALID_FLAG_2"; "VALID_FLAG_3";
       "VALID_FLAG_4"; "VALID_FLAG_5"] /\
    entries_named "ERROR_RESET"
      (zero_report ++ [mkCheck "ERROR_RESET" reset_passed
                         reset_message None])
    = [mkCheck "ERROR_RESET" reset_passed reset_message None] /\
    (fault_free d ->
     reset_passed = true /\
     s' = ready (record_calls
                   (flat_map (fun address => read_transaction address 0)
                      diagnostic_registers
                    ++ write_transaction 0x08 0x00000002 0
                    ++ write_transaction 0x4D 0x10000 0
                    ++ write_transaction 0x4D 0 0) d)).
Proof.
  intros H Hzero.
  assert (Hread : forall address cs,
             In address diagnostic_registers ->
             (List.length cs + 5 <=? 30)%nat = true ->
             Controller.read_reg address 0 (ready (record_calls cs d))
             = (Ok 0,
                ready (record_calls (cs ++ read_transaction address 0) d))).
  { intros address cs Hin Hcs. apply Nat.leb_le in Hcs.
    rewrite read_reg_calm.
    - cbn [record_calls respond]. rewrite (Hzero _ address Hin).
      now rewrite record_calls_app.
    - apply calm_record. intros h c Hh. apply H. lia. }
  pose (r1 := read_transaction 0x1D 0).
  pose (r2 := (r1 ++ read_transaction 0x4D 0)%list).
  pose (r3 := (r2 ++ read_transaction 0x4E 0)%list).
  pose (r4 := (r3 ++ read_transaction 0x62 0)%list).
  pose (r5 := (r4 ++ read_transaction 0x6C 0)%list).
  pose (reads := (r5 ++ read_transaction 0x78 0)%list).
  destruct (reset_error_flags_one_entry zero_snapshot zero_report
              (ready (record_calls reads d)))
    as (reset_passed & reset_message & s' & Hreset).
  assert (Hrun : forall checks s1,
             DiagnosticsService.reset_error_flags zero_snapshot zero_report
               (ready (record_calls reads d)) = (Ok checks, s1) ->
             DiagnosticsService.run_diagnostics (ready d)
             = (Ok ("FAIL", checks), s1)).
  { intros checks s1 Hr.
    unfold DiagnosticsService.run_diagnostics.
    rewrite (bind_Ok _ _ _ _ _ (ensure_connected_ready d)).
    unfold try_except.
    rewrite <- (record_calls_nil d) at 1.
    rewrite (bind_Ok _ _ _ _ _
               (Hread 0x1D [] ltac:(cbn; tauto) eq_refl)).
    rewrite (bind_Ok _ _ _ _ _
               (Hread 0x4D r1 ltac:(cbn; tauto) eq_refl)).
    rewrite (bind_Ok _ _ _ _ _
               (Hread 0x4E r2 ltac:(cbn; tauto) eq_refl)).
    rewrite (bind_Ok _ _ _ _ _
               (Hread 0x62 r3 ltac:(cbn; tauto) eq_refl)).
    rewrite (bind_Ok _ _ _ _ _
               (Hread 0x6C r4 ltac:(cbn; tauto) eq_refl)).
    rewrite (bind_Ok _ _ _ _ _
               (Hread 0x78 r5 ltac:(cbn; tauto) eq_refl)).
    cbv zeta. fold zero_snapshot.
    rewrite (bind_Ok _ _ _ _ _ (lift_Ok _ _ _ zero_snapshot_checks)).
    rewrite zero_snapshot_report. cbn [fst snd negb].
    rewrite (bind_Ok _ _ _ _ _ Hr). reflexivity. }
  exists reset_passed, reset_message, s'.
  split; [exact (Hrun _ _ Hreset) |].
  split; [reflexivity |]. split; [reflexivity |].
  intros Hff.
  rewrite (reset_error_flags_ok zero_snapshot zero_report _
             (fault_free_record _ d Hff) zero_snapshot_no_clock) in Hreset.
  injection Hreset as Hp _ Hs.
  split; [now rewrite Hp |].
  rewrite <- Hs, record_calls_app. reflexivity.
Qed.

Lemma run_diagnostics_all_zero_witness :
  exists reset_passed reset_message s',
    DiagnosticsService.run_diagnostics (ready quiet_port)
    = (Ok ("FAIL",
           (zero_report ++ [mkCheck "ERROR_RESET" reset_passed
                              reset_message None])%list), s') /\
    failed_checks zero_report
    = ["NO_CLK_ERR"; "VALID_FLAG_1"; "VALID_FLAG_2"; "VALID_FLAG_3";
       "VALID_FLAG_4"; "VALID_FLAG_5"] /\
    entries_named "ERROR_RESET"
      (zero_report ++ [mkCheck "ERROR_RESET" reset_passed
                         reset_message None])
    = [mkCheck "ERROR_RESET" reset_passed reset_message None] /\
    (fault_free quiet_port ->
     reset_passed = true /\
     s' = ready (record_calls
                   (flat_map (fun address => read_transaction address 0)
                      diagnostic_registers
                    ++ write_transaction 0x08 0x00000002 0
                    ++ write_transaction 0x4D 0x10000 0
                    ++ write_transaction 0x4D 0 0) quiet_port)).
Proof.
  apply (run_diagnostics_all_zero quiet_port).
  - intros h c _. reflexivity.
  - intros h address _. reflexivity.
Defined.

(** ** Sync on the exit paths of the apply sequences *)

Lemma sync_calls_app (cs cs' : list call) :
  sync_calls (cs ++ cs') = (sync_calls cs ++ sync_calls cs')%list.
Proof.
  induction cs as [| c cs IH]; [reflexivity |].
  destruct c; cbn [app sync_calls]; now rewrite IH.
Qed.







Lemma is_connected_eq (s : TX7332Controller) :
  Controller.is_connected s = (Ok (has_port s), s).
Proof. reflexivity. Qed.

(** *** The calls of a sequence that stops at the first failure *)

Lemma record_calls_cons (c : call) (cs : list call) (d : USBQPort) :
  record_calls cs (record_call c d) = record_calls (c :: cs) d.
Proof.
  unfold record_calls, record_call. cbn [calls respond fault].
  now rewrite <- app_assoc.
Qed.

Lemma send_app (cs cs' : list call) (d : USBQPort) :
  send (cs ++ cs') d
  = match snd (send cs d) with
    | None =>
        ((fst (send cs d)
          ++ fst (send cs' (record_calls (fst (send cs d)) d)))%list,
         snd (send cs' (record_calls (fst (send cs d)) d)))
    | Some msg => (fst (send cs d), Some msg)
    end.
Proof.
  revert d. induction cs as [| c cs IH]; intros d.
  - cbn [app send fst snd]. rewrite record_calls_nil.
    now destruct (send cs' d).
  - cbn [app send]. change (fault (record_call c d)) with (fault d).
    destruct (fault d (calls d) c) as [msg |]; [reflexivity |].
    cbn [fst snd]. rewrite IH.
    destruct (snd (send cs (record_call c d))); cbn [fst snd];
      [reflexivity |].
    now rewrite record_calls_cons.
Qed.

(** The calls completed are a prefix of the sequence, and what follows
    them is empty or starts with the call that raised. *)
Lemma send_prefix (cs : list call) (d : USBQPort) :
  exists rest,
    cs = (fst (send cs d) ++ rest)%list /\
    match rest with
    | [] => snd (send cs d) = None
    | c :: _ =>
        exists msg,
          snd (send cs d) = Some msg /\
          fault d (calls d ++ fst (send cs d)) c = Some msg
    end.
Proof.
  revert d. induction cs as [| c cs IH]; intros d.
  - exists []. split; reflexivity.
  - cbn [send]. destruct (fault d (calls d) c) as [msg |] eqn:E.
    + exists (c :: cs). split; [reflexivity |]. exists msg.
      cbn [fst snd]. now rewrite app_nil_r.
    + destruct (IH (record_call c d)) as (rest & Hcs & Hrest).
      exists rest. cbn [fst snd]. split.
      * cbn [app]. now rewrite <- Hcs.
      * destruct rest as [| c' rest']; [exact Hrest |].
        destruct Hrest as (msg & Hmsg & Hfault). exists msg.
        split; [exact Hmsg |].
        cbn [record_call calls fault] in Hfault.
        now rewrite <- app_assoc in Hfault.
Qed.

Lemma runs_ret {B} (b : B) : runs (ret (m := M) b) [] b.
Proof. intros d. cbn [send fst snd]. now rewrite record_calls_nil. Qed.

Lemma runs_bind {A B} (c : M A) (k : A -> M B) (cs cs' : list call)
  (a : A) (b : B) :
  runs c cs a -> runs (k a) cs' b -> runs (bind c k) (cs ++ cs') b.
Proof.
  intros Hc Hk d. cbn [bind Monad_M]. rewrite (Hc d), send_app.
  destruct (snd (send cs d)) as [msg |]; cbn [fst snd]; [reflexivity |].
  rewrite (Hk (record_calls (fst (send cs d)) d)).
  now rewrite record_calls_app.
Qed.

Lemma runs_for {A} (l : list A) (body : A -> M unit)
  (f : A -> list call) :
  (forall x, runs (body x) (f x) tt) ->
  runs (for_ l body) (flat_map f l) tt.
Proof.
  intros Hb. induction l as [| x l IH]; cbn [for_ flat_map].
  - apply runs_ret.
  - eapply runs_bind; [apply Hb | exact IH].
Qed.

Lemma runs_ensure_connected : runs Controller.ensure_connected [] tt.
Proof. intros d. cbn [send fst snd]. now rewrite record_calls_nil. Qed.

Lemma runs_writeReg (a v : Z) :
  runs (on_device "writeReg" (Port.writeReg a v)) [WriteReg a v] tt.
Proof.
  intros d. unfold on_device, Port.writeReg. cbn [ready device connected send].
  destruct (fault d (calls d) (WriteReg a v)); cbn [fst snd].
  - now rewrite record_calls_nil.
  - reflexivity.
Qed.

Lemma runs_write_reg (a v p : Z) :
  runs (Controller.write_reg a v p) (write_transaction a v p) tt.
Proof.
  unfold Controller.write_reg.
  change (write_transaction a v p)
    with ([] ++ [WriteReg 2 p] ++ [WriteReg a v] ++ [WriteReg 2 0])%list.
  eapply runs_bind; [apply runs_ensure_connected |].
  eapply runs_bind; [apply runs_writeReg |].
  eapply runs_bind; [apply runs_writeReg |].
  apply runs_writeReg.
Qed.

Lemma runs_enable_sync (enable : bool) :
  runs (Controller.enable_sync enable) [EnableSync enable] tt.
Proof.
  unfold Controller.enable_sync.
  change [EnableSync enable] with ([] ++ [EnableSync enable])%list.
  eapply runs_bind; [apply runs_ensure_connected |].
  intros d. unfold on_device, Port.enableSync.
  cbn [ready device connected send].
  destruct (fault d (calls d) (EnableSync enable)); cbn [fst snd].
  - now rewrite record_calls_nil.
  - reflexivity.
Qed.

(** A route whose body runs a sequence of calls: the handlers turn the
    exception of the transport into status 500. *)
Lemma http_errors_runs {B} (prefix : string) (body : M B)
  (cs : list call) (b : B) (d : USBQPort) :
  runs body cs b ->
  http_errors prefix body (ready d)
  = (match snd (send cs d) with
     | None => Ok b
     | Some msg => Raise (HTTPException 500 (prefix ++ msg))
     end,
     ready (record_calls (fst (send cs d)) d)).
Proof.
  intros H. unfold http_errors, try_except. rewrite (H d).
  now destruct (snd (send cs d)).
Qed.

Lemma sync_calls_no_sync (cs : list call) :
  Forall no_sync cs -> sync_calls cs = [].
Proof.
  induction 1 as [| c cs Hc _ IH]; [reflexivity |].
  destruct c; cbn [sync_calls]; [exact IH | exact IH | contradiction].
Qed.

Lemma no_sync_firstn (k : nat) (cs : list call) :
  Forall no_sync cs -> Forall no_sync (firstn k cs).
Proof.
  intros H. revert k. induction H as [| c cs Hc _ IH]; intros k.
  - rewrite firstn_nil. constructor.
  - destruct k as [| k]; cbn [firstn]; constructor; [exact Hc | apply IH].
Qed.

Lemma no_sync_writes {A} (l : list A) (fa fv fp : A -> Z) :
  Forall no_sync
    (flat_map (fun x => write_transaction (fa x) (fv x) (fp x)) l).
Proof.
  induction l as [| x l IH]; cbn [flat_map]; [constructor |].
  unfold write_transaction. cbn [app].
  repeat (apply Forall_cons; [exact I |]). exact IH.
Qed.

Lemma length_writes {A} (l : list A) (fa fv fp : A -> Z) :
  List.length
    (flat_map (fun x => write_transaction (fa x) (fv x) (fp x)) l)
  = (3 * List.length l)%nat.
Proof.
  induction l as [| x l IH]; [reflexivity |].
  cbn [flat_map]. rewrite length_app, IH. cbn [write_transaction List.length].
  lia.
Qed.

Lemma firstn_prefix {A} (made rest : list A) :
  firstn (List.length made) (made ++ rest) = made.
Proof.
  rewrite firstn_app, Nat.sub_diag, firstn_all. cbn [firstn].
  apply app_nil_r.
Qed.

(** The sync calls among the first [k] calls of a sequence that disables
    sync, writes, and makes no other sync call. *)
Lemma sync_calls_disable (writes : list call) (k : nat) :
  Forall no_sync writes ->
  sync_calls (firstn k (EnableSync false :: writes))
  = if (k =? 0)%nat then [] else [false].
Proof.
  intros H. destruct k as [| k]; [reflexivity |].
  cbn [firstn sync_calls Nat.eqb]. f_equal.
  apply sync_calls_no_sync. now apply no_sync_firstn.
Qed.

(** The same for a sequence that goes on to re-enable sync after [n]
    writes. *)
Lemma sync_calls_disable_enable (writes last : list call) (k : nat) :
  Forall no_sync writes -> Forall no_sync last ->
  sync_calls
    (firstn k (EnableSync false :: writes ++ EnableSync true :: last))
  = if (k =? 0)%nat then []
    else if (k <? 2 + List.length writes)%nat then [false]
         else [false; true].
Proof.
  intros Hw Hl. destruct k as [| k]; [reflexivity |].
  cbn [firstn sync_calls Nat.eqb]. f_equal.
  rewrite firstn_app, sync_calls_app.
  rewrite (sync_calls_no_sync (firstn k writes))
    by now apply no_sync_firstn.
  cbn [app].
  destruct (Nat.ltb_spec (S k) (2 + List.length writes)) as [Hlt | Hge].
  - replace (k - List.length writes)%nat with 0%nat by lia. reflexivity.
  - destruct (k - List.length writes)%nat as [| j] eqn:E; [lia |].
    cbn [firstn sync_calls].
    now rewrite (sync_calls_no_sync (firstn j last))
      by now apply no_sync_firstn.
Qed.

Lemma runs_is_connected : runs Controller.is_connected [] true.
Proof. intros d. cbn [send fst snd]. now rewrite record_calls_nil. Qed.

Lemma runs_lift {B} (r : Result B) (b : B) : r = Ok b -> runs (lift r) [] b.
Proof.
  intros -> d. cbn [send fst snd]. now rewrite record_calls_nil.
Qed.

Lemma apply_beamforming_runs (solver : FocusSolver) (cfg : BeamformingConfig)
  (delays combined : list Z) (d : USBQPort) :
  current_delays solver cfg = Ok delays ->
  BeamformingService.combine_channel_delays delays = Ok combined ->
  apply_beamforming solver cfg (ready d)
  = (match snd (send (delay_trace combined) d) with
     | None =>
         Ok (mkApiResponse true "Beamforming configuration applied"
               [("focal_point_x_mm", VFloat (focal_point_x_mm cfg));
                ("focal_point_z_mm", VFloat (focal_point_z_mm cfg));
                ("delays_applied", VInt (len combined))])
     | Some msg =>
         Raise (HTTPException 500 ("Error applying beamforming: " ++ msg))
     end,
     ready (record_calls (fst (send (delay_trace combined) d)) d)).
Proof.
  intros Hd Hc. unfold apply_beamforming. apply http_errors_runs.
  change (delay_trace combined)
    with ([] ++ [] ++ [] ++ [] ++ delay_trace combined)%list.
  eapply runs_bind; [apply runs_is_connected |]. cbn [negb].
  eapply runs_bind; [apply runs_ret |].
  eapply runs_bind; [apply (runs_lift _ _ Hd) |].
  eapply runs_bind; [apply (runs_lift _ _ Hc) |].
  unfold delay_trace.
  change (EnableSync false
          :: flat_map (fun reg_index => write_transaction reg_index 0 0)
               (range 0x0D 0x15 1)
          ++ flat_map
               (fun id =>
                  write_transaction (0x40 + fst id) (snd id) 0x00010000)
               (enumerate combined)
          ++ EnableSync true :: write_transaction 0x08 0x00000002 0)%list
    with ([EnableSync false]
          ++ flat_map (fun reg_index => write_transaction reg_index 0 0)
               (range 0x0D 0x15 1)
          ++ flat_map
               (fun id =>
                  write_transaction (0x40 + fst id) (snd id) 0x00010000)
               (enumerate combined)
          ++ [EnableSync true]
          ++ write_transaction 0x08 0x00000002 0 ++ [])%list.
  eapply runs_bind; [apply runs_enable_sync |]. cbv zeta.
  eapply runs_bind;
    [apply (runs_for _ _ (fun reg_index =>
                            write_transaction reg_index 0 0));
     intros x; apply runs_write_reg |].
  eapply runs_bind;
    [apply (runs_for _ _
              (fun id =>
                 write_transaction (0x40 + fst id) (snd id) 0x00010000));
     intros x; apply runs_write_reg |].
  eapply runs_bind; [apply runs_enable_sync |].
  eapply runs_bind; [apply runs_write_reg |].
  apply runs_ret.
Qed.

Lemma apply_pattern_runs (cfg : PatternConfig) (words : list Z) (start : Z)
  (d : USBQPort) :
  pattern_data cfg = Ok (words, start) ->
  apply_pattern cfg (ready d)
  = (match snd (send (pattern_trace words start) d) with
     | None =>
         Ok (mkApiResponse true "Pattern applied to device"
               [("pattern_type", VStr (pattern_type cfg));
                ("frequency_mhz", VFloat (frequency_mhz cfg));
                ("pattern_words", VInt (len words))])
     | Some msg =>
         Raise (HTTPException 500 ("Error applying pattern: " ++ msg))
     end,
     ready (record_calls (fst (send (pattern_trace words start) d)) d)).
Proof.
  intros Hpd. unfold apply_pattern. apply http_errors_runs.
  change (pattern_trace words start)
    with ([] ++ [] ++ [] ++ pattern_trace words start)%list.
  eapply runs_bind; [apply runs_is_connected |]. cbn [negb].
  eapply runs_bind; [apply runs_ret |].
  eapply runs_bind; [apply (runs_lift _ _ Hpd) |]. cbn [fst snd].
  unfold pattern_trace.
  change (EnableSync false
          :: write_transaction 0x08 0x00000000 0
          ++ flat_map
               (fun reg_index =>
                  write_transaction reg_index
                    (Z.lor (Z.shiftl start 16) start) 0)
               (range 0x0C 0x14 1)
          ++ flat_map
               (fun ip =>
                  write_transaction (0x40 + start + fst ip) (snd ip)
                    0x0000FFFF)
               (enumerate words))%list
    with ([EnableSync false]
          ++ write_transaction 0x08 0x00000000 0
          ++ flat_map
               (fun reg_index =>
                  write_transaction reg_index
                    (Z.lor (Z.shiftl start 16) start) 0)
               (range 0x0C 0x14 1)
          ++ flat_map
               (fun ip =>
                  write_transaction (0x40 + start + fst ip) (snd ip)
                    0x0000FFFF)
               (enumerate words))%list.
  eapply runs_bind; [apply runs_enable_sync |].
  eapply runs_bind; [apply runs_write_reg |].
  eapply runs_bind;
    [apply (runs_for _ _
              (fun reg_index =>
                 write_transaction reg_index
                   (Z.lor (Z.shiftl start 16) start) 0));
     intros x; apply runs_write_reg |].
  rewrite <- (app_nil_r (flat_map _ (enumerate words))).
  eapply runs_bind;
    [apply (runs_for _ _
              (fun ip =>
                 write_transaction (0x40 + start + fst ip) (snd ip)
                   0x0000FFFF));
     intros x; apply runs_write_reg |].
  apply runs_ret.
Qed.

Lemma syncs_record_calls (cs : list call) (d : USBQPort) :
  syncs (ready (record_calls cs d))
  = (syncs (ready d) ++ sync_calls cs)%list.
Proof.
  unfold syncs, calls_of, ready, record_calls. cbn [device calls].
  apply sync_calls_app.
Qed.

Lemma combined_length (delays combined : list Z) :
  BeamformingService.combine_channel_delays delays = Ok combined ->
  List.length combined = 16%nat.
Proof.
  intros H.
  destruct (Nat.eq_dec (List.length delays) 32) as [E | Hn].
  - rewrite (combine_channel_delays_32 delays E) in H.
    injection H as <-. reflexivity.
  - now rewrite (combine_channel_delays_rejects delays Hn) in H.
Qed.

Lemma length_enumerate {A} (l : list A) :
  List.length (enumerate l) = List.length l.
Proof.
  unfold enumerate, range, len. rewrite length_combine.
  assert (H : forall n lo, List.length (range_from lo 1 n) = n).
  { induction n as [| n IH]; intros lo; [reflexivity |].
    cbn [range_from List.length]. now rewrite IH. }
  rewrite H, Z.div_1_r.
  replace (Z.of_nat (List.length l) - 0 + 1 - 1) with (Z.of_nat (List.length l))
    by lia.
  rewrite Nat2Z.id. apply Nat.min_id.
Qed.

(** C6, as the code has it.  Each apply sequence makes its calls in the
    order of its trace and stops at the first call that raises: what the
    transport has seen is the calls before that one, the route answers
    with status 500 and the message of that call, and no handler makes a
    further call.  So the delay apply sequence re-enables sync exactly
    when its first 74 calls complete (sync off, the 72 calls of the 24
    register writes, sync on): when it succeeds, or when only the final
    write to register 0x08 fails.  When one of the 73 calls before the
    sync-on call fails, or that call itself, sync stays disabled (or
    untouched, when the sync-off call was the one that failed).  The
    pattern apply sequence has no sync-on call: it leaves sync disabled
    on every path on which it disabled it, the successful one
    included. *)
Theorem apply_sync_exit_paths :
  (forall solver cfg delays combined d,
     current_delays solver cfg = Ok delays ->
     BeamformingService.combine_channel_delays delays = Ok combined ->
     exists made rest,
       delay_trace combined = (made ++ rest)%list /\
       snd (apply_beamforming solver cfg (ready d))
       = ready (record_calls made d) /\
       match rest with
       | [] =>
           exists response,
             fst (apply_beamforming solver cfg (ready d)) = Ok response
       | c :: _ =>
           exists msg,
             fault d (calls d ++ made) c = Some msg /\
             fst (apply_beamforming solver cfg (ready d))
             = Raise (HTTPException 500
                        ("Error applying beamforming: " ++ msg))
       end /\
       syncs (snd (apply_beamforming solver cfg (ready d)))
       = (syncs (ready d)
          ++ (if (List.length made =? 0)%nat then []
              else if (List.length made <? 74)%nat then [false]
                   else [false; true]))%list) /\
  (forall cfg words start d,
     ascii_hex cfg = true ->
     pattern_data cfg = Ok (words, start) ->
     exists made rest,
       pattern_trace words start = (made ++ rest)%list /\
       snd (apply_pattern cfg (ready d)) = ready (record_calls made d) /\
       match rest with
       | [] =>
           exists response,
             fst (apply_pattern cfg (ready d)) = Ok response
       | c :: _ =>
           exists msg,
             fault d (calls d ++ made) c = Some msg /\
             fst (apply_pattern cfg (ready d))
             = Raise (HTTPException 500 ("Error applying pattern: " ++ msg))
       end /\
       syncs (snd (apply_pattern cfg (ready d)))
       = (syncs (ready d)
          ++ (if (List.length made =? 0)%nat then [] else [false]))%list).
Proof.
  split.
  - intros solver cfg delays combined d Hd Hc.
    rewrite (apply_beamforming_runs solver cfg delays combined d Hd Hc).
    cbn [fst snd].
    destruct (send_prefix (delay_trace combined) d) as (rest & Hsplit & Hrest).
    set (made := fst (send (delay_trace combined) d)) in *.
    exists made, rest. split; [exact Hsplit |]. split; [reflexivity |].
    split.
    + destruct rest as [| c rest'].
      * rewrite Hrest. eexists. reflexivity.
      * destruct Hrest as (msg & -> & Hfault). now exists msg.
    + rewrite syncs_record_calls. f_equal. clearbody made.
      assert (Hm : sync_calls made
                   = sync_calls (firstn (List.length made)
                                   (delay_trace combined)))
        by now rewrite Hsplit, firstn_prefix.
      rewrite Hm. unfold delay_trace. rewrite app_assoc.
      rewrite sync_calls_disable_enable.
      * rewrite length_app, !length_writes, length_enumerate.
        rewrite (combined_length delays combined Hc). reflexivity.
      * apply Forall_app. split; apply no_sync_writes.
      * unfold write_transaction. repeat constructor.
  - intros cfg words start d _ Hpd.
    rewrite (apply_pattern_runs cfg words start d Hpd). cbn [fst snd].
    destruct (send_prefix (pattern_trace words start) d)
      as (rest & Hsplit & Hrest).
    set (made := fst (send (pattern_trace words start) d)) in *.
    exists made, rest. split; [exact Hsplit |]. split; [reflexivity |].
    split.
    + destruct rest as [| c rest'].
      * rewrite Hrest. eexists. reflexivity.
      * destruct Hrest as (msg & -> & Hfault). now exists msg.
    + rewrite syncs_record_calls. f_equal. clearbody made.
      assert (Hm : sync_calls made
                   = sync_calls (firstn (List.length made)
                                   (pattern_trace words start)))
        by now rewrite Hsplit, firstn_prefix.
      rewrite Hm. unfold pattern_trace.
      apply sync_calls_disable.
      apply Forall_app. split.
      * unfold write_transaction. repeat constructor.
      * apply Forall_app. split; apply no_sync_writes.
Qed.

Lemma apply_sync_exit_paths_witness :
  (exists made rest,
     delay_trace (repeat 0 16) = (made ++ rest)%list /\
     snd (apply_beamforming (constant_solver (repeat 0 32))
            default_beamforming (ready (failing_port 74)))
     = ready (record_calls made (failing_port 74)) /\
     match rest with
     | [] =>
         exists response,
           fst (apply_beamforming (constant_solver (repeat 0 32))
                  default_beamforming (ready (failing_port 74)))
           = Ok response
     | c :: _ =>
         exists msg,
           fault (failing_port 74) (calls (failing_port 74) ++ made) c
           = Some msg /\
           fst (apply_beamforming (constant_solver (repeat 0 32))
                  default_beamforming (ready (failing_port 74)))
           = Raise (HTTPException 500
                      ("Error applying beamforming: " ++ msg))
     end /\
     syncs (snd (apply_beamforming (constant_solver (repeat 0 32))
                   default_beamforming (ready (failing_port 74))))
     = (syncs (ready (failing_port 74))
        ++ (if (List.length made =? 0)%nat then []
            else if (List.length made <? 74)%nat then [false]
                 else [false; true]))%list) /\
  (exists made rest,
     pattern_trace [0x00020002; 0x0000B5B1] 0x001E = (made ++ rest)%list /\
     snd (apply_pattern custom_pattern (ready (failing_port 30)))
     = ready (record_calls made (failing_port 30)) /\
     match rest with
     | [] =>
         exists response,
           fst (apply_pattern custom_pattern (ready (failing_port 30)))
           = Ok response
     | c :: _ =>
         exists msg,
           fault (failing_port 30) (calls (failing_port 30) ++ made) c
           = Some msg /\
           fst (apply_pattern custom_pattern (ready (failing_port 30)))
           = Raise (HTTPException 500 ("Error applying pattern: " ++ msg))
     end /\
     syncs (snd (apply_pattern custom_pattern (ready (failing_port 30))))
     = (syncs (ready (failing_port 30))
        ++ (if (List.length made =? 0)%nat then [] else [false]))%list).
Proof.
  split.
  - apply (proj1 apply_sync_exit_paths (constant_solver (repeat 0 32))
             default_beamforming (repeat 0 32) (repeat 0 16)
             (failing_port 74)); reflexivity.
  - apply (proj2 apply_sync_exit_paths custom_pattern
             [0x00020002; 0x0000B5B1] 0x001E (failing_port 30));
      reflexivity.
Defined.

(** The three kinds of exit of the delay apply sequence on ports where
    one call raises: the sync-off call itself, a delay write, the final
    write to register 0x08. *)
Example apply_beamforming_failure_points :
  syncs (snd (apply_beamforming (constant_solver (repeat 0 32))
                default_beamforming (ready (failing_port 0)))) = [] /\
  syncs (snd (apply_beamforming (constant_solver (repeat 0 32))
                default_beamforming (ready (failing_port 73)))) = [false] /\
  syncs (snd (apply_beamforming (constant_solver (repeat 0 32))
                default_beamforming (ready (failing_port 74))))
  = [false; true] /\
  fst (apply_beamforming (constant_solver (repeat 0 32))
         default_beamforming (ready (failing_port 74)))
  = Raise (HTTPException 500
             "Error applying beamforming: USB write failed").
Proof. repeat split; reflexivity. Qed.

(** C6 fails on both routes: the pattern apply sequence that completes
    leaves sync disabled, and so does the delay apply sequence when a
    register write raises partway (here the second write of the delay
    start word). *)
Lemma apply_leaves_sync_disabled :
  (exists response,
     fst (apply_pattern default_pattern (ready quiet_port)) = Ok response) /\
  syncs (snd (apply_pattern default_pattern (ready quiet_port))) = [false] /\
  fst (apply_beamforming (constant_solver (repeat 0 32)) default_beamforming
         (ready (failing_port 4)))
  = Raise (HTTPException 500
             "Error applying beamforming: USB write failed") /\
  syncs (snd (apply_beamforming (constant_solver (repeat 0 32))
                default_beamforming (ready (failing_port 4))))
  = [false].
Proof.
  split; [eexists; reflexivity |].
  split; [reflexivity |].
  split; reflexivity.
Qed.

(** ** Delays from a steering angle *)

Section Steering.

Import BeamformingService.

Lemma angle_loop_finite (angle_rad speed : R) (positions : list R)
  (delays : list Z) :
  speed <> 0%R ->
  angle_loop angle_rad speed positions delays
  = Ok (delays ++ map (steering_cycles angle_rad speed) positions)%list.
Proof.
  intros Hs. revert delays.
  induction positions as [| pos positions IH]; intros delays.
  - cbn [angle_loop map ret Monad_Result]. now rewrite app_nil_r.
  - cbn [angle_loop map]. unfold np_truediv.
    destruct (Req_dec_T speed 0) as [E | _]; [contradiction |].
    cbn [np_div_const int_round bind Monad_Result].
    rewrite IH, <- app_assoc. reflexivity.
Qed.

Lemma fold_min_le (l : list Z) (x : Z) :
  fold_left Z.min l x <= x /\ Forall (fun y => fold_left Z.min l x <= y) l.
Proof.
  revert x. induction l as [| y l IH]; intros x; cbn [fold_left].
  - split; [lia | constructor].
  - destruct (IH (Z.min x y)) as [Hx Hl]. split; [lia |].
    constructor; [lia | exact Hl].
Qed.

Lemma fold_min_in (l : list Z) (x : Z) :
  In (fold_left Z.min l x) (x :: l).
Proof.
  revert x. induction l as [| y l IH]; intros x; cbn [fold_left].
  - now left.
  - destruct (IH (Z.min x y)) as [E | Hin].
    + rewrite <- E. destruct (Z.min_spec x y) as [[_ ->] | [_ ->]].
      * now left.
      * right. now left.
    + right. now right.
Qed.

(** Subtracting the minimum: nothing is negative and 0 is reached. *)
Lemma normalize_min (l : list Z) (m : Z) :
  py_min l = Ok m ->
  Forall (fun d => 0 <= d) (map (fun d => d - m) l) /\
  In 0 (map (fun d => d - m) l) /\
  py_min (map (fun d => d - m) l) = Ok 0.
Proof.
  destruct l as [| x l]; [discriminate |]. cbn [py_min]. intros [= Hm].
  destruct (fold_min_le l x) as [Hx Hl]. rewrite Hm in Hx, Hl.
  pose proof (fold_min_in l x) as Hin. rewrite Hm in Hin.
  assert (Hall : Forall (fun d => 0 <= d) (map (fun d => d - m) (x :: l))).
  { apply Forall_map. constructor; [lia |].
    eapply Forall_impl; [| exact Hl]. cbn. intros; lia. }
  assert (Hzero : In 0 (map (fun d => d - m) (x :: l))).
  { replace 0 with (m - m) by lia.
    exact (in_map (fun d => d - m) (x :: l) m Hin). }
  split; [exact Hall |]. split; [exact Hzero |].
  cbn [map py_min]. f_equal.
  set (l' := map (fun d => d - m) l) in *.
  set (x' := x - m) in *. cbn [map] in Hall, Hzero. fold l' x' in Hall, Hzero.
  destruct (fold_min_le l' x') as [Hx' Hl'].
  pose proof (fold_min_in l' x') as Hin'.
  rewrite Forall_forall in Hall, Hl'.
  pose proof (Hall _ Hin') as Hge.
  destruct Hzero as [E | Hin0].
  - cbn beta in Hge. lia.
  - pose proof (Hl' _ Hin0). cbn beta in *. lia.
Qed.

Lemma round_half_even_0 : round_half_even 0 = 0.
Proof.
  unfold round_half_even.
  assert (Hup : Int_part 0 = 0).
  { unfold Int_part. rewrite <- (tech_up 0 1); [reflexivity | |];
      simpl; lra. }
  rewrite Hup. cbn [IZR].
  destruct (Rlt_dec (0 - 0) (1 / 2)) as [_ | Hn]; [reflexivity |].
  exfalso. apply Hn. lra.
Qed.

Lemma steering_cycles_zero (speed pos : R) :
  steering_cycles (deg2rad 0) speed pos = 0.
Proof.
  unfold steering_cycles, deg2rad. rewrite Rmult_0_l, sin_0, Rmult_0_r.
  unfold Rdiv. rewrite !Rmult_0_l. now rewrite round_half_even_0.
Qed.

Lemma calculate_delays_from_angle_ok (angle speed frequency : R) :
  speed <> 0%R -> frequency <> 0%R ->
  exists raw m,
    py_min raw = Ok m /\
    raw = map (steering_cycles (deg2rad angle) speed) ELEMENT_POSITIONS /\
    calculate_delays_from_angle angle speed frequency
    = Ok (map (fun d => d - m) raw).
Proof.
  intros Hs Hf.
  set (raw := map (steering_cycles (deg2rad angle) speed) ELEMENT_POSITIONS).
  assert (Hmin : exists m, py_min raw = Ok m).
  { unfold raw, ELEMENT_POSITIONS. cbn [map py_min]. eexists. reflexivity. }
  destruct Hmin as [m Hm]. exists raw, m.
  split; [exact Hm |]. split; [reflexivity |].
  unfold calculate_delays_from_angle, float_truediv.
  destruct (Req_dec_T frequency 0) as [E | _]; [contradiction |].
  cbn [bind Monad_Result].
  rewrite (angle_loop_finite _ _ _ [] Hs). cbn [app]. fold raw.
  rewrite Hm. reflexivity.
Qed.

(** Without steering every element gets the delay 0. *)
Lemma calculate_delays_from_angle_zero (speed frequency : R) :
  speed <> 0%R -> frequency <> 0%R ->
  calculate_delays_from_angle 0 speed frequency = Ok (repeat 0 32).
Proof.
  intros Hs Hf.
  destruct (calculate_delays_from_angle_ok 0 speed frequency Hs Hf)
    as (raw & m & Hm & Hraw & ->).
  assert (Hzero : raw = repeat 0 32).
  { rewrite Hraw.
    rewrite (map_ext _ (fun _ => 0) (steering_cycles_zero speed)).
    reflexivity. }
  rewrite Hzero in Hm |- *.
  assert (E : py_min (repeat 0 32) = Ok 0) by reflexivity.
  rewrite E in Hm. injection Hm as <-. reflexivity.
Qed.

(** The all-zero array is what the apply route computes for the steering
    angle 0. *)
Lemma current_delays_angle_zero (solver : FocusSolver) (x z speed : R) :
  speed <> 0%R ->
  current_delays solver (mkBeamformingConfig x z 0 speed false)
  = Ok (repeat 0 32).
Proof.
  intros Hs. unfold current_delays.
  cbn [auto_calculate steering_angle_deg speed_of_sound].
  apply calculate_delays_from_angle_zero; [exact Hs | lra].
Qed.

End Steering.

(** X29: for every angle in [-30, 30], every speed of sound in
    [1000, 2000] and every frequency other than 0,
    [calculate_delays_from_angle] returns 32 values none of which is
    negative and whose minimum is exactly 0; for the angle 0 all 32 values
    are 0. *)
Theorem calculate_delays_from_angle_normalized (angle speed frequency : R) :
  (-30 <= angle <= 30)%R ->
  (1000 <= speed <= 2000)%R ->
  frequency <> 0%R ->
  exists delays,
    BeamformingService.calculate_delays_from_angle angle speed frequency
    = Ok delays /\
    List.length delays = 32%nat /\
    Forall (fun d => 0 <= d) delays /\
    py_min delays = Ok 0 /\
    (angle = 0%R -> delays = repeat 0 32).
Proof.
  intros Ha Hs Hf.
  destruct (calculate_delays_from_angle_ok angle speed frequency)
    as (raw & m & Hm & Hraw & Hres); [lra | exact Hf |].
  exists (map (fun d => d - m) raw).
  destruct (normalize_min raw m Hm) as (Hall & _ & Hmin).
  split; [exact Hres |].
  split; [now rewrite length_map, Hraw, length_map |].
  split; [exact Hall |].
  split; [exact Hmin |].
  intros ->.
  rewrite calculate_delays_from_angle_zero in Hres by (lra || exact Hf).
  now injection Hres as <-.
Qed.

Lemma calculate_delays_from_angle_normalized_witness :
  exists delays,
    BeamformingService.calculate_delays_from_angle (-20) 1540 5600000
    = Ok delays /\
    List.length delays = 32%nat /\
    Forall (fun d => 0 <= d) delays /\
    py_min delays = Ok 0 /\
    ((-20)%R = 0%R -> delays = repeat 0 32).
Proof.
  apply (calculate_delays_from_angle_normalized (-20) 1540 5600000); lra.
Defined.


(** * Further properties of the backend *)

(** ** The controller without a device, and transactions that fail *)

Lemma ensure_connected_refuses (s : TX7332Controller) :
  has_port s = false ->
  Controller.ensure_connected s
  = (Raise (DeviceControllerError "Device not connected"), s).
Proof.
  intros H. unfold Controller.ensure_connected, Controller.is_connected.
  cbn [bind Monad_M]. now rewrite H.
Qed.

Lemma bind_Raise {A B} (c : M A) (k : A -> M B) (s s1 : TX7332Controller)
  (e : exn) :
  c s = (Raise e, s1) -> bind c k s = (Raise e, s1).
Proof. intros H. cbn [bind Monad_M]. now rewrite H. Qed.

(** X1: without a connected device every register method of the
    controller raises [DeviceControllerError] at once, and the controller
    is left as it was: nothing reaches the transport. *)
Theorem controller_refuses_without_device (s : TX7332Controller)
  (address value page_select : Z) (enable : bool) :
  has_port s = false ->
  Controller.write_reg address value page_select s
  = (Raise (DeviceControllerError "Device not connected"), s) /\
  Controller.read_reg address page_select s
  = (Raise (DeviceControllerError "Device not connected"), s) /\
  Controller.enable_sync enable s
  = (Raise (DeviceControllerError "Device not connected"), s) /\
  software_reset s
  = (Raise (DeviceControllerError "Device not connected"), s) /\
  memory_reset s
  = (Raise (DeviceControllerError "Device not connected"), s).
Proof.
  intros H. pose proof (ensure_connected_refuses s H) as E.
  repeat split; apply bind_Raise, E.
Qed.

Lemma controller_refuses_without_device_witness :
  Controller.write_reg 0x08 2 0 (mkController (Some quiet_port) false)
  = (Raise (DeviceControllerError "Device not connected"),
     mkController (Some quiet_port) false) /\
  Controller.read_reg 0x1D 0 (mkController None true)
  = (Raise (DeviceControllerError "Device not connected"),
     mkController None true).
Proof.
  split.
  - apply (controller_refuses_without_device
             (mkController (Some quiet_port) false) 0x08 2 0 true).
    reflexivity.
  - apply (controller_refuses_without_device
             (mkController None true) 0x1D 0 0 true).
    reflexivity.
Defined.

(** The outcomes of one transport write on a controller with a port. *)
Lemma on_device_writeReg_cases (m : string) (a v : Z) (d : USBQPort)
  (b : bool) :
  (exists msg,
     on_device m (Port.writeReg a v) (mkController (Some d) b)
     = (Raise (TransportError msg), mkController (Some d) b)) \/
  on_device m (Port.writeReg a v) (mkController (Some d) b)
  = (Ok tt, mkController (Some (record_calls [WriteReg a v] d)) b).
Proof.
  unfold on_device, Port.writeReg. cbn [device connected].
  destruct (fault d (calls d) (WriteReg a v)) as [msg |].
  - left. now exists msg.
  - now right.
Qed.

Lemma on_device_readReg_cases (m : string) (a : Z) (d : USBQPort)
  (b : bool) :
  (exists msg,
     on_device m (Port.readReg a) (mkController (Some d) b)
     = (Raise (TransportError msg), mkController (Some d) b)) \/
  on_device m (Port.readReg a) (mkController (Some d) b)
  = (Ok (respond d (calls d) a),
     mkController (Some (record_calls [ReadReg a] d)) b).
Proof.
  unfold on_device, Port.readReg. cbn [device connected].
  destruct (fault d (calls d) (ReadReg a)) as [msg |].
  - left. now exists msg.
  - now right.
Qed.

Lemma has_port_ready (s : TX7332Controller) :
  has_port s = true -> exists d, s = ready d.
Proof.
  unfold has_port. destruct s as [[d |] c]; cbn [connected device].
  - rewrite andb_true_r. intros ->. now exists d.
  - now rewrite andb_false_r.
Qed.

(** A register write on a connected controller makes the first [k] calls
    of its transaction and raises unless [k = 3]. *)
Lemma write_reg_cases (a v p : Z) (d : USBQPort) :
  exists k r,
    (k <= 3)%nat /\
    Controller.write_reg a v p (ready d)
    = (r, ready (record_calls (firstn k (write_transaction a v p)) d)) /\
    (k = 3%nat -> r = Ok tt) /\
    ((k < 3)%nat -> exists msg, r = Raise (TransportError msg)).
Proof.
  unfold Controller.write_reg.
  rewrite (bind_Ok _ _ _ _ _ (ensure_connected_ready d)). unfold ready.
  destruct (on_device_writeReg_cases "writeReg" 2 p d true)
    as [[msg E] | E].
  { exists 0%nat, (Raise (TransportError msg)).
    rewrite (bind_Raise _ _ _ _ _ E). cbn [firstn].
    rewrite record_calls_nil. repeat split; try lia. intros _. now exists msg. }
  rewrite (bind_Ok _ _ _ _ _ E).
  destruct (on_device_writeReg_cases "writeReg" a v
              (record_calls [WriteReg 2 p] d) true) as [[msg E1] | E1].
  { exists 1%nat, (Raise (TransportError msg)).
    rewrite (bind_Raise _ _ _ _ _ E1).
    repeat split; try lia. intros _. now exists msg. }
  rewrite (bind_Ok _ _ _ _ _ E1), record_calls_app.
  destruct (on_device_writeReg_cases "writeReg" 2 0
              (record_calls ([WriteReg 2 p] ++ [WriteReg a v]) d) true)
    as [[msg E2] | E2].
  { exists 2%nat, (Raise (TransportError msg)). rewrite E2.
    repeat split; try lia. intros _. now exists msg. }
  exists 3%nat, (Ok tt). rewrite E2, record_calls_app.
  repeat split; try lia.
Qed.

(** X2: a register write never makes a call outside its three-step
    transaction: whatever happens, the calls it adds are the first [k]
    steps, with [k = 3] exactly when it returns.  When a step raises after
    the page was selected, nothing resets the page: the selector stays at
    the page of the write (for a target register other than 2). *)
Theorem write_reg_stops_at_failure (address value page_select : Z)
  (s : TX7332Controller) :
  has_port s = true ->
  exists k,
    (k <= 3)%nat /\
    calls_of (snd (Controller.write_reg address value page_select s))
    = (calls_of s
       ++ firstn k (write_transaction address value page_select))%list /\
    (k = 3%nat <->
     fst (Controller.write_reg address value page_select s) = Ok tt) /\
    ((1 <= k < 3)%nat -> address <> 2 ->
     forall page,
       page_selector_from page
         (calls_of (snd (Controller.write_reg address value page_select s)))
       = page_select).
Proof.
  intros H. destruct (has_port_ready s H) as [d ->].
  destruct (write_reg_cases address value page_select d)
    as (k & r & Hk & E & Hok & Hraise).
  exists k. rewrite E. cbn [fst snd calls_of ready device record_calls calls].
  split; [exact Hk |]. split; [reflexivity |]. split.
  - split.
    + exact Hok.
    + intros ->. destruct (Nat.eq_dec k 3) as [-> | Hne]; [reflexivity |].
      destruct Hraise as [msg Hmsg]; [lia | discriminate].
  - intros Hk' Ha page. rewrite page_selector_from_app.
    assert (Hcases : k = 1%nat \/ k = 2%nat) by lia.
    destruct Hcases as [-> | ->]; cbn [firstn write_transaction
                                         page_selector_from].
    + reflexivity.
    + rewrite Z.eqb_refl.
      destruct (Z.eqb_spec address 2) as [E2 | _]; [contradiction |].
      reflexivity.
Qed.

Lemma write_reg_stops_at_failure_witness :
  exists k,
    (k <= 3)%nat /\
    calls_of (snd (Controller.write_reg 0x5E 0xB5B1 0xFFFF
                     (ready (failing_port 1))))
    = (calls_of (ready (failing_port 1))
       ++ firstn k (write_transaction 0x5E 0xB5B1 0xFFFF))%list /\
    (k = 3%nat <->
     fst (Controller.write_reg 0x5E 0xB5B1 0xFFFF (ready (failing_port 1)))
     = Ok tt) /\
    ((1 <= k < 3)%nat -> 0x5E <> 2 ->
     forall page,
       page_selector_from page
         (calls_of (snd (Controller.write_reg 0x5E 0xB5B1 0xFFFF
                           (ready (failing_port 1)))))
       = 0xFFFF).
Proof.
  apply (write_reg_stops_at_failure 0x5E 0xB5B1 0xFFFF
           (ready (failing_port 1))).
  reflexivity.
Defined.

Example write_reg_leaves_page_selected :
  Controller.write_reg 0x5E 0xB5B1 0xFFFF (ready (failing_port 1))
  = (Raise (TransportError "USB write failed"),
     ready (record_calls [WriteReg 2 0xFFFF] (failing_port 1))).
Proof. reflexivity. Qed.

(** A register read on a connected controller makes the first [k] calls
    of its transaction and raises unless [k = 5]. *)
Lemma read_reg_cases (a p : Z) (d : USBQPort) :
  exists k r,
    (k <= 5)%nat /\
    Controller.read_reg a p (ready d)
    = (r, ready (record_calls (firstn k (read_transaction a p)) d)) /\
    (k = 5%nat ->
     r = Ok (respond d (calls d ++ [WriteReg 2 p; WriteReg 0 2]) a)) /\
    ((k < 5)%nat -> exists msg, r = Raise (TransportError msg)).
Proof.
  unfold Controller.read_reg.
  rewrite (bind_Ok _ _ _ _ _ (ensure_connected_ready d)). unfold ready.
  destruct (on_device_writeReg_cases "writeReg" 2 p d true)
    as [[msg E] | E].
  { exists 0%nat, (Raise (TransportError msg)).
    rewrite (bind_Raise _ _ _ _ _ E). cbn [firstn].
    rewrite record_calls_nil. repeat split; try lia. intros _. now exists msg. }
  rewrite (bind_Ok _ _ _ _ _ E). clear E.
  destruct (on_device_writeReg_cases "writeReg" 0 2
              (record_calls [WriteReg 2 p] d) true) as [[msg E] | E].
  { exists 1%nat, (Raise (TransportError msg)).
    rewrite (bind_Raise _ _ _ _ _ E).
    repeat split; try lia. intros _. now exists msg. }
  rewrite (bind_Ok _ _ _ _ _ E), record_calls_app. clear E.
  destruct (on_device_readReg_cases "readReg" a
              (record_calls ([WriteReg 2 p] ++ [WriteReg 0 2]) d) true)
    as [[msg E] | E].
  { exists 2%nat, (Raise (TransportError msg)).
    rewrite (bind_Raise _ _ _ _ _ E).
    repeat split; try lia. intros _. now exists msg. }
  rewrite (bind_Ok _ _ _ _ _ E), record_calls_app. clear E.
  destruct (on_device_writeReg_cases "writeReg" 0 0
              (record_calls
                 (([WriteReg 2 p] ++ [WriteReg 0 2]) ++ [ReadReg a]) d) true)
    as [[msg E] | E].
  { exists 3%nat, (Raise (TransportError msg)).
    rewrite (bind_Raise _ _ _ _ _ E).
    repeat split; try lia. intros _. now exists msg. }
  rewrite (bind_Ok _ _ _ _ _ E), record_calls_app. clear E.
  destruct (on_device_writeReg_cases "writeReg" 2 0
              (record_calls
                 ((([WriteReg 2 p] ++ [WriteReg 0 2]) ++ [ReadReg a])
                  ++ [WriteReg 0 0]) d) true)
    as [[msg E] | E].
  { exists 4%nat, (Raise (TransportError msg)).
    rewrite (bind_Raise _ _ _ _ _ E).
    repeat split; try lia. intros _. now exists msg. }
  rewrite (bind_Ok _ _ _ _ _ E), record_calls_app. clear E.
  exists 5%nat. eexists. cbn [ret Monad_M].
  split; [lia |]. split; [reflexivity |]. split; [| lia].
  intros _. reflexivity.
Qed.

(** X3: a register read never makes a call outside its five-step
    transaction: the calls it adds are the first [k] steps, with [k = 5]
    exactly when it returns a value.  A step that raises ends the read
    where it is, so read mode and the page can stay selected. *)
Theorem read_reg_stops_at_failure (address page_select : Z)
  (s : TX7332Controller) :
  has_port s = true ->
  exists k,
    (k <= 5)%nat /\
    calls_of (snd (Controller.read_reg address page_select s))
    = (calls_of s ++ firstn k (read_transaction address page_select))%list /\
    (k = 5%nat <->
     exists x, fst (Controller.read_reg address page_select s) = Ok x).
Proof.
  intros H. destruct (has_port_ready s H) as [d ->].
  destruct (read_reg_cases address page_select d)
    as (k & r & Hk & E & Hok & Hraise).
  exists k. rewrite E. cbn [fst snd calls_of ready device record_calls calls].
  split; [exact Hk |]. split; [reflexivity |]. split.
  - intros Hk5. eexists. now apply Hok.
  - intros [x ->]. destruct (Nat.eq_dec k 5) as [-> | Hne]; [reflexivity |].
    destruct Hraise as [msg Hmsg]; [lia | discriminate].
Qed.

Lemma read_reg_stops_at_failure_witness :
  exists k,
    (k <= 5)%nat /\
    calls_of (snd (Controller.read_reg 0x6C 0 (ready (failing_port 3))))
    = (calls_of (ready (failing_port 3))
       ++ firstn k (read_transaction 0x6C 0))%list /\
    (k = 5%nat <->
     exists x, fst (Controller.read_reg 0x6C 0 (ready (failing_port 3)))
               = Ok x).
Proof.
  apply (read_reg_stops_at_failure 0x6C 0 (ready (failing_port 3))).
  reflexivity.
Defined.

Example read_reg_leaves_read_mode :
  Controller.read_reg 0x6C 0 (ready (failing_port 3))
  = (Raise (TransportError "USB write failed"),
     ready (record_calls [WriteReg 2 0; WriteReg 0 2; ReadReg 0x6C]
              (failing_port 3))).
Proof. reflexivity. Qed.

(** ** The resets *)






Lemma memory_reset_loop_ok (l : list Z) (d : USBQPort) :
  fault_free d ->
  for_ l
    (fun addr =>
       try_except (Controller.write_reg addr 0x00000000 0x0000FFFF)
         (fun e => ret tt)) (ready d)
  = (Ok tt,
     ready (record_calls
              (flat_map (fun addr => write_transaction addr 0 0xFFFF) l) d)).
Proof.
  revert d. induction l as [| addr l IH]; intros d H.
  - cbn [for_ flat_map ret Monad_M]. now rewrite record_calls_nil.
  - cbn [for_ flat_map].
    assert (E : try_except (Controller.write_reg addr 0 0xFFFF)
                  (fun e => ret tt) (ready d)
                = (Ok tt,
                   ready (record_calls (write_transaction addr 0 0xFFFF) d))).
    { unfold try_except. now rewrite write_reg_ok. }
    rewrite (bind_Ok _ _ _ _ _ E).
    rewrite IH by now apply fault_free_record.
    now rewrite record_calls_app.
Qed.

(** X5: on a port that does not raise, [memory_reset] writes 0 with page
    select 0x0000FFFF to the 64 registers 0x00..0x3F in ascending order,
    each as a complete three-step transaction (192 transport calls), and
    [software_reset] writes 1 to register 0 on page 0. *)
Theorem resets_on_a_quiet_port (d : USBQPort) :
  fault_free d ->
  memory_reset (ready d)
  = (Ok tt,
     ready (record_calls
              (flat_map (fun addr => write_transaction addr 0 0x0000FFFF)
                 (map Z.of_nat (seq 0 64))) d)) /\
  software_reset (ready d)
  = (Ok tt, ready (record_calls (write_transaction 0 1 0) d)).
Proof.
  intros H. split.
  - unfold memory_reset.
    rewrite (bind_Ok _ _ _ _ _ (ensure_connected_ready d)).
    now rewrite memory_reset_loop_ok.
  - unfold software_reset.
    rewrite (bind_Ok _ _ _ _ _ (ensure_connected_ready d)).
    now apply write_reg_ok.
Qed.

Lemma resets_on_a_quiet_port_witness :
  List.length (calls_of (snd (memory_reset (ready quiet_port)))) = 192%nat /\
  software_reset (ready quiet_port)
  = (Ok tt, ready (record_calls (write_transaction 0 1 0) quiet_port)).
Proof.
  split.
  - rewrite (proj1 (resets_on_a_quiet_port quiet_port
                      ltac:(intros h c; reflexivity))).
    reflexivity.
  - apply (resets_on_a_quiet_port quiet_port). intros h c. reflexivity.
Defined.

(** ** Patterns: validation, custom patterns and presets *)

Lemma validate_loop_spec (l : list Z) :
  validate_loop l = true <-> Forall (fun v => 0 <= v <= 0xFFFFFFFF) l.
Proof.
  induction l as [| v l IH]; cbn [validate_loop].
  - split; [constructor | reflexivity].
  - destruct (Z.ltb_spec v 0) as [Hneg | Hnn]; cbn [orb].
    + split; [discriminate |]. intros H. inversion H; subst. lia.
    + destruct (Z.ltb_spec 0xFFFFFFFF v) as [Hbig | Hfit].
      * split; [discriminate |]. intros H. inversion H; subst. lia.
      * rewrite IH. split.
        -- intros H. constructor; [lia | exact H].
        -- intros H. now inversion H.
Qed.

(** X6: [validate_custom_pattern] accepts exactly the non-empty lists
    all of whose values are in 0..0xFFFFFFFF. *)
Theorem validate_custom_pattern_spec (pattern_hex : list Z) :
  validate_custom_pattern pattern_hex = true <->
  pattern_hex <> [] /\ Forall (fun v => 0 <= v <= 0xFFFFFFFF) pattern_hex.
Proof.
  destruct pattern_hex as [| v l].
  - cbn [validate_custom_pattern]. split; [discriminate |].
    intros [H _]. now contradiction H.
  - unfold validate_custom_pattern. rewrite validate_loop_spec.
    split; [intros H; split; [discriminate | exact H] | now intros [_ H]].
Qed.

Lemma parse_custom_hex_length (hs : list string) (words : list Z) :
  parse_custom_hex hs = Ok words -> List.length words = List.length hs.
Proof.
  revert words. induction hs as [| h hs IH]; intros words.
  - cbn [parse_custom_hex ret Monad_Result]. now intros [= <-].
  - cbn [parse_custom_hex bind Monad_Result].
    destruct (int_of_string h 16) as [v | e]; [| discriminate].
    destruct (parse_custom_hex hs) as [vs | e]; [| discriminate].
    cbn [ret Monad_Result]. intros [= <-]. cbn [List.length].
    now rewrite (IH vs).
Qed.

(** X7: a pattern with custom hex strings of ASCII text that
    [POST /custom] accepts is stored unchanged, and when it is applied the
    words written are the parsed strings, one per string, each in
    0..0xFFFFFFFF, with the start word 0x001E. *)
Theorem create_custom_pattern_accepts (pattern accepted : PatternConfig)
  (h : string) (hs : list string) :
  ascii_hex pattern = true ->
  custom_hex pattern = Some (h :: hs) ->
  create_custom_pattern pattern = Ok accepted ->
  accepted = pattern /\
  exists words,
    parse_custom_hex (h :: hs) = Ok words /\
    pattern_data accepted = Ok (words, 0x001E) /\
    List.length words = S (List.length hs) /\
    Forall (fun v => 0 <= v <= 0xFFFFFFFF) words.
Proof.
  intros _ Hc. unfold create_custom_pattern. rewrite Hc.
  cbn [bind Monad_Result].
  destruct (parse_custom_hex (h :: hs)) as [words | e] eqn:Hp;
    [| discriminate].
  destruct (validate_custom_pattern words) eqn:Hv; cbn [negb];
    [| discriminate].
  cbn [ret Monad_Result]. intros [= <-]. split; [reflexivity |].
  exists words. split; [reflexivity |]. split.
  - unfold pattern_data. rewrite Hc, Hp. reflexivity.
  - split.
    + now rewrite (parse_custom_hex_length _ _ Hp).
    + destruct words as [| w ws]; [discriminate Hv |].
      unfold validate_custom_pattern in Hv. now apply validate_loop_spec in Hv.
Qed.

Lemma create_custom_pattern_accepts_witness :
  create_custom_pattern custom_pattern = Ok custom_pattern /\
  pattern_data custom_pattern = Ok ([0x00020002; 0x0000B5B1], 0x001E).
Proof.
  destruct (create_custom_pattern_accepts custom_pattern custom_pattern
              "00020002" ["0x0000B5B1"] eq_refl eq_refl eq_refl)
    as (_ & words & Hp & Hd & _).
  split; [reflexivity |].
  rewrite Hd. f_equal. f_equal. now injection Hp as <-.
Defined.

(** What [POST /custom] refuses: a value outside 32 bits is answered
    with status 400, and a string that is no hexadecimal number leaves
    the route as the [ValueError] of [int]. *)
Example create_custom_pattern_refuses :
  create_custom_pattern
    (mkPatternConfig "custom" 5.6 2 (Some ["100000000"]) "")
  = Raise (HTTPException 400 "Invalid custom pattern") /\
  create_custom_pattern (mkPatternConfig "custom" 5.6 2 (Some ["-1"]) "")
  = Raise (HTTPException 400 "Invalid custom pattern") /\
  create_custom_pattern (mkPatternConfig "custom" 5.6 2 (Some ["0xZZ"]) "")
  = Raise (ValueError "invalid literal for int() with base 16: '0xZZ'").
Proof. repeat split; reflexivity. Qed.

(** X8: for every pattern the route finds (a preset, or custom hex
    strings of ASCII text that [int(h, 16)] reads), on a port that does
    not raise, [apply_pattern] makes the transport see: sync off; 0 to
    register 0x08; the start word in both halves of each of the registers
    0x0C..0x13; then word [i] at address [0x40 + start + i] with page
    select 0x0000FFFF, in order and with no bound on [i]; nothing else.
    The response counts the words. *)
Theorem apply_pattern_writes_every_word (cfg : PatternConfig)
  (words : list Z) (start : Z) (d : USBQPort) :
  fault_free d ->
  ascii_hex cfg = true ->
  pattern_data cfg = Ok (words, start) ->
  exists response,
    apply_pattern cfg (ready d)
    = (Ok response,
       ready (record_calls
                ([EnableSync false]
                 ++ write_transaction 0x08 0 0
                 ++ flat_map
                      (fun address =>
                         write_transaction address
                           (Z.lor (Z.shiftl start 16) start) 0)
                      [0x0C; 0x0D; 0x0E; 0x0F; 0x10; 0x11; 0x12; 0x13]
                 ++ flat_map
                      (fun iw =>
                         write_transaction (0x40 + start + fst iw) (snd iw)
                           0x0000FFFF)
                      (combine (map Z.of_nat (seq 0 (List.length words)))
                         words))
                d)) /\
    success response = true /\
    In ("pattern_words", VInt (len words)) (data response).
Proof.
  intros H _ Hpd.
  exists (mkApiResponse true "Pattern applied to device"
            [("pattern_type", VStr (pattern_type cfg));
             ("frequency_mhz", VFloat (frequency_mhz cfg));
             ("pattern_words", VInt (len words))]).
  rewrite (apply_pattern_ok cfg words start d H Hpd).
  split; [| split; [reflexivity | cbn [data In]; auto]].
  do 3 f_equal. unfold pattern_trace. cbn [app]. do 5 f_equal.
  unfold enumerate, range, len.
  replace ((Z.of_nat (List.length words) - 0 + 1 - 1) / 1)
    with (Z.of_nat (List.length words)) by (rewrite Z.div_1_r; lia).
  rewrite Nat2Z.id.
  assert (Hr : forall n lo,
             range_from (Z.of_nat lo) 1 n = map Z.of_nat (seq lo n)).
  { induction n as [| n IH]; intros lo; [reflexivity |].
    cbn [range_from seq map]. f_equal.
    rewrite <- IH. f_equal. lia. }
  now rewrite (Hr _ 0%nat).
Qed.

Lemma apply_pattern_writes_every_word_witness :
  exists response,
    apply_pattern custom_pattern (ready quiet_port)
    = (Ok response,
       ready (record_calls
                ([EnableSync false]
                 ++ write_transaction 0x08 0 0
                 ++ flat_map
                      (fun address =>
                         write_transaction address
                           (Z.lor (Z.shiftl 0x001E 16) 0x001E) 0)
                      [0x0C; 0x0D; 0x0E; 0x0F; 0x10; 0x11; 0x12; 0x13]
                 ++ flat_map
                      (fun iw =>
                         write_transaction (0x40 + 0x001E + fst iw) (snd iw)
                           0x0000FFFF)
                      (combine
                         (map Z.of_nat
                            (seq 0 (List.length [0x00020002; 0x0000B5B1])))
                         [0x00020002; 0x0000B5B1]))
                quiet_port)) /\
    success response = true /\
    In ("pattern_words", VInt (len [0x00020002; 0x0000B5B1]))
      (data response).
Proof.
  apply (apply_pattern_writes_every_word custom_pattern
           [0x00020002; 0x0000B5B1] 0x001E quiet_port).
  - intros h c. reflexivity.
  - reflexivity.
  - reflexivity.
Defined.

Lemma http_errors_Raise {A} (prefix : string) (body : M A)
  (s s' : TX7332Controller) (e : exn) :
  body s = (Raise e, s') ->
  http_errors prefix body s
  = (Raise (if is_HTTPException e then e
            else HTTPException 500 (prefix ++ str_exn e)), s').
Proof.
  intros H. unfold http_errors, try_except. rewrite H.
  now destruct (is_HTTPException e).
Qed.

(** X9: without a connected device the four routes that drive the
    device answer with status 400 "Device not connected" and change
    nothing: the controller is as it was, nothing reaches the transport,
    and the channel list is not even initialised. *)
Theorem routes_refuse_without_device (s : TX7332Controller)
  (pattern : PatternConfig) (solver : FocusSolver)
  (beamforming : BeamformingConfig) (st : list ChannelConfig)
  (now : string) :
  has_port s = false ->
  apply_pattern pattern s
  = (Raise (HTTPException 400 "Device not connected"), s) /\
  apply_beamforming solver beamforming s
  = (Raise (HTTPException 400 "Device not connected"), s) /\
  apply_channel_config st s
  = (Raise (HTTPException 400 "Device not connected"), s, st) /\
  run_diagnostics now s
  = (Raise (HTTPException 400 "Device not connected"), s).
Proof.
  intros H.
  assert (E : forall A (k : unit -> M A),
             bind Controller.is_connected
               (fun c =>
                  bind (if negb c
                        then raise (HTTPException 400 "Device not connected")
                        else ret tt) k) s
             = (Raise (HTTPException 400 "Device not connected"), s)).
  { intros A k. rewrite (bind_Ok _ _ _ _ _ (is_connected_eq s)), H.
    reflexivity. }
  repeat split.
  - unfold apply_pattern. now rewrite (http_errors_Raise _ _ _ _ _ (E _ _)).
  - unfold apply_beamforming.
    now rewrite (http_errors_Raise _ _ _ _ _ (E _ _)).
  - unfold apply_channel_config. rewrite H.
    now rewrite (http_errors_Raise _ _ _ _ _ (E _ _)).
  - unfold run_diagnostics.
    now rewrite (http_errors_Raise _ _ _ _ _ (E _ _)).
Qed.

Lemma routes_refuse_without_device_witness :
  apply_pattern default_pattern (mkController None false)
  = (Raise (HTTPException 400 "Device not connected"),
     mkController None false) /\
  apply_channel_config [] (mkController (Some quiet_port) false)
  = (Raise (HTTPException 400 "Device not connected"),
     mkController (Some quiet_port) false, []).
Proof.
  split.
  - apply (routes_refuse_without_device (mkController None false)
             default_pattern (constant_solver []) default_beamforming [] "").
    reflexivity.
  - apply (routes_refuse_without_device
             (mkController (Some quiet_port) false)
             default_pattern (constant_solver []) default_beamforming [] "").
    reflexivity.
Defined.

(** X10: when the pattern cannot be found or read (unknown pattern
    type, custom string of ASCII text that is no hexadecimal number),
    [apply_pattern] fails before sync is disabled or anything is written:
    an [HTTPException] is passed on, any other exception becomes status
    500 with its message, which for a string that [int(h, 16)] refuses
    holds the [repr] of that string, and the controller is unchanged. *)
Theorem apply_pattern_rejects_before_writing (cfg : PatternConfig)
  (e : exn) (s : TX7332Controller) :
  has_port s = true ->
  ascii_hex cfg = true ->
  pattern_data cfg = Raise e ->
  apply_pattern cfg s
  = (Raise (if is_HTTPException e then e
            else HTTPException 500
                   ("Error applying pattern: " ++ str_exn e)), s).
Proof.
  intros H _ Hpd. unfold apply_pattern. apply http_errors_Raise.
  rewrite (bind_Ok _ _ _ _ _ (is_connected_eq s)), H. cbn [negb].
  rewrite (bind_Ok _ _ _ _ _ (ret_Ok tt _)).
  apply bind_Raise. unfold lift. now rewrite Hpd.
Qed.

Lemma apply_pattern_rejects_before_writing_witness :
  apply_pattern (mkPatternConfig "7MHz" 7 2 None "") (ready quiet_port)
  = (Raise (HTTPException 400 "Pattern type not found"), ready quiet_port) /\
  apply_pattern (mkPatternConfig "custom" 7 2 (Some ["12"; "x\y'z"]) "")
    (ready quiet_port)
  = (Raise (HTTPException 500
              ("Error applying pattern: "
               ++ "invalid literal for int() with base 16: "
               ++ String double_quote ("x\\y'z" ++ String double_quote ""))),
     ready quiet_port).
Proof.
  split.
  - apply (apply_pattern_rejects_before_writing
             (mkPatternConfig "7MHz" 7 2 None "")
             (HTTPException 400 "Pattern type not found")
             (ready quiet_port)); reflexivity.
  - apply (apply_pattern_rejects_before_writing
             (mkPatternConfig "custom" 7 2 (Some ["12"; "x\y'z"]) "")
             (ValueError
                ("invalid literal for int() with base 16: "
                 ++ String double_quote
                      ("x\\y'z" ++ String double_quote "")))
             (ready quiet_port)); reflexivity.
Defined.

(** The key of every preset is its own [pattern_type]. *)
Lemma get_preset_by_type_own (pattern_type : string) (preset : Preset) :
  PatternService.get_preset_by_type pattern_type = Some preset ->
  preset_pattern_type preset = pattern_type /\
  PatternService.get_preset_by_type (preset_pattern_type preset)
  = Some preset.
Proof.
  unfold PatternService.get_preset_by_type, PatternService.PRESET_PATTERNS.
  cbn [PatternService.dict_get].
  repeat match goal with
         | |- context [String.eqb ?k pattern_type] =>
             destruct (String.eqb_spec k pattern_type) as [<- | _];
             [intros [= <-]; split; reflexivity |]
         end.
  discriminate.
Qed.

Lemma PatternConfig_init_ok (t : string) (f : R) (c : Z)
  (hex : option (list string)) (descr : string) :
  (0.1 <= f <= 10)%R -> 1 <= c <= 100 ->
  PatternConfig_init t f c hex descr = Ok (mkPatternConfig t f c hex descr).
Proof.
  intros [Hlo Hhi] Hc. unfold PatternConfig_init.
  destruct (Rle_dec 0.1 f) as [_ | Hn]; [| contradiction].
  destruct (Rle_dec f 10.0) as [_ | Hn]; [| exfalso; apply Hn; lra].
  destruct (Z.leb_spec 1 c); [| lia].
  destruct (Z.leb_spec c 100); [| lia]. reflexivity.
Qed.

Lemma PatternConfig_init_invalid (t : string) (f : R) (c : Z)
  (hex : option (list string)) (descr : string) :
  (f < 0.1)%R \/ (10 < f)%R \/ c < 1 \/ 100 < c ->
  exists msg, PatternConfig_init t f c hex descr = Raise (ValueError msg).
Proof.
  intros H. unfold PatternConfig_init.
  destruct (Rle_dec 0.1 f) as [Hlo | _];
    [destruct (Rle_dec f 10.0) as [Hhi | _] |];
    destruct (Z.leb_spec 1 c); destruct (Z.leb_spec c 100);
    cbn [andb orb]; try (eexists; reflexivity).
  exfalso. destruct H as [H | [H | [H | H]]]; lra || lia.
Qed.

(** X11: [apply-preset] with a preset whose frequency and cycles pass
    the bounds of [PatternConfig] makes that preset the current pattern,
    without custom hex, before it touches the device; on a port that does
    not raise the words then written are the preset's, at its start
    word, whatever custom pattern was current before. *)
Theorem apply_preset_pattern_sets_and_applies (ptype : string)
  (preset : Preset) (current : PatternConfig) (d : USBQPort) :
  fault_free d ->
  PatternService.get_preset_by_type ptype = Some preset ->
  (0.1 <= preset_frequency_mhz preset <= 10)%R ->
  1 <= preset_cycles preset <= 100 ->
  fst (apply_preset_pattern ptype current)
  = mkPatternConfig ptype (preset_frequency_mhz preset)
      (preset_cycles preset) None (preset_description preset) /\
  exists response,
    snd (apply_preset_pattern ptype current) (ready d)
    = (Ok response,
       ready (record_calls
                ([EnableSync false]
                 ++ write_transaction 0x08 0 0
                 ++ flat_map
                      (fun address =>
                         write_transaction address
                           (Z.lor (Z.shiftl (pattern_start_word preset) 16)
                              (pattern_start_word preset)) 0)
                      [0x0C; 0x0D; 0x0E; 0x0F; 0x10; 0x11; 0x12; 0x13]
                 ++ flat_map
                      (fun iw =>
                         write_transaction
                           (0x40 + pattern_start_word preset + fst iw)
                           (snd iw) 0x0000FFFF)
                      (enumerate (pattern_hex preset)))
                d)).
Proof.
  intros H Hp Hf Hc. unfold apply_preset_pattern. rewrite Hp.
  destruct (get_preset_by_type_own _ _ Hp) as [Ht Hown].
  rewrite (PatternConfig_init_ok _ _ _ None _ Hf Hc). cbn [fst snd].
  rewrite Ht. split; [reflexivity |]. eexists.
  rewrite (apply_pattern_ok _ (pattern_hex preset)
             (pattern_start_word preset) d H).
  - reflexivity.
  - unfold pattern_data. cbn [custom_hex pattern_type]. now rewrite Hp.
Qed.

Lemma apply_preset_pattern_sets_and_applies_witness :
  fst (apply_preset_pattern "3.4MHz_2LVL_A" custom_pattern)
  = mkPatternConfig "3.4MHz_2LVL_A" 3.4 2 None
      ("3.4 MHz 2-level waveform. "
       ++ "250MHz / (2*37) = 3.38 MHz. "
       ++ "Uses PHV and MHV levels only.") /\
  syncs (snd (snd (apply_preset_pattern "3.4MHz_2LVL_A" custom_pattern)
                (ready quiet_port)))
  = [false].
Proof.
  destruct (apply_preset_pattern_sets_and_applies "3.4MHz_2LVL_A"
              (mkPreset "3.4 MHz 2-Level A" "3.4MHz_2LVL_A" 3.4%R 2
                 [0x31F90300; 0x050035FD; 0xFF00C8C8] 0x001E
                 ("3.4 MHz 2-level waveform. "
                  ++ "250MHz / (2*37) = 3.38 MHz. "
                  ++ "Uses PHV and MHV levels only."))
              custom_pattern quiet_port)
    as [Hcur [response Hrun]].
  - intros h c. reflexivity.
  - reflexivity.
  - cbn [preset_frequency_mhz]. lra.
  - cbn [preset_cycles]. lia.
  - split; [exact Hcur |]. rewrite Hrun. reflexivity.
Defined.

(** X12: [apply-preset] changes nothing when it fails before the
    device: a name that is no preset is answered with status 404, and a
    preset whose frequency or cycles are outside the bounds of
    [PatternConfig] (as those of the preset [test_glitch] are) raises the
    validation error of the constructor; in both cases the current
    pattern and the controller are as before. *)
Theorem apply_preset_pattern_rejects (ptype : string)
  (current : PatternConfig) :
  (PatternService.get_preset_by_type ptype = None ->
   fst (apply_preset_pattern ptype current) = current /\
   forall s,
     snd (apply_preset_pattern ptype current) s
     = (Raise (HTTPException 404 "Pattern preset not found"), s)) /\
  (forall preset,
     PatternService.get_preset_by_type ptype = Some preset ->
     (preset_frequency_mhz preset < 0.1)%R \/
     (10 < preset_frequency_mhz preset)%R \/
     preset_cycles preset < 1 \/ 100 < preset_cycles preset ->
     fst (apply_preset_pattern ptype current) = current /\
     exists msg, forall s,
       snd (apply_preset_pattern ptype current) s
       = (Raise (ValueError msg), s)).
Proof.
  unfold apply_preset_pattern. split.
  - intros ->. cbn [fst snd]. split; [reflexivity |]. now intros s.
  - intros preset -> Hbad.
    destruct (PatternConfig_init_invalid (preset_pattern_type preset)
                (preset_frequency_mhz preset) (preset_cycles preset) None
                (preset_description preset) Hbad) as [msg ->].
    cbn [fst snd]. split; [reflexivity |]. exists msg. now intros s.
Qed.

Lemma apply_preset_pattern_rejects_witness :
  fst (apply_preset_pattern "test_glitch" default_pattern) = default_pattern /\
  (exists msg, forall s,
     snd (apply_preset_pattern "test_glitch" default_pattern) s
     = (Raise (ValueError msg), s)) /\
  fst (apply_preset_pattern "no_such_preset" default_pattern)
  = default_pattern.
Proof.
  destruct (apply_preset_pattern_rejects "test_glitch" default_pattern)
    as [_ Hbad].
  destruct (Hbad (mkPreset "Test Glitch Pattern" "test_glitch" 0%R 0
                    [0xA0A00000] 0x001E
                    "Test pattern for T/R switch glitch testing")
              eq_refl) as [Hcur Hrun].
  - left. cbn [preset_frequency_mhz]. lra.
  - split; [exact Hcur |]. split; [exact Hrun |].
    apply (apply_preset_pattern_rejects "no_such_preset" default_pattern).
    reflexivity.
Defined.

(** ** Delays: from the array to the registers *)

(** X13: for every array of 32 delays the route computes, on a port that
    does not raise, [apply_beamforming] makes the transport see: sync off;
    0 to each of the registers 0x0D..0x14; then, for [i] in 0..15, at
    address [0x40 + i] with page select 0x00010000, the word whose low half
    is the encoding of [delays[2 i]] and whose high half that of
    [delays[2 i + 1]]; sync on; 2 to register 0x08; nothing else. *)
Theorem apply_beamforming_writes_pairs (solver : FocusSolver)
  (cfg : BeamformingConfig) (computed : list Z) (d : USBQPort) :
  fault_free d ->
  current_delays solver cfg = Ok computed ->
  List.length computed = 32%nat ->
  exists response,
    apply_beamforming solver cfg (ready d)
    = (Ok response,
       ready (record_calls
                ([EnableSync false]
                 ++ flat_map (fun address => write_transaction address 0 0)
                      [0x0D; 0x0E; 0x0F; 0x10; 0x11; 0x12; 0x13; 0x14]
                 ++ flat_map
                      (fun i =>
                         write_transaction (0x40 + Z.of_nat i)
                           (Z.lor
                              (Z.shiftl
                                 (BeamformingService.encode_delay_to_hex
                                    (nth (2 * i + 1) computed 0) false) 16)
                              (BeamformingService.encode_delay_to_hex
                                 (nth (2 * i) computed 0) false))
                           0x00010000)
                      (seq 0 16)
                 ++ [EnableSync true]
                 ++ write_transaction 0x08 0x00000002 0)
                d)) /\
    In ("delays_applied", VInt 16) (data response).
Proof.
  intros H Hd Hlen. eexists.
  rewrite (apply_beamforming_ok solver cfg computed _ d H Hd
             (combine_channel_delays_32 computed Hlen)).
  split; [reflexivity |]. cbn [data In]. right. right. left. reflexivity.
Qed.

Lemma apply_beamforming_writes_pairs_witness :
  exists response,
    apply_beamforming (constant_solver sample_delays) default_beamforming
      (ready quiet_port)
    = (Ok response,
       ready (record_calls
                ([EnableSync false]
                 ++ flat_map (fun address => write_transaction address 0 0)
                      [0x0D; 0x0E; 0x0F; 0x10; 0x11; 0x12; 0x13; 0x14]
                 ++ flat_map
                      (fun i =>
                         write_transaction (0x40 + Z.of_nat i)
                           (Z.lor
                              (Z.shiftl
                                 (BeamformingService.encode_delay_to_hex
                                    (nth (2 * i + 1) sample_delays 0) false)
                                 16)
                              (BeamformingService.encode_delay_to_hex
                                 (nth (2 * i) sample_delays 0) false))
                           0x00010000)
                      (seq 0 16)
                 ++ [EnableSync true]
                 ++ write_transaction 0x08 0x00000002 0)
                quiet_port)) /\
    In ("delays_applied", VInt 16) (data response).
Proof.
  apply (apply_beamforming_writes_pairs (constant_solver sample_delays)
           default_beamforming sample_delays quiet_port).
  - intros h c. reflexivity.
  - reflexivity.
  - reflexivity.
Defined.

(** ** Steering delays: size, shape and the speed 0 *)

Lemma round_half_even_le (x : R) (n : Z) :
  (x <= IZR n)%R -> round_half_even x <= n.
Proof.
  intros Hx. unfold round_half_even.
  destruct (base_Int_part x) as [Hlo Hhi].
  assert (Hf : Int_part x <= n) by (apply le_IZR; lra).
  destruct (Rlt_dec (x - IZR (Int_part x)) (1 / 2)) as [_ | Hn];
    [exact Hf |].
  assert (Hlt : Int_part x < n) by (apply lt_IZR; lra).
  destruct (Rlt_dec (1 / 2) (x - IZR (Int_part x))); [lia |].
  destruct (Z.even (Int_part x)); lia.
Qed.

Lemma round_half_even_ge (x : R) (n : Z) :
  (IZR n <= x)%R -> n <= round_half_even x.
Proof.
  intros Hx. unfold round_half_even.
  destruct (base_Int_part x) as [Hlo Hhi].
  assert (Hf : n < Int_part x + 1).
  { apply lt_IZR. rewrite plus_IZR. lra. }
  destruct (Rlt_dec (x - IZR (Int_part x)) (1 / 2)); [lia |].
  destruct (Rlt_dec (1 / 2) (x - IZR (Int_part x))); [lia |].
  destruct (Z.even (Int_part x)); lia.
Qed.

Lemma positions_bounded :
  Forall (fun pos => (-0.00182 <= pos <= 0.00182)%R)
    BeamformingService.ELEMENT_POSITIONS.
Proof.
  unfold BeamformingService.ELEMENT_POSITIONS.
  repeat (apply Forall_cons; [lra |]). apply Forall_nil.
Qed.

(** The quotient of one element is at most 455 in size when the speed
    of sound is at least 1000. *)
Lemma steering_quotient_bounded (a speed pos : R) :
  (1000 <= speed)%R -> (-0.00182 <= pos <= 0.00182)%R ->
  (-455 <= pos * sin a / speed / 4e-9 <= 455)%R.
Proof.
  intros Hs Hp. pose proof (SIN_bound a) as Hsin.
  assert (Hy : (-0.00182 <= pos * sin a <= 0.00182)%R) by nra.
  set (y := (pos * sin a)%R) in *.
  assert (Hi : (0 < / speed <= / 1000)%R).
  { split; [apply Rinv_0_lt_compat; lra |].
    apply Rinv_le_contravar; lra. }
  unfold Rdiv. set (i := (/ speed)%R) in *.
  assert (Hz : (-0.00000182 <= y * i <= 0.00000182)%R) by nra.
  lra.
Qed.

Lemma steering_cycles_bounded (a speed pos : R) :
  (1000 <= speed)%R -> (-0.00182 <= pos <= 0.00182)%R ->
  0 <= steering_cycles a speed pos <= 455.
Proof.
  intros Hs Hp. unfold steering_cycles.
  destruct (steering_quotient_bounded a speed pos Hs Hp) as [_ Hhi].
  pose proof (round_half_even_le _ 455 Hhi). lia.
Qed.

(** Delays of a steering computation with a speed of at least 1000. *)
Lemma steering_delays_bounded (angle speed frequency : R) :
  (1000 <= speed)%R -> frequency <> 0%R ->
  exists computed,
    BeamformingService.calculate_delays_from_angle angle speed frequency
    = Ok computed /\
    List.length computed = 32%nat /\
    Forall (fun d => 0 <= d <= 455) computed /\
    py_min computed = Ok 0.
Proof.
  intros Hs Hf.
  destruct (calculate_delays_from_angle_ok angle speed frequency)
    as (raw & m & Hm & Hraw & Hres); [lra | exact Hf |].
  exists (map (fun d => d - m) raw).
  destruct (normalize_min raw m Hm) as (Hall & _ & Hmin).
  assert (Hbound : Forall (fun d => 0 <= d <= 455) raw).
  { rewrite Hraw. apply Forall_map.
    eapply Forall_impl; [| exact positions_bounded].
    intros pos Hp. now apply steering_cycles_bounded. }
  assert (Hm0 : 0 <= m).
  { destruct raw as [| x l]; [discriminate |].
    cbn [py_min] in Hm. injection Hm as Hm.
    pose proof (fold_min_in l x) as Hin. rewrite Hm in Hin.
    rewrite Forall_forall in Hbound. now apply Hbound in Hin. }
  split; [exact Hres |].
  split; [now rewrite length_map, Hraw, length_map |].
  split; [| exact Hmin].
  rewrite Forall_forall in Hall, Hbound |- *.
  intros x Hx. split; [now apply Hall |].
  apply in_map_iff in Hx as (y & <- & Hy). apply Hbound in Hy. lia.
Qed.

(** X14: for every angle from -90 to 90 degrees and every nonzero
    frequency, a speed of sound of at least 1000 (the lower bound of the
    configuration) gives 32 delays between 0 and 455: they fit the 14-bit
    field, and [encode_delay_to_hex] stores each of them unchanged.  (The
    bounds leave room for the rounding of the floating-point
    computation: the quotient of an element is at most 455 in size.) *)
Theorem steering_delays_fit_the_field (angle speed frequency : R) :
  (-90 <= angle <= 90)%R ->
  (1000 <= speed)%R -> frequency <> 0%R ->
  exists computed,
    BeamformingService.calculate_delays_from_angle angle speed frequency
    = Ok computed /\
    List.length computed = 32%nat /\
    Forall (fun d =>
              0 <= d <= 455 /\
              BeamformingService.encode_delay_to_hex d false = d) computed.
Proof.
  intros _ Hs Hf.
  destruct (steering_delays_bounded angle speed frequency Hs Hf)
    as (computed & Hres & Hlen & Hb & _).
  exists computed. split; [exact Hres |]. split; [exact Hlen |].
  eapply Forall_impl; [| exact Hb]. intros d Hd. cbn beta in Hd.
  split; [exact Hd |].
  rewrite encode_plain. apply Z.mod_small. change (2 ^ 14) with 16384. lia.
Qed.

Lemma steering_delays_fit_the_field_witness :
  exists computed,
    BeamformingService.calculate_delays_from_angle 60 1000 5600000
    = Ok computed /\
    List.length computed = 32%nat /\
    Forall (fun d =>
              0 <= d <= 455 /\
              BeamformingService.encode_delay_to_hex d false = d) computed.
Proof.
  apply (steering_delays_fit_the_field 60 1000 5600000); lra.
Defined.

Lemma deg2rad_range (angle : R) :
  (-30 <= angle <= 30)%R -> (- PI < deg2rad angle < PI)%R.
Proof.
  intros H. unfold deg2rad. pose proof PI_RGT_0. nra.
Qed.

Lemma sin_deg2rad_nonneg (angle : R) :
  (0 <= angle <= 30)%R -> (0 <= sin (deg2rad angle))%R.
Proof.
  intros H. apply sin_ge_0.
  - unfold deg2rad. pose proof PI_RGT_0. nra.
  - destruct (deg2rad_range angle); lra.
Qed.

Lemma sin_deg2rad_nonpos (angle : R) :
  (-30 <= angle <= 0)%R -> (sin (deg2rad angle) <= 0)%R.
Proof.
  intros H.
  assert (Hneg : (0 <= sin (deg2rad (- angle)))%R)
    by (apply sin_deg2rad_nonneg; lra).
  replace (deg2rad (- angle)) with (- deg2rad angle)%R in Hneg
    by (unfold deg2rad; lra).
  rewrite sin_neg in Hneg. lra.
Qed.

(** The element on the side the beam is steered away from gets no
    delay: its quotient is not positive and the clamp makes it 0. *)
Lemma steering_cycles_clamped (a speed pos : R) :
  (0 < speed)%R -> (pos * sin a <= 0)%R -> steering_cycles a speed pos = 0.
Proof.
  intros Hs Hp. unfold steering_cycles.
  assert (Hq : (pos * sin a / speed / 4e-9 <= 0)%R).
  { unfold Rdiv. pose proof (Rinv_0_lt_compat speed Hs) as Hi.
    set (i := (/ speed)%R) in *. set (y := (pos * sin a)%R) in *.
    assert (Hyi : (y * i <= 0)%R) by nra. lra. }
  pose proof (round_half_even_le _ 0 Hq). lia.
Qed.

Lemma map_all_zero {A} (f : A -> Z) (l : list A) :
  Forall (fun x => f x = 0) l -> map f l = repeat 0 (List.length l).
Proof.
  induction 1 as [| x l Hx _ IH]; [reflexivity |].
  cbn [map List.length repeat]. now rewrite Hx, IH.
Qed.

Lemma py_min_zero (l : list Z) (m : Z) :
  py_min l = Ok m -> Forall (fun d => 0 <= d) l -> In 0 l -> m = 0.
Proof.
  destruct l as [| x l]; [discriminate |]. cbn [py_min]. intros [= Hm] Hall Hin.
  destruct (fold_min_le l x) as [Hx Hl]. rewrite Hm in Hx, Hl.
  pose proof (fold_min_in l x) as Hmin. rewrite Hm in Hmin.
  rewrite Forall_forall in Hall, Hl.
  pose proof (Hall _ Hmin) as Hge.
  destruct Hin as [E | Hin].
  - cbn beta in Hge. lia.
  - pose proof (Hl _ Hin). cbn beta in *. lia.
Qed.

(** Steering delays when half of the elements are clamped: the array is
    the clamped cycles themselves. *)
Lemma steering_delays_one_sided (angle speed frequency : R) (side : list R) :
  (0 < speed)%R -> frequency <> 0%R ->
  In (hd 0%R side) BeamformingService.ELEMENT_POSITIONS ->
  side <> [] ->
  Forall (fun pos => (pos * sin (deg2rad angle) <= 0)%R) side ->
  BeamformingService.calculate_delays_from_angle angle speed frequency
  = Ok (map (steering_cycles (deg2rad angle) speed)
          BeamformingService.ELEMENT_POSITIONS) /\
  map (steering_cycles (deg2rad angle) speed) side
  = repeat 0 (List.length side).
Proof.
  intros Hs Hf Hin Hne Hside.
  destruct (calculate_delays_from_angle_ok angle speed frequency)
    as (raw & m & Hm & Hraw & Hres); [lra | exact Hf |].
  assert (Hzeros : map (steering_cycles (deg2rad angle) speed) side
                   = repeat 0 (List.length side)).
  { apply map_all_zero. eapply Forall_impl; [| exact Hside].
    intros pos Hp. now apply steering_cycles_clamped. }
  split; [| exact Hzeros].
  assert (Hm0 : m = 0).
  { apply (py_min_zero raw m Hm).
    - rewrite Hraw. apply Forall_map. apply Forall_forall.
      intros pos _. unfold steering_cycles. lia.
    - rewrite Hraw. destruct side as [| p side']; [contradiction |].
      cbn [hd] in Hin. inversion Hside as [| ? ? Hp _]; subst.
      rewrite <- (steering_cycles_clamped (deg2rad angle) speed p Hs Hp).
      now apply in_map. }
  rewrite Hres, Hm0, <- Hraw. f_equal.
  rewrite <- (map_id raw) at 2. apply map_ext. intros d. lia.
Qed.

(** X15: the clamp runs before the normalisation, so a steered beam has
    delays on one half of the array only: for an angle in [0, 30] the
    sixteen elements with negative positions all get the delay 0, and for
    an angle in [-30, 0] the sixteen elements with positive positions do
    (speed of sound in [1000, 2000], nonzero frequency). *)
Theorem steering_delays_are_one_sided (angle speed frequency : R) :
  (1000 <= speed <= 2000)%R -> frequency <> 0%R ->
  exists computed,
    BeamformingService.calculate_delays_from_angle angle speed frequency
    = Ok computed /\
    ((0 <= angle <= 30)%R -> firstn 16 computed = repeat 0 16) /\
    ((-30 <= angle <= 0)%R -> skipn 16 computed = repeat 0 16).
Proof.
  intros Hs Hf.
  destruct (calculate_delays_from_angle_ok angle speed frequency)
    as (raw & m & Hm & Hraw & Hres); [lra | exact Hf |].
  eexists. split; [exact Hres |]. split.
  - intros Ha. pose proof (sin_deg2rad_nonneg angle Ha) as Hsin.
    destruct (steering_delays_one_sided angle speed frequency
                (firstn 16 BeamformingService.ELEMENT_POSITIONS))
      as [Hall Hside]; try lra.
    + cbn. auto.
    + discriminate.
    + cbn [firstn BeamformingService.ELEMENT_POSITIONS].
      repeat (apply Forall_cons; [nra |]). apply Forall_nil.
    + rewrite Hres in Hall. injection Hall as ->.
      rewrite <- firstn_map in Hside. exact Hside.
  - intros Ha. pose proof (sin_deg2rad_nonpos angle Ha) as Hsin.
    destruct (steering_delays_one_sided angle speed frequency
                (skipn 16 BeamformingService.ELEMENT_POSITIONS))
      as [Hall Hside]; try lra.
    + cbn. tauto.
    + discriminate.
    + cbn [skipn BeamformingService.ELEMENT_POSITIONS].
      repeat (apply Forall_cons; [nra |]). apply Forall_nil.
    + rewrite Hres in Hall. injection Hall as ->.
      rewrite <- skipn_map in Hside. exact Hside.
Qed.

Lemma steering_delays_are_one_sided_witness :
  exists computed,
    BeamformingService.calculate_delays_from_angle 15 1500 5600000
    = Ok computed /\
    ((0 <= 15 <= 30)%R -> firstn 16 computed = repeat 0 16) /\
    ((-30 <= 15 <= 0)%R -> skipn 16 computed = repeat 0 16).
Proof.
  apply (steering_delays_are_one_sided 15 1500 5600000); lra.
Defined.

Lemma sin_deg2rad_zero (angle : R) :
  (-30 <= angle <= 30)%R -> sin (deg2rad angle) = 0%R -> angle = 0%R.
Proof.
  intros H Hsin. destruct (deg2rad_range angle H) as [Hlo Hhi].
  destruct (Rtotal_order angle 0) as [Hneg | [E | Hpos]]; [| exact E |].
  - assert (Hd : (deg2rad angle < 0)%R)
      by (unfold deg2rad; pose proof PI_RGT_0; nra).
    pose proof (sin_lt_0_var _ Hlo Hd). lra.
  - assert (Hd : (0 < deg2rad angle)%R)
      by (unfold deg2rad; pose proof PI_RGT_0; nra).
    pose proof (sin_gt_0 _ Hd Hhi). lra.
Qed.

(** X16: with the speed of sound 0 (which the configuration model
    excludes but the service accepts) [calculate_delays_from_angle] never
    returns: numpy's division gives NaN for the angle 0 and an infinity
    for an angle of at least a thousandth of a degree in size, up to 30
    degrees, and [int] raises [ValueError] on the first, [OverflowError]
    on the second.  (Angles between 0 and 0.001 are left out: there the
    floating-point product can underflow to 0.) *)
Theorem steering_with_speed_zero (angle frequency : R) :
  (angle = 0 \/ 0.001 <= angle <= 30 \/ -30 <= angle <= -0.001)%R ->
  frequency <> 0%R ->
  (angle = 0%R ->
   BeamformingService.calculate_delays_from_angle angle 0 frequency
   = Raise (ValueError "cannot convert float NaN to integer")) /\
  (angle <> 0%R ->
   BeamformingService.calculate_delays_from_angle angle 0 frequency
   = Raise (OverflowError "cannot convert float infinity to integer")).
Proof.
  intros Hrange Hf.
  assert (Ha : (-30 <= angle <= 30)%R) by lra.
  unfold BeamformingService.calculate_delays_from_angle, float_truediv.
  destruct (Req_dec_T frequency 0) as [E | _]; [contradiction |].
  cbn [bind Monad_Result].
  unfold BeamformingService.ELEMENT_POSITIONS.
  cbn [BeamformingService.angle_loop]. unfold np_truediv.
  destruct (Req_dec_T 0 0) as [_ | Hn]; [| now contradiction Hn].
  split.
  - intros ->.
    destruct (Req_dec_T (-0.00182 * sin (deg2rad 0)) 0) as [_ | Hn];
      [reflexivity |].
    exfalso. apply Hn. unfold deg2rad. rewrite Rmult_0_l, sin_0. lra.
  - intros Hne.
    destruct (Req_dec_T (-0.00182 * sin (deg2rad angle)) 0) as [E | _];
      [| reflexivity].
    exfalso. apply Hne, (sin_deg2rad_zero angle Ha). nra.
Qed.

Lemma steering_with_speed_zero_witness :
  BeamformingService.calculate_delays_from_angle 0 0 5600000
  = Raise (ValueError "cannot convert float NaN to integer") /\
  BeamformingService.calculate_delays_from_angle 15 0 5600000
  = Raise (OverflowError "cannot convert float infinity to integer").
Proof.
  split.
  - apply (steering_with_speed_zero 0 5600000); lra.
  - apply (steering_with_speed_zero 15 5600000); lra.
Defined.

(** X17: [POST /calculate] in steering mode never fails for a
    configuration that passes the bounds of its model: it returns 32
    delays between 0 and 455 whose minimum is 0, together with the focal
    point and the angle it was given. *)
Theorem calculate_delays_steering (solver : FocusSolver)
  (config : BeamformingConfig) :
  valid_beamforming config ->
  auto_calculate config = false ->
  exists computed,
    calculate_delays solver config
    = Ok (mkBeamformingDelays computed (focal_point_x_mm config)
            (focal_point_z_mm config) (steering_angle_deg config)) /\
    List.length computed = 32%nat /\
    Forall (fun d => 0 <= d <= 455) computed /\
    py_min computed = Ok 0.
Proof.
  intros (_ & _ & Hs) Hauto.
  destruct (steering_delays_bounded (steering_angle_deg config)
              (speed_of_sound config) 5.6e6)
    as (computed & Hres & Hlen & Hb & Hmin); [lra | lra |].
  exists computed. unfold calculate_delays, current_delays.
  rewrite Hauto, Hres. auto.
Qed.

Lemma calculate_delays_steering_witness :
  exists computed,
    calculate_delays (constant_solver [])
      (mkBeamformingConfig 0 15 (-15) 1500 false)
    = Ok (mkBeamformingDelays computed 0 15 (-15)) /\
    List.length computed = 32%nat /\
    Forall (fun d => 0 <= d <= 455) computed /\
    py_min computed = Ok 0.
Proof.
  apply (calculate_delays_steering (constant_solver [])
           (mkBeamformingConfig 0 15 (-15) 1500 false)).
  - unfold valid_beamforming.
    cbn [focal_point_z_mm steering_angle_deg speed_of_sound]. lra.
  - reflexivity.
Defined.

(** ** The channel list *)

Lemma list_index_in_range {A} (l : list A) (i : Z) :
  0 <= i < len l -> list_index l i = Some (Z.to_nat i).
Proof.
  intros Hi. unfold list_index.
  assert (Hneg : (i <? 0) = false) by (apply Z.ltb_ge; lia).
  assert (Hlen : (len l <=? i) = false) by (apply Z.leb_gt; lia).
  cbv zeta. now rewrite Hneg, Hneg, Hlen.
Qed.

Lemma length_replace_nth {A} (n : nat) (x : A) (l : list A) :
  List.length (replace_nth n x l) = List.length l.
Proof.
  revert n. induction l as [| y l IH]; intros [| n]; cbn; auto.
Qed.

Lemma nth_error_replace_nth {A} (n : nat) (x : A) (l : list A) (i : nat) :
  (n < List.length l)%nat ->
  nth_error (replace_nth n x l) i
  = if Nat.eqb i n then Some x else nth_error l i.
Proof.
  revert n i. induction l as [| y l IH]; intros n i Hn;
    [cbn in Hn; lia |].
  destruct n as [| n], i as [| i]; cbn [replace_nth nth_error Nat.eqb];
    try reflexivity.
  apply IH. cbn in Hn. lia.
Qed.

Lemma ch_set_in_range (i : Z) (channel : ChannelConfig)
  (st : list ChannelConfig) :
  0 <= i < len st ->
  ch_set i channel st = (Ok tt, replace_nth (Z.to_nat i) channel st).
Proof.
  intros Hi. unfold ch_set, list_setitem.
  now rewrite list_index_in_range.
Qed.

Lemma ch_get_in_range (i : Z) (st : list ChannelConfig) :
  0 <= i < len st ->
  exists channel,
    nth_error st (Z.to_nat i) = Some channel /\
    ch_get i st = (Ok channel, st).
Proof.
  intros Hi. unfold ch_get, list_getitem.
  rewrite list_index_in_range by exact Hi.
  destruct (nth_error st (Z.to_nat i)) as [channel |] eqn:E.
  - now exists channel.
  - apply nth_error_None in E. unfold len in Hi. lia.
Qed.

Lemma initialized_nonempty (st : list ChannelConfig) :
  st <> [] -> _initialize_channel_state st = (Ok tt, st).
Proof. destruct st; [contradiction | reflexivity]. Qed.

Lemma channels_in_place_nonempty (st : list ChannelConfig) :
  channels_in_place st -> st <> [].
Proof. intros [Hlen _] ->. discriminate Hlen. Qed.

Lemma default_channels_in_place : channels_in_place (initialized []).
Proof.
  split; [reflexivity |]. intros i Hi.
  do 32 (destruct i as [| i]; [reflexivity |]). lia.
Qed.

Lemma initialized_in_place (st : list ChannelConfig) :
  st = [] \/ channels_in_place st -> channels_in_place (initialized st).
Proof.
  intros [-> | H]; [apply default_channels_in_place |].
  unfold initialized.
  now rewrite (initialized_nonempty st (channels_in_place_nonempty st H)).
Qed.

Lemma initialize_eq (st : list ChannelConfig) :
  _initialize_channel_state st = (Ok tt, initialized st).
Proof. unfold initialized. now destruct st. Qed.

Lemma initialized_idem (st : list ChannelConfig) :
  st = [] \/ channels_in_place st ->
  initialized (initialized st) = initialized st.
Proof.
  intros H. unfold initialized at 1.
  now rewrite (initialized_nonempty _
                 (channels_in_place_nonempty _ (initialized_in_place st H))).
Qed.

Lemma replace_in_place (st : list ChannelConfig) (channel : ChannelConfig) :
  channels_in_place st ->
  1 <= channel_id channel <= 32 ->
  channels_in_place
    (replace_nth (Z.to_nat (channel_id channel - 1)) channel st).
Proof.
  intros [Hlen Hids] Hid. split; [now rewrite length_replace_nth |].
  intros i Hi. rewrite nth_error_replace_nth by lia.
  destruct (Nat.eqb_spec i (Z.to_nat (channel_id channel - 1))) as [-> | _].
  - cbn [option_map]. f_equal. lia.
  - now apply Hids.
Qed.

Lemma get_channel_in_place (k : Z) (st : list ChannelConfig) :
  channels_in_place st -> 1 <= k <= 32 ->
  exists channel,
    nth_error st (Z.to_nat (k - 1)) = Some channel /\
    channel_id channel = k /\
    get_channel k st = (Ok channel, st).
Proof.
  intros Hst Hk. pose proof Hst as [Hlen Hids].
  unfold get_channel. cbn [bind Monad_Ch].
  rewrite (initialized_nonempty st (channels_in_place_nonempty st Hst)).
  destruct (Z.ltb_spec k 1); [lia |].
  destruct (Z.ltb_spec 32 k); [lia |]. cbn [orb].
  destruct (ch_get_in_range (k - 1) st) as (channel & Hnth & Hget);
    [unfold len; lia |].
  exists channel. split; [exact Hnth |]. split; [| exact Hget].
  specialize (Hids (Z.to_nat (k - 1)) ltac:(lia)).
  rewrite Hnth in Hids. cbn [option_map] in Hids. injection Hids as ->. lia.
Qed.

Lemma get_channel_initializes (k : Z) (st : list ChannelConfig) :
  st = [] \/ channels_in_place st ->
  get_channel k st
  = (fst (get_channel k (initialized st)), initialized st).
Proof.
  intros H. unfold get_channel. cbn [bind Monad_Ch].
  rewrite !initialize_eq, (initialized_idem st H).
  destruct ((k <? 1) || (32 <? k)); [reflexivity |].
  unfold ch_get. reflexivity.
Qed.

(** X18: storing a channel and reading it back.  For [k] in 1..32 and
    a channel whose identifier is [k], [update_channel] succeeds, after it
    [get_channel k] returns that channel, every other channel reads as
    before, and the list still has its 32 channels in place. *)
Theorem update_channel_then_get (st : list ChannelConfig) (k : Z)
  (channel : ChannelConfig) :
  st = [] \/ channels_in_place st ->
  1 <= k <= 32 ->
  channel_id channel = k ->
  exists st',
    update_channel k channel st = (Ok channel, st') /\
    channels_in_place st' /\
    get_channel k st' = (Ok channel, st') /\
    forall j, 1 <= j <= 32 -> j <> k ->
      fst (get_channel j st') = fst (get_channel j st).
Proof.
  intros Hst Hk Hid.
  pose proof (initialized_in_place st Hst) as Hin.
  pose proof Hin as [Hlen Hids].
  exists (replace_nth (Z.to_nat (k - 1)) channel (initialized st)).
  assert (Hplace : channels_in_place
                     (replace_nth (Z.to_nat (k - 1)) channel
                        (initialized st))).
  { rewrite <- Hid. apply replace_in_place; [exact Hin | lia]. }
  split.
  { unfold update_channel. cbn [bind Monad_Ch]. rewrite initialize_eq.
    destruct (Z.ltb_spec k 1); [lia |].
    destruct (Z.ltb_spec 32 k); [lia |]. cbn [orb].
    rewrite Hid, Z.eqb_refl. cbn [negb bind Monad_Ch].
    rewrite ch_set_in_range by (unfold len; lia). reflexivity. }
  split; [exact Hplace |]. split.
  - destruct (get_channel_in_place k _ Hplace Hk) as (c & Hnth & _ & Hget).
    rewrite nth_error_replace_nth, Nat.eqb_refl in Hnth by lia.
    injection Hnth as <-. exact Hget.
  - intros j Hj Hne.
    destruct (get_channel_in_place j _ Hplace Hj) as (c & Hnth & _ & ->).
    rewrite (get_channel_initializes j st Hst). cbn [fst].
    destruct (get_channel_in_place j _ Hin Hj) as (c' & Hnth' & _ & ->).
    cbn [fst]. f_equal.
    rewrite nth_error_replace_nth in Hnth by lia.
    destruct (Nat.eqb_spec (Z.to_nat (j - 1)) (Z.to_nat (k - 1))); [lia |].
    congruence.
Qed.

Lemma update_channel_then_get_witness :
  exists st',
    update_channel 7 (mkChannelConfig 7 false RX 120 true false) []
    = (Ok (mkChannelConfig 7 false RX 120 true false), st') /\
    channels_in_place st' /\
    get_channel 7 st'
    = (Ok (mkChannelConfig 7 false RX 120 true false), st') /\
    forall j, 1 <= j <= 32 -> j <> 7 ->
      fst (get_channel j st') = fst (get_channel j []).
Proof.
  apply (update_channel_then_get [] 7
           (mkChannelConfig 7 false RX 120 true false)).
  - left. reflexivity.
  - lia.
  - reflexivity.
Defined.

(** X19: [get_channel] and [update_channel] answer an identifier outside
    1..32 with status 400, and [update_channel] also a channel whose own
    identifier differs from the one in the path; the list is initialised
    but no channel is changed. *)
Theorem channel_routes_reject (st : list ChannelConfig) (k : Z)
  (channel : ChannelConfig) :
  (k < 1 \/ 32 < k ->
   get_channel k st
   = (Raise (HTTPException 400 "Channel ID must be 1-32"), initialized st) /\
   update_channel k channel st
   = (Raise (HTTPException 400 "Channel ID must be 1-32"),
      initialized st)) /\
  (1 <= k <= 32 -> channel_id channel <> k ->
   update_channel k channel st
   = (Raise (HTTPException 400 "Channel ID mismatch"), initialized st)).
Proof.
  unfold get_channel, update_channel. cbn [bind Monad_Ch].
  rewrite initialize_eq. split.
  - intros Hk.
    assert (E : (k <? 1) || (32 <? k) = true).
    { apply orb_true_iff. destruct Hk; [left | right]; now apply Z.ltb_lt. }
    rewrite E. split; reflexivity.
  - intros Hk Hne.
    destruct (Z.ltb_spec k 1); [lia |].
    destruct (Z.ltb_spec 32 k); [lia |]. cbn [orb].
    destruct (Z.eqb_spec (channel_id channel) k); [contradiction |].
    reflexivity.
Qed.

Lemma channel_routes_reject_witness :
  get_channel 33 []
  = (Raise (HTTPException 400 "Channel ID must be 1-32"), initialized []) /\
  update_channel 5 (mkChannelConfig 6 true TX 0 false false) sample_channels
  = (Raise (HTTPException 400 "Channel ID mismatch"),
     initialized sample_channels).
Proof.
  split.
  - apply (channel_routes_reject [] 33
             (mkChannelConfig 6 true TX 0 false false)). lia.
  - apply (channel_routes_reject sample_channels 5
             (mkChannelConfig 6 true TX 0 false false)).
    + lia.
    + cbn [channel_id]. lia.
Defined.

Lemma set_mode_loop_all (m : Mode) (st : list ChannelConfig) :
  List.length st = 32%nat ->
  for_ (range 0 32 1) (set_mode m) st = (Ok tt, map (with_mode m) st).
Proof.
  intros H.
  destruct (length_32_inv st H)
    as (a0 & a1 & a2 & a3 & a4 & a5 & a6 & a7 & a8 & a9 & a10 & a11 & a12
        & a13 & a14 & a15 & a16 & a17 & a18 & a19 & a20 & a21 & a22 & a23
        & a24 & a25 & a26 & a27 & a28 & a29 & a30 & a31 & ->).
  vm_compute. reflexivity.
Qed.

Lemma set_mode_loop_half (st : list ChannelConfig) :
  List.length st = 32%nat ->
  bind (for_ (range 0 16 1) (set_mode TX))
    (fun _ => for_ (range 16 32 1) (set_mode RX)) st
  = (Ok tt,
     (map (with_mode TX) (firstn 16 st)
      ++ map (with_mode RX) (skipn 16 st))%list).
Proof.
  intros H.
  destruct (length_32_inv st H)
    as (a0 & a1 & a2 & a3 & a4 & a5 & a6 & a7 & a8 & a9 & a10 & a11 & a12
        & a13 & a14 & a15 & a16 & a17 & a18 & a19 & a20 & a21 & a22 & a23
        & a24 & a25 & a26 & a27 & a28 & a29 & a30 & a31 & ->).
  vm_compute. reflexivity.
Qed.

Lemma same_ids_in_place (st st' : list ChannelConfig) :
  map channel_id st' = map channel_id st ->
  channels_in_place st -> channels_in_place st'.
Proof.
  intros Hmap [Hlen Hids]. split.
  - rewrite <- (length_map channel_id), Hmap, length_map. exact Hlen.
  - intros i Hi. rewrite <- nth_error_map, Hmap, nth_error_map.
    now apply Hids.
Qed.

Lemma with_mode_ids (m : Mode) (st : list ChannelConfig) :
  map channel_id (map (with_mode m) st) = map channel_id st.
Proof. rewrite map_map. now apply map_ext. Qed.

(** X20: the presets.  ["all_tx"] and ["all_rx"] give every channel the
    mode and enable it; ["half_tx_half_rx"] makes channels 1..16 TX and
    17..32 RX, all enabled; identifier, delay and power-down flag of every
    channel are kept.  Any other preset name leaves the list as it is. *)
Theorem apply_preset_effect (st : list ChannelConfig) :
  st = [] \/ channels_in_place st ->
  apply_preset "all_tx" st
  = (Ok (map (with_mode TX) (initialized st)),
     map (with_mode TX) (initialized st)) /\
  apply_preset "all_rx" st
  = (Ok (map (with_mode RX) (initialized st)),
     map (with_mode RX) (initialized st)) /\
  apply_preset "half_tx_half_rx" st
  = (Ok (map (with_mode TX) (firstn 16 (initialized st))
         ++ map (with_mode RX) (skipn 16 (initialized st)))%list,
     (map (with_mode TX) (firstn 16 (initialized st))
      ++ map (with_mode RX) (skipn 16 (initialized st)))%list) /\
  forall preset,
    preset <> "all_tx" -> preset <> "all_rx" ->
    preset <> "half_tx_half_rx" ->
    apply_preset preset st = (Ok (initialized st), initialized st).
Proof.
  intros Hst. pose proof (initialized_in_place st Hst) as [Hlen _].
  unfold apply_preset. cbn [bind Monad_Ch]. rewrite initialize_eq.
  repeat split.
  - cbn [String.eqb Ascii.eqb Bool.eqb andb].
    now rewrite (set_mode_loop_all TX _ Hlen).
  - cbn [String.eqb Ascii.eqb Bool.eqb andb].
    now rewrite (set_mode_loop_all RX _ Hlen).
  - cbn [String.eqb Ascii.eqb Bool.eqb andb].
    pose proof (set_mode_loop_half _ Hlen) as E.
    cbn [bind Monad_Ch] in E. now rewrite E.
  - intros preset H1 H2 H3.
    destruct (String.eqb_spec preset "all_tx"); [contradiction |].
    destruct (String.eqb_spec preset "all_rx"); [contradiction |].
    destruct (String.eqb_spec preset "half_tx_half_rx"); [contradiction |].
    reflexivity.
Qed.

Lemma apply_preset_effect_witness :
  apply_preset "all_rx" sample_channels
  = (Ok (map (with_mode RX) (initialized sample_channels)),
     map (with_mode RX) (initialized sample_channels)) /\
  apply_preset "custom" []
  = (Ok (initialized []), initialized []).
Proof.
  split.
  - apply (apply_preset_effect sample_channels). right.
    split; [reflexivity |]. intros i Hi.
    do 32 (destruct i as [| i]; [reflexivity |]). lia.
  - apply (apply_preset_effect []); [now left | | |]; discriminate.
Defined.

Lemma in_replace_nth {A} (n : nat) (x y : A) (l : list A) :
  In y (replace_nth n x l) -> y = x \/ In y l.
Proof.
  revert n. induction l as [| z l IH]; intros [| n]; cbn [replace_nth In];
    try tauto.
  - intros [-> | H]; auto.
  - intros [-> | H]; auto. destruct (IH n H); auto.
Qed.

(** The loop of [update_channels_bulk] on a list in place. *)
Lemma bulk_loop_in_place (channels st : list ChannelConfig) :
  channels_in_place st ->
  exists st',
    for_ channels
      (fun channel =>
         if (1 <=? channel_id channel) && (channel_id channel <=? 32)
         then ch_set (channel_id channel - 1) channel
         else ret tt) st
    = (Ok tt, st') /\
    channels_in_place st' /\
    (forall i, (i < 32)%nat ->
       ~ In (Z.of_nat i + 1) (map channel_id channels) ->
       nth_error st' i = nth_error st i) /\
    Forall (fun c => In c st \/ In c channels) st'.
Proof.
  revert st. induction channels as [| channel channels IH]; intros st Hst.
  - exists st. cbn [for_ ret Monad_Ch].
    split; [reflexivity |]. split; [exact Hst |]. split; [reflexivity |].
    apply Forall_forall. auto.
  - cbn [for_ bind Monad_Ch].
    destruct ((1 <=? channel_id channel) && (channel_id channel <=? 32))
      eqn:Hrange.
    + apply andb_true_iff in Hrange as [H1 H2].
      apply Z.leb_le in H1, H2. pose proof Hst as [Hlen _].
      rewrite ch_set_in_range by (unfold len; lia).
      destruct (IH _ (replace_in_place st channel Hst ltac:(lia)))
        as (st' & E & Hplace & Hkeep & Hfrom).
      exists st'. split; [exact E |]. split; [exact Hplace |]. split.
      * intros i Hi Hnot. cbn [map In] in Hnot.
        rewrite Hkeep by tauto.
        rewrite nth_error_replace_nth by lia.
        destruct (Nat.eqb_spec i (Z.to_nat (channel_id channel - 1)));
          [| reflexivity].
        exfalso. apply Hnot. left. lia.
      * eapply Forall_impl; [| exact Hfrom]. cbn beta.
        intros c [Hin | Hin]; [| right; now right].
        apply in_replace_nth in Hin as [-> | Hin]; [right; now left |].
        now left.
    + cbn [ret Monad_Ch].
      destruct (IH st Hst) as (st' & E & Hplace & Hkeep & Hfrom).
      exists st'. split; [exact E |]. split; [exact Hplace |]. split.
      * intros i Hi Hnot. apply Hkeep; [exact Hi |].
        cbn [map In] in Hnot. tauto.
      * eapply Forall_impl; [| exact Hfrom]. cbn beta.
        intros c [Hin | Hin]; [now left | right; now right].
Qed.

(** X21: [update_channels_bulk] never fails, even on entries whose
    identifier is outside 1..32 (they are skipped): it returns the list it
    leaves behind, in which every channel comes from the request or was
    there before, and a channel whose identifier is not in the request is
    unchanged. *)
Theorem update_channels_bulk_effect (channels st : list ChannelConfig) :
  st = [] \/ channels_in_place st ->
  exists st',
    update_channels_bulk channels st = (Ok st', st') /\
    channels_in_place st' /\
    (forall k, 1 <= k <= 32 -> ~ In k (map channel_id channels) ->
       fst (get_channel k st') = fst (get_channel k st)) /\
    Forall (fun c => In c (initialized st) \/ In c channels) st'.
Proof.
  intros Hst. pose proof (initialized_in_place st Hst) as Hin.
  destruct (bulk_loop_in_place channels _ Hin)
    as (st' & E & Hplace & Hkeep & Hfrom).
  exists st'. split.
  { unfold update_channels_bulk. cbn [bind Monad_Ch].
    rewrite initialize_eq. cbn [bind Monad_Ch] in E. now rewrite E. }
  split; [exact Hplace |]. split; [| exact Hfrom].
  intros k Hk Hnot.
  destruct (get_channel_in_place k _ Hplace Hk) as (c & Hnth & _ & ->).
  rewrite (get_channel_initializes k st Hst). cbn [fst].
  destruct (get_channel_in_place k _ Hin Hk) as (c' & Hnth' & _ & ->).
  cbn [fst]. f_equal.
  rewrite Hkeep in Hnth; [congruence | lia |].
  replace (Z.of_nat (Z.to_nat (k - 1)) + 1) with k by lia. exact Hnot.
Qed.

Lemma update_channels_bulk_effect_witness :
  exists st',
    update_channels_bulk
      [mkChannelConfig 2 false RX 5 false true;
       mkChannelConfig 40 true TX 0 false false] []
    = (Ok st', st') /\
    channels_in_place st' /\
    (forall k, 1 <= k <= 32 ->
       ~ In k (map channel_id
                 [mkChannelConfig 2 false RX 5 false true;
                  mkChannelConfig 40 true TX 0 false false]) ->
       fst (get_channel k st') = fst (get_channel k [])) /\
    Forall (fun c =>
              In c (initialized []) \/
              In c [mkChannelConfig 2 false RX 5 false true;
                    mkChannelConfig 40 true TX 0 false false]) st'.
Proof.
  apply (update_channels_bulk_effect
           [mkChannelConfig 2 false RX 5 false true;
            mkChannelConfig 40 true TX 0 false false] []).
  left. reflexivity.
Defined.

(** X22: the invariant of the channel list.  Starting from the empty
    list of a fresh process or from 32 channels in place (channel [k] at
    index [k - 1]), every channel route leaves 32 channels in place,
    whatever its arguments and whether it succeeds or answers 400. *)
Theorem channel_routes_keep_channels_in_place (st : list ChannelConfig) :
  st = [] \/ channels_in_place st ->
  channels_in_place (snd (get_all_channels st)) /\
  (forall k, channels_in_place (snd (get_channel k st))) /\
  (forall k channel,
     channels_in_place (snd (update_channel k channel st))) /\
  (forall channels,
     channels_in_place (snd (update_channels_bulk channels st))) /\
  (forall preset, channels_in_place (snd (apply_preset preset st))).
Proof.
  intros Hst. pose proof (initialized_in_place st Hst) as Hin.
  split; [| split; [| split; [| split]]].
  - unfold get_all_channels. cbn [bind Monad_Ch]. now rewrite initialize_eq.
  - intros k. now rewrite (get_channel_initializes k st Hst).
  - intros k channel. pose proof Hin as [Hlen _].
    unfold update_channel. cbn [bind Monad_Ch]. rewrite initialize_eq.
    destruct (Z.ltb_spec k 1); [exact Hin |].
    destruct (Z.ltb_spec 32 k); [exact Hin |]. cbn [orb].
    destruct (Z.eqb_spec (channel_id channel) k) as [E | _];
      [| exact Hin].
    cbn [negb bind Monad_Ch].
    rewrite ch_set_in_range by (unfold len; lia). cbn [ret Monad_Ch snd].
    rewrite <- E. apply replace_in_place; [exact Hin | lia].
  - intros channels.
    destruct (bulk_loop_in_place channels _ Hin) as (st' & E & Hplace & _).
    unfold update_channels_bulk. cbn [bind Monad_Ch].
    rewrite initialize_eq. cbn [bind Monad_Ch] in E. now rewrite E.
  - intros preset. pose proof Hin as [Hlen _].
    unfold apply_preset. cbn [bind Monad_Ch]. rewrite initialize_eq.
    destruct (String.eqb preset "all_tx").
    { rewrite (set_mode_loop_all TX _ Hlen). cbn [snd ch_all].
      exact (same_ids_in_place _ _ (with_mode_ids TX _) Hin). }
    destruct (String.eqb preset "all_rx").
    { rewrite (set_mode_loop_all RX _ Hlen). cbn [snd ch_all].
      exact (same_ids_in_place _ _ (with_mode_ids RX _) Hin). }
    destruct (String.eqb preset "half_tx_half_rx"); [| exact Hin].
    pose proof (set_mode_loop_half _ Hlen) as E.
    cbn [bind Monad_Ch] in E. rewrite E. cbn [snd ch_all].
    apply (same_ids_in_place (initialized st)); [| exact Hin].
    rewrite map_app, !with_mode_ids, <- map_app.
    now rewrite firstn_skipn.
Qed.

Lemma channel_routes_keep_channels_in_place_witness :
  channels_in_place (snd (get_all_channels [])) /\
  channels_in_place
    (snd (update_channel 3 (mkChannelConfig 3 false TX 0 false true)
            sample_channels)).
Proof.
  split.
  - apply (channel_routes_keep_channels_in_place []). now left.
  - apply (channel_routes_keep_channels_in_place sample_channels). right.
    split; [reflexivity |]. intros i Hi.
    do 32 (destruct i as [| i]; [reflexivity |]). lia.
Defined.

(** ** The power-down word of [apply_channel_config] *)

Lemma enumerate_range_from {A} (l : list A) :
  enumerate l = combine (range_from 0 1 (List.length l)) l.
Proof.
  unfold enumerate, range, len. f_equal. f_equal.
  rewrite Z.div_1_r. lia.
Qed.

Lemma switched_off_cons (channel : ChannelConfig) (l : list ChannelConfig)
  (k : nat) :
  switched_off (channel :: l) (S k) = switched_off l k.
Proof. reflexivity. Qed.

(** Bit [j] of the mask is set by the channel at index [j]. *)
Lemma power_down_loop_bits (l : list ChannelConfig) (a acc j : Z) :
  0 <= a -> 0 <= j ->
  Z.testbit (power_down_loop (combine (range_from a 1 (List.length l)) l)
               acc) j
  = Z.testbit acc j
    || ((a <=? j) && (j <? a + len l) && switched_off l (Z.to_nat (j - a))).
Proof.
  revert a acc. induction l as [| channel l IH]; intros a acc Ha Hj.
  - cbn [List.length range_from combine power_down_loop].
    unfold len. cbn [List.length].
    destruct (Z.leb_spec a j); destruct (Z.ltb_spec j (a + Z.of_nat 0));
      cbn [andb]; try lia; now rewrite orb_false_r.
  - cbn [List.length range_from combine power_down_loop].
    rewrite IH by lia.
    assert (Hlen : len (channel :: l) = len l + 1)
      by (unfold len; cbn [List.length]; lia).
    rewrite Hlen.
    assert (Hacc : Z.testbit
                     (if power_down channel || negb (enabled channel)
                      then Z.lor acc (Z.shiftl 1 a) else acc) j
                   = Z.testbit acc j
                     || ((power_down channel || negb (enabled channel))
                         && (a =? j))).
    { destruct (power_down channel || negb (enabled channel));
        cbn [andb]; [| now rewrite orb_false_r].
      now rewrite Z.lor_spec, Z.shiftl_1_l, Z.pow2_bits_eqb. }
    rewrite Hacc.
    destruct (Z.eqb_spec a j) as [<- | Hne].
    + replace (a - a) with 0 by lia.
      unfold switched_off at 2. cbn [Z.to_nat nth_error].
      destruct (Z.leb_spec (a + 1) a); [lia |].
      destruct (Z.leb_spec a a); [| lia].
      destruct (Z.ltb_spec a (a + (len l + 1)));
        [| unfold len in *; lia].
      cbn [andb]. now rewrite andb_true_r, orb_false_r.
    + rewrite andb_false_r, orb_false_r. f_equal.
      destruct (Z.leb_spec (a + 1) j).
      * destruct (Z.leb_spec a j); [| lia].
        replace (Z.to_nat (j - a)) with (S (Z.to_nat (j - (a + 1))))
          by lia.
        rewrite switched_off_cons.
        replace (a + 1 + len l) with (a + (len l + 1)) by lia.
        reflexivity.
      * destruct (Z.leb_spec a j); [lia |]. reflexivity.
Qed.

(** The bits of the word written to register 0x07 for 32 channels. *)
Lemma power_down_word_bits (st : list ChannelConfig) (j : Z) :
  List.length st = 32%nat -> 0 <= j ->
  Z.testbit (Z.lor (Z.shiftl 0xFFFF 16) (power_down_loop (enumerate st) 0)) j
  = if j <? 16 then switched_off st (Z.to_nat j)
    else j <? 32.
Proof.
  intros Hlen Hj. rewrite Z.lor_spec, enumerate_range_from.
  rewrite power_down_loop_bits by lia.
  rewrite Z.bits_0. cbn [orb]. unfold len. rewrite Hlen, Z.sub_0_r.
  change 0xFFFF with (Z.ones 16).
  destruct (Z.leb_spec 0 j); [| lia]. cbn [andb].
  destruct (Z.ltb_spec j 16).
  - rewrite Z.shiftl_spec_low by lia.
    destruct (Z.ltb_spec j (0 + Z.of_nat 32)); [| lia]. reflexivity.
  - rewrite Z.shiftl_spec by lia.
    destruct (Z.ltb_spec j 32).
    + rewrite Z.ones_spec_low by lia. reflexivity.
    + rewrite Z.ones_spec_high by lia.
      destruct (Z.ltb_spec j (0 + Z.of_nat 32)); [lia |]. reflexivity.
Qed.

Lemma power_down_word_range (st : list ChannelConfig) :
  List.length st = 32%nat ->
  0 <= Z.lor (Z.shiftl 0xFFFF 16) (power_down_loop (enumerate st) 0)
  < 2 ^ 32.
Proof.
  intros Hlen.
  set (v := Z.lor (Z.shiftl 0xFFFF 16) (power_down_loop (enumerate st) 0)).
  assert (Hmod : v mod 2 ^ 32 = v).
  { apply Z.bits_inj'. intros j Hj.
    destruct (Z.lt_ge_cases j 32).
    - now rewrite Z.mod_pow2_bits_low.
    - rewrite Z.mod_pow2_bits_high by lia. unfold v.
      rewrite power_down_word_bits by lia.
      destruct (Z.ltb_spec j 16); [lia |].
      destruct (Z.ltb_spec j 32); [lia | reflexivity]. }
  rewrite <- Hmod. apply Z.mod_pos_bound. lia.
Qed.

(** X23: on a port that does not raise, [apply_channel_config] disables
    sync, writes one word to register 0x07 and does not re-enable sync.
    In that word bit [i], for [i] in 0..15, is set exactly when channel
    [i + 1] is powered down or disabled, and the bits 16..31 are all
    set. *)
Theorem apply_channel_config_word (st : list ChannelConfig) (d : USBQPort) :
  fault_free d ->
  st = [] \/ channels_in_place st ->
  exists word,
    apply_channel_config st (ready d)
    = (Ok (mkApiResponse true "Channel configuration applied to device"
             [("channels_configured", VInt 32)]),
       ready (record_calls
                ([EnableSync false] ++ write_transaction 0x07 word 0) d),
       initialized st) /\
    0 <= word < 2 ^ 32 /\
    (forall i, (i < 16)%nat ->
       Z.testbit word (Z.of_nat i) = switched_off (initialized st) i) /\
    (forall j, 16 <= j < 32 -> Z.testbit word j = true).
Proof.
  intros H Hst. pose proof (initialized_in_place st Hst) as [Hlen _].
  exists (Z.lor (Z.shiftl 0xFFFF 16)
            (power_down_loop (enumerate (initialized st)) 0)).
  split.
  { unfold apply_channel_config. fold (initialized st).
    replace (has_port (ready d)) with true by reflexivity. f_equal.
    apply http_errors_Ok.
    rewrite (bind_Ok _ _ _ _ _ (is_connected_ready d)). cbn [negb].
    rewrite (bind_Ok _ _ _ _ _ (ret_Ok tt _)).
    rewrite (bind_Ok _ _ _ _ _ (enable_sync_ok false d H)). cbv zeta.
    rewrite (bind_Ok _ _ _ _ _
               (write_reg_ok _ _ _ _ (fault_free_record _ d H))).
    now rewrite record_calls_app. }
  split; [now apply power_down_word_range |]. split.
  - intros i Hi. rewrite power_down_word_bits by lia.
    destruct (Z.ltb_spec (Z.of_nat i) 16); [| lia].
    now rewrite Nat2Z.id.
  - intros j Hj. rewrite power_down_word_bits by lia.
    destruct (Z.ltb_spec j 16); [lia |]. now apply Z.ltb_lt.
Qed.

Lemma apply_channel_config_word_witness :
  exists word,
    apply_channel_config sample_channels (ready quiet_port)
    = (Ok (mkApiResponse true "Channel configuration applied to device"
             [("channels_configured", VInt 32)]),
       ready (record_calls
                ([EnableSync false] ++ write_transaction 0x07 word 0)
                quiet_port),
       initialized sample_channels) /\
    0 <= word < 2 ^ 32 /\
    (forall i, (i < 16)%nat ->
       Z.testbit word (Z.of_nat i)
       = switched_off (initialized sample_channels) i) /\
    (forall j, 16 <= j < 32 -> Z.testbit word j = true).
Proof.
  apply (apply_channel_config_word sample_channels quiet_port).
  - intros h c. reflexivity.
  - right. split; [reflexivity |]. intros i Hi.
    do 32 (destruct i as [| i]; [reflexivity |]). lia.
Defined.

Example apply_channel_config_sample_word :
  snd (fst (apply_channel_config sample_channels (ready quiet_port)))
  = ready (record_calls
             ([EnableSync false] ++ write_transaction 0x07 0xFFFF0005 0)
             quiet_port).
Proof. reflexivity. Qed.

(** X24: the power-down state of the channels 17..32 never reaches the
    device: two channel lists that agree on the channels 1..16 make
    [apply_channel_config] do exactly the same with the controller,
    because the mask bits of the upper channels fall on the sixteen bits
    that are already set in [0xFFFF << 16]. *)
Theorem apply_channel_config_ignores_upper_channels
  (st1 st2 : list ChannelConfig) (s : TX7332Controller) :
  channels_in_place st1 -> channels_in_place st2 ->
  firstn 16 st1 = firstn 16 st2 ->
  fst (apply_channel_config st1 s) = fst (apply_channel_config st2 s).
Proof.
  intros H1 H2 Hsame. pose proof H1 as [Hlen1 _]. pose proof H2 as [Hlen2 _].
  assert (Hword : Z.lor (Z.shiftl 0xFFFF 16)
                    (power_down_loop (enumerate st1) 0)
                  = Z.lor (Z.shiftl 0xFFFF 16)
                      (power_down_loop (enumerate st2) 0)).
  { apply Z.bits_inj'. intros j Hj.
    rewrite !power_down_word_bits by assumption.
    destruct (Z.ltb_spec j 16); [| reflexivity].
    unfold switched_off.
    assert (Hlow : forall st : list ChannelConfig,
               nth_error st (Z.to_nat j)
               = nth_error (firstn 16 st) (Z.to_nat j)).
    { intros st. rewrite nth_error_firstn.
      destruct (Nat.ltb_spec (Z.to_nat j) 16); [reflexivity | lia]. }
    now rewrite (Hlow st1), (Hlow st2), Hsame. }
  unfold apply_channel_config.
  rewrite (initialized_nonempty st1 (channels_in_place_nonempty st1 H1)).
  rewrite (initialized_nonempty st2 (channels_in_place_nonempty st2 H2)).
  cbn [fst snd].
  destruct (has_port s); cbn [fst]; now rewrite Hword.
Qed.

Lemma apply_channel_config_ignores_upper_channels_witness :
  fst (apply_channel_config sample_channels (ready quiet_port))
  = fst (apply_channel_config
           (firstn 16 sample_channels
            ++ map (fun c =>
                      mkChannelConfig (channel_id c) false RX 0 false true)
                 (skipn 16 sample_channels))
           (ready quiet_port)).
Proof.
  apply (apply_channel_config_ignores_upper_channels sample_channels
           (firstn 16 sample_channels
            ++ map (fun c =>
                      mkChannelConfig (channel_id c) false RX 0 false true)
                 (skipn 16 sample_channels))
           (ready quiet_port)).
  - split; [reflexivity |]. intros i Hi.
    do 32 (destruct i as [| i]; [reflexivity |]). lia.
  - split; [reflexivity |]. intros i Hi.
    do 32 (destruct i as [| i]; [reflexivity |]). lia.
  - reflexivity.
Defined.

(** ** The diagnostic checks as bit tests *)

Lemma append_nil_r (s : string) : s ++ "" = s.
Proof. induction s as [| c s IH]; cbn; [reflexivity | now rewrite IH]. Qed.

Lemma append_assoc (s t u : string) : (s ++ t) ++ u = s ++ (t ++ u).
Proof. induction s as [| c s IH]; cbn; [reflexivity | now rewrite IH]. Qed.

Lemma length_append (s t : string) :
  String.length (s ++ t) = (String.length s + String.length t)%nat.
Proof. induction s as [| c s IH]; cbn; [reflexivity | now rewrite IH]. Qed.

Lemma length_bit_string (w : nat) (n : Z) : String.length (bit_string w n) = w.
Proof. induction w as [| w IH]; cbn; [reflexivity | now rewrite IH]. Qed.

(** One more bit at the low end. *)
Lemma bit_string_low (w : nat) (m : Z) (b : bool) :
  bit_string (S w) (2 * m + Z.b2z b)
  = bit_string w m ++ String (bit_char b) "".
Proof.
  induction w as [| w IH].
  - cbn [bit_string append Z.of_nat]. now rewrite Z.testbit_0_r.
  - change (bit_string (S (S w)) (2 * m + Z.b2z b))
      with (String (bit_char (Z.testbit (2 * m + Z.b2z b) (Z.of_nat (S w))))
              (bit_string (S w) (2 * m + Z.b2z b))).
    rewrite IH. rewrite Nat2Z.inj_succ, Z.testbit_succ_r by lia.
    reflexivity.
Qed.

Lemma bin_digits_bits (p : positive) (acc : string) :
  bin_digits p acc = bit_string (Pos.size_nat p) (Zpos p) ++ acc.
Proof.
  revert acc. induction p as [p IH | p IH |]; intros acc;
    cbn [bin_digits Pos.size_nat].
  - rewrite IH.
    change (Z.pos p~1) with (2 * Z.pos p + Z.b2z true).
    now rewrite bit_string_low, append_assoc.
  - rewrite IH.
    change (Z.pos p~0) with (2 * Z.pos p + Z.b2z false).
    now rewrite bit_string_low, append_assoc.
  - reflexivity.
Qed.

Lemma size_nat_bound (p : positive) (w : nat) :
  Z.pos p < 2 ^ Z.of_nat w -> (Pos.size_nat p <= w)%nat.
Proof.
  revert w. induction p as [p IH | p IH |]; intros w Hw;
    cbn [Pos.size_nat].
  - destruct w as [| w]; [cbn in Hw; lia |].
    rewrite Nat2Z.inj_succ, Z.pow_succ_r in Hw by lia.
    specialize (IH w ltac:(lia)). lia.
  - destruct w as [| w]; [cbn in Hw; lia |].
    rewrite Nat2Z.inj_succ, Z.pow_succ_r in Hw by lia.
    specialize (IH w ltac:(lia)). lia.
  - destruct w as [| w]; [cbn in Hw; lia | lia].
Qed.

(** Zeros in front are the bits above the number. *)
Lemma zeros_bit_string (k w : nat) (n : Z) :
  0 <= n < 2 ^ Z.of_nat w ->
  zeros k ++ bit_string w n = bit_string (k + w) n.
Proof.
  intros Hn. induction k as [| k IH]; [reflexivity |].
  cbn [zeros append Nat.add bit_string]. rewrite IH. f_equal.
  assert (Hbit : Z.testbit n (Z.of_nat (k + w)) = false).
  { rewrite <- (Z.mod_small n (2 ^ Z.of_nat w)) by lia.
    apply Z.mod_pow2_bits_high. lia. }
  now rewrite Hbit.
Qed.

(** The rendering of a 32-bit value is its 32 bits. *)
Lemma format_032b_bits (n : Z) :
  0 <= n < 2 ^ 32 -> format_032b n = bit_string 32 n.
Proof.
  intros Hn. unfold format_032b.
  destruct (Z.ltb_spec n 0); [lia |]. cbn [append].
  destruct n as [| p | p]; [reflexivity | | lia].
  rewrite bin_digits_bits, append_nil_r.
  pose proof (size_nat_bound p 32 ltac:(cbn; lia)) as Hsize.
  unfold slen. cbn [String.length]. rewrite length_bit_string.
  replace (Z.to_nat (32 - Z.of_nat 0 - Z.of_nat (Pos.size_nat p)))
    with (32 - Pos.size_nat p)%nat by lia.
  rewrite zeros_bit_string.
  - f_equal. lia.
  - split; [lia |]. clear Hn Hsize.
    induction p as [p IH | p IH |]; cbn [Pos.size_nat];
      rewrite ?Nat2Z.inj_succ, ?Z.pow_succ_r by lia; lia.
Qed.

Lemma str_getitem_bits (r : Z) (k : nat) :
  (k < 32)%nat ->
  str_getitem (bit_string 32 r) (Z.of_nat k)
  = Ok (String (bit_char (Z.testbit r (31 - Z.of_nat k))) "").
Proof.
  intros Hk. do 32 (destruct k as [| k]; [reflexivity |]). lia.
Qed.

Lemma bit_check_one (r : Z) (k : nat) (name : string) :
  (k < 32)%nat ->
  DiagnosticsService.bit_check (bit_string 32 r) (Z.of_nat k) "1" name
  = Ok (Z.testbit r (31 - Z.of_nat k), name,
        String (bit_char (Z.testbit r (31 - Z.of_nat k))) "").
Proof.
  intros Hk. unfold DiagnosticsService.bit_check.
  rewrite (str_getitem_bits r k Hk). cbn [bind ret Monad_Result].
  now destruct (Z.testbit r (31 - Z.of_nat k)).
Qed.

Lemma bit_check_zero (r : Z) (k : nat) (name : string) :
  (k < 32)%nat ->
  DiagnosticsService.bit_check (bit_string 32 r) (Z.of_nat k) "0" name
  = Ok (negb (Z.testbit r (31 - Z.of_nat k)), name,
        String (bit_char (Z.testbit r (31 - Z.of_nat k))) "").
Proof.
  intros Hk. unfold DiagnosticsService.bit_check.
  rewrite (str_getitem_bits r k Hk). cbn [bind ret Monad_Result].
  now destruct (Z.testbit r (31 - Z.of_nat k)).
Qed.

(** A number below 32 from its five bits, one below 64 from its six. *)
Lemma five_bits (m : Z) :
  0 <= m < 32 ->
  m = 16 * Z.b2z (Z.testbit m 4) + 8 * Z.b2z (Z.testbit m 3)
      + 4 * Z.b2z (Z.testbit m 2) + 2 * Z.b2z (Z.testbit m 1)
      + Z.b2z (Z.testbit m 0).
Proof.
  intros Hm. rewrite <- (Z2Nat.id m) by lia.
  assert (Hk : (Z.to_nat m < 32)%nat) by lia.
  destruct (Z.to_nat m) as [| k]; [reflexivity |].
  do 31 (destruct k as [| k]; [reflexivity |]). lia.
Qed.

Lemma six_bits (m : Z) :
  0 <= m < 64 ->
  m = 32 * Z.b2z (Z.testbit m 5) + 16 * Z.b2z (Z.testbit m 4)
      + 8 * Z.b2z (Z.testbit m 3) + 4 * Z.b2z (Z.testbit m 2)
      + 2 * Z.b2z (Z.testbit m 1) + Z.b2z (Z.testbit m 0).
Proof.
  intros Hm. rewrite <- (Z2Nat.id m) by lia.
  assert (Hk : (Z.to_nat m < 64)%nat) by lia.
  destruct (Z.to_nat m) as [| k]; [reflexivity |].
  do 63 (destruct k as [| k]; [reflexivity |]). lia.
Qed.

Lemma top_five_bits (r : Z) :
  0 <= r < 2 ^ 32 ->
  Z.shiftr r 27
  = 16 * Z.b2z (Z.testbit r 31) + 8 * Z.b2z (Z.testbit r 30)
    + 4 * Z.b2z (Z.testbit r 29) + 2 * Z.b2z (Z.testbit r 28)
    + Z.b2z (Z.testbit r 27).
Proof.
  intros Hr.
  assert (Hm : 0 <= Z.shiftr r 27 < 32).
  { rewrite Z.shiftr_div_pow2 by lia. split.
    - apply Z.div_pos; lia.
    - apply Z.div_lt_upper_bound; lia. }
  rewrite (five_bits _ Hm) at 1.
  now rewrite !Z.shiftr_spec by lia.
Qed.

Lemma low_six_bits (r : Z) :
  Z.land r 0x3F
  = 32 * Z.b2z (Z.testbit r 5) + 16 * Z.b2z (Z.testbit r 4)
    + 8 * Z.b2z (Z.testbit r 3) + 4 * Z.b2z (Z.testbit r 2)
    + 2 * Z.b2z (Z.testbit r 1) + Z.b2z (Z.testbit r 0).
Proof.
  assert (Hm : 0 <= Z.land r 0x3F < 64).
  { change 0x3F with (Z.ones 6). rewrite Z.land_ones by lia.
    apply Z.mod_pos_bound. lia. }
  rewrite (six_bits _ Hm) at 1.
  rewrite !Z.land_spec.
  change (Z.testbit 63 5) with true. change (Z.testbit 63 4) with true.
  change (Z.testbit 63 3) with true. change (Z.testbit 63 2) with true.
  change (Z.testbit 63 1) with true. change (Z.testbit 63 0) with true.
  now rewrite !andb_true_r.
Qed.

Lemma flag_check_bits (r e : Z) (name : string) :
  0 <= r < 2 ^ 32 ->
  DiagnosticsService.flag_check (bit_string 32 r) e name
  = Ok (Z.shiftr r 27 =? e, name, str_int (Z.shiftr r 27)).
Proof.
  intros Hr. rewrite (top_five_bits r Hr).
  unfold DiagnosticsService.flag_check.
  change (slice (bit_string 32 r) None (Some 5))
    with (String (bit_char (Z.testbit r 31))
            (String (bit_char (Z.testbit r 30))
               (String (bit_char (Z.testbit r 29))
                  (String (bit_char (Z.testbit r 28))
                     (String (bit_char (Z.testbit r 27)) ""))))).
  destruct (Z.testbit r 31), (Z.testbit r 30), (Z.testbit r 29),
    (Z.testbit r 28), (Z.testbit r 27); reflexivity.
Qed.

Lemma low6_check_bits (r : Z) (name : string) :
  DiagnosticsService.low6_check (bit_string 32 r) name
  = Ok (Z.land r 0x3F =? 0, name, bit_string 6 r).
Proof.
  rewrite (low_six_bits r). unfold DiagnosticsService.low6_check.
  change (slice (bit_string 32 r) (Some (-6)) None)
    with (bit_string 6 r).
  cbn [bit_string Z.of_nat Pos.of_succ_nat Pos.succ].
  destruct (Z.testbit r 5), (Z.testbit r 4), (Z.testbit r 3),
    (Z.testbit r 2), (Z.testbit r 1), (Z.testbit r 0); reflexivity.
Qed.

(** X25: for six register values of 32 bits the string slicing of the
    diagnostics is a set of bit tests: the temperature checks look at
    the bits 5..0 of 0x4D and 0x62, [NO_CLK_ERR] and [ERROR_RST] at bit 16
    of 0x6C and 0x4D, the [VALID_FLAG_*] checks compare the five top bits
    ([reg >> 27]) with 21, 10, 11, 22 and 25, and the others each test one
    bit; the checks never raise.  The value reported with a check is the
    six low bits as a string, the decimal number of the five top bits, or
    the bit tested. *)
Theorem diagnostic_checks_are_bit_tests
  (reg1D reg4D reg4E reg62 reg6C reg78 : Z) :
  0 <= reg1D < 2 ^ 32 -> 0 <= reg4D < 2 ^ 32 -> 0 <= reg4E < 2 ^ 32 ->
  0 <= reg62 < 2 ^ 32 -> 0 <= reg6C < 2 ^ 32 -> 0 <= reg78 < 2 ^ 32 ->
  exists tuples,
    DiagnosticsService.diagnostic_checks
      (DiagnosticsService.mkSnapshot (format_032b reg1D) (format_032b reg4D)
         (format_032b reg4E) (format_032b reg62) (format_032b reg6C)
         (format_032b reg78))
    = Ok tuples /\
    tuples = bit_checks reg1D reg4D reg4E reg62 reg6C reg78.
Proof.
  intros H1D H4D H4E H62 H6C H78.
  rewrite !format_032b_bits by assumption.
  unfold DiagnosticsService.diagnostic_checks.
  cbn [DiagnosticsService.reg1D_bin DiagnosticsService.reg4D_bin
       DiagnosticsService.reg4E_bin DiagnosticsService.reg62_bin
       DiagnosticsService.reg6C_bin DiagnosticsService.reg78_bin].
  rewrite !low6_check_bits.
  rewrite !flag_check_bits by assumption.
  rewrite (bit_check_one reg6C 15) by lia.
  rewrite (bit_check_zero reg1D 31), (bit_check_zero reg1D 29) by lia.
  rewrite (bit_check_zero reg4E 27), (bit_check_zero reg4E 26),
    (bit_check_zero reg4E 16) by lia.
  rewrite (bit_check_zero reg78 29), (bit_check_zero reg78 31) by lia.
  rewrite (bit_check_zero reg4D 15) by lia.
  eexists. split; reflexivity.
Qed.

Lemma diagnostic_checks_are_bit_tests_witness :
  exists tuples,
    DiagnosticsService.diagnostic_checks
      (DiagnosticsService.mkSnapshot (format_032b 1) (format_032b 0xA8000000)
         (format_032b 0x50000020) (format_032b 0x58000000)
         (format_032b 0xB0010000) (format_032b 0xC8000000))
    = Ok tuples /\
    tuples
    = bit_checks 1 0xA8000000 0x50000020 0x58000000 0xB0010000 0xC8000000.
Proof.
  apply (diagnostic_checks_are_bit_tests 1 0xA8000000 0x50000020 0x58000000
           0xB0010000 0xC8000000); lia.
Defined.

(** ** The shape of a diagnostics report *)

Lemma report_loop_spec (l : list (bool * string * string))
  (checks : list Check) (all_passed : bool) :
  DiagnosticsService.report_loop l checks all_passed
  = ((checks ++ map report_entry l)%list,
     all_passed && forallb (fun t => fst (fst t)) l).
Proof.
  revert checks all_passed. induction l as [| [[p n] v] l IH];
    intros checks all_passed.
  - cbn [DiagnosticsService.report_loop map forallb].
    now rewrite app_nil_r, andb_true_r.
  - cbn [DiagnosticsService.report_loop]. rewrite IH.
    cbn [map forallb fst report_entry]. rewrite <- app_assoc. cbn [app].
    f_equal. now destruct p, all_passed.
Qed.

Lemma failed_checks_entries (l : list (bool * string * string)) :
  failed_checks (map report_entry l) = []
  <-> forallb (fun t => fst (fst t)) l = true.
Proof.
  unfold failed_checks. induction l as [| [[p n] v] l IH].
  - cbn. tauto.
  - cbn [map filter forallb fst report_entry passed].
    destruct p; cbn [negb andb].
    + exact IH.
    + cbn [map]. split; discriminate.
Qed.

Lemma check_name_entries (l : list (bool * string * string)) :
  map check_name (map report_entry l) = map (fun t => snd (fst t)) l.
Proof.
  rewrite map_map. apply map_ext. now intros [[p n] v].
Qed.

Lemma bit_check_name (s : string) (i : Z) (e name : string)
  (t : bool * string * string) :
  DiagnosticsService.bit_check s i e name = Ok t -> snd (fst t) = name.
Proof.
  unfold DiagnosticsService.bit_check. cbn [bind ret Monad_Result].
  destruct (str_getitem s i); [| discriminate]. now intros [= <-].
Qed.

Lemma low6_check_name (s name : string) (t : bool * string * string) :
  DiagnosticsService.low6_check s name = Ok t -> snd (fst t) = name.
Proof.
  unfold DiagnosticsService.low6_check. cbn [bind ret Monad_Result].
  destruct (int_of_string _ 2); [| discriminate]. now intros [= <-].
Qed.

Lemma flag_check_name (s : string) (e : Z) (name : string)
  (t : bool * string * string) :
  DiagnosticsService.flag_check s e name = Ok t -> snd (fst t) = name.
Proof.
  unfold DiagnosticsService.flag_check. cbn [bind ret Monad_Result].
  destruct (int_of_string _ 2); [| discriminate]. now intros [= <-].
Qed.

(** The checks that are computed carry the sixteen names in order. *)
Lemma diagnostic_checks_names (r : DiagnosticsService.Snapshot)
  (tuples : list (bool * string * string)) :
  DiagnosticsService.diagnostic_checks r = Ok tuples ->
  map (fun t => snd (fst t)) tuples = check_names.
Proof.
  unfold DiagnosticsService.diagnostic_checks.
  cbn [DiagnosticsService.sequence bind ret Monad_Result].
  repeat match goal with
         | |- context [match ?c with Ok _ => _ | Raise _ => _ end] =>
             let t := fresh "t" in
             let E := fresh "E" in
             destruct c as [t |] eqn:E; [| discriminate];
             first [apply bit_check_name in E
                   | apply low6_check_name in E
                   | apply flag_check_name in E]
         end.
  intros [= <-]. cbn [map]. unfold check_names. congruence.
Qed.

Ltac invert_read H :=
  let d := fresh "d" in
  let Hd := fresh "Hd" in
  apply read_reg_inv in H as (d & Hd & _ & _ & ->);
  cbn [device connected ready] in *;
  try (injection Hd as <-).

(** The three shapes of a report. *)
Lemma run_diagnostics_shapes (d : USBQPort) :
  exists status checks s',
    DiagnosticsService.run_diagnostics (ready d)
    = (Ok (status, checks), s') /\
    ((status = "PASS" /\
      map check_name checks = check_names /\
      failed_checks checks = [] /\
      s' = ready (record_calls
                    (flat_map (fun address => read_transaction address 0)
                       diagnostic_registers) d)) \/
     (status = "FAIL" /\
      exists first reset,
        checks = (first ++ [reset])%list /\
        map check_name first = check_names /\
        failed_checks first <> [] /\
        check_name reset = "ERROR_RESET") \/
     (status = "FAIL" /\
      exists msg,
        checks = [mkCheck "DIAGNOSTICS" false ("Diagnostic error: " ++ msg)
                    None])).
Proof.
  unfold DiagnosticsService.run_diagnostics.
  rewrite (bind_Ok _ _ _ _ _ (ensure_connected_ready d)).
  unfold try_except.
  match goal with
  | |- context [match ?body (ready d) with _ => _ end] =>
      destruct (body (ready d)) as [[res | e] s1] eqn:E
  end.
  2:{ do 3 eexists. split; [reflexivity |]. right. right.
      split; [reflexivity |]. now exists (str_exn e). }
  invert_bind E. invert_read Hstep.
  invert_bind E. invert_read Hstep.
  invert_bind E. invert_read Hstep.
  invert_bind E. invert_read Hstep.
  invert_bind E. invert_read Hstep.
  invert_bind E. invert_read Hstep.
  cbv zeta in E. invert_bind E.
  unfold lift in Hstep. injection Hstep as Hdc <-.
  rewrite report_loop_spec in E. cbn [fst snd app andb] in E.
  pose proof (diagnostic_checks_names _ _ Hdc) as Hnames.
  rewrite <- check_name_entries in Hnames.
  destruct (forallb (fun t => fst (fst t)) a5) eqn:Hall; cbn [negb] in E.
  - cbn [bind ret Monad_M] in E. injection E as <- <-.
    do 3 eexists. split; [reflexivity |]. left.
    split; [reflexivity |]. split; [exact Hnames |].
    split; [now apply failed_checks_entries |].
    rewrite !record_calls_app. reflexivity.
  - invert_bind E. cbn [ret Monad_M] in E. injection E as <- <-.
    match type of Hstep with
    | DiagnosticsService.reset_error_flags ?r ?cs ?s0 = _ =>
        destruct (reset_error_flags_one_entry r cs s0)
          as (ok & msg & s2 & Hreset)
    end.
    rewrite Hreset in Hstep. injection Hstep as <- <-.
    do 3 eexists. split; [reflexivity |]. right. left.
    split; [reflexivity |]. do 2 eexists.
    split; [reflexivity |]. split; [exact Hnames |].
    split; [| reflexivity].
    intros Hnone. apply failed_checks_entries in Hnone. congruence.
Qed.

Lemma failed_checks_app (l l' : list Check) :
  failed_checks (l ++ l') = (failed_checks l ++ failed_checks l')%list.
Proof. unfold failed_checks. now rewrite filter_app, map_app. Qed.

(** X26: on a connected controller the diagnostics never raise,
    whatever the transport does.  The status is PASS exactly when no
    entry of the report failed; a PASS report is the sixteen checks and
    the transport has seen the six register reads and nothing else; a
    FAIL report is either the sixteen checks, one of them failed, followed
    by one [ERROR_RESET] entry, or, when reading or slicing raised, the
    single entry [DIAGNOSTICS]. *)
Theorem run_diagnostics_report (s : TX7332Controller) :
  has_port s = true ->
  exists status checks s',
    DiagnosticsService.run_diagnostics s = (Ok (status, checks), s') /\
    (status = "PASS" <-> failed_checks checks = []) /\
    ((status = "PASS" /\
      map check_name checks = check_names /\
      calls_of s'
      = (calls_of s
         ++ flat_map (fun address => read_transaction address 0)
              diagnostic_registers)%list) \/
     (status = "FAIL" /\
      exists first reset,
        checks = (first ++ [reset])%list /\
        map check_name first = check_names /\
        failed_checks first <> [] /\
        check_name reset = "ERROR_RESET") \/
     (status = "FAIL" /\
      exists msg,
        checks = [mkCheck "DIAGNOSTICS" false ("Diagnostic error: " ++ msg)
                    None])).
Proof.
  intros H. destruct (has_port_ready s H) as [d ->].
  destruct (run_diagnostics_shapes d)
    as (status & checks & s' & Hrun & Hshape).
  exists status, checks, s'. split; [exact Hrun |].
  destruct Hshape as [(-> & Hnames & Hnone & ->)
                     | [(-> & first & reset & -> & Hnames & Hfail & Hreset)
                       | (-> & msg & ->)]].
  - split; [tauto |]. left. repeat split; assumption || reflexivity.
  - split.
    + split; [discriminate |]. rewrite failed_checks_app. intros Hnone.
      apply app_eq_nil in Hnone as [Hnone _]. contradiction.
    + right. left. split; [reflexivity |]. now exists first, reset.
  - split.
    + split; discriminate.
    + right. right. split; [reflexivity |]. now exists msg.
Qed.

Lemma run_diagnostics_report_witness :
  DiagnosticsService.run_diagnostics (ready healthy_port)
  = (Ok ("PASS", map report_entry
                   [ (true, "TEMP_SHUT_ERR[11:6]", "000000");
                     (true, "TEMP_SHUT_ERR[5:0]", "000000");
                     (true, "NO_CLK_ERR", "1");
                     (true, "SINGLE_LVL_ERR", "0");
                     (true, "LONG_TRAN_ERR", "0");
                     (true, "P5V_SUP_ERR", "0");
                     (true, "M5V_SUP_ERR", "0");
                     (true, "PHV_RANGE_ERR", "0");
                     (true, "TRIG_ERR", "0");
                     (true, "STANDBY_ERR", "0");
                     (true, "VALID_FLAG_1", "21");
                     (true, "VALID_FLAG_2", "10");
                     (true, "VALID_FLAG_3", "11");
                     (true, "VALID_FLAG_4", "22");
                     (true, "VALID_FLAG_5", "25");
                     (true, "ERROR_RST", "0") ]),
     ready (record_calls
              (flat_map (fun address => read_transaction address 0)
                 diagnostic_registers) healthy_port)) /\
  exists status checks s',
    DiagnosticsService.run_diagnostics (ready (failing_port 12))
    = (Ok (status, checks), s') /\
    (status = "PASS" <-> failed_checks checks = []).
Proof.
  split; [vm_compute; reflexivity |].
  destruct (run_diagnostics_report (ready (failing_port 12)) eq_refl)
    as (status & checks & s' & Hrun & Hiff & _).
  now exists status, checks, s'.
Defined.

Example run_diagnostics_read_failure :
  DiagnosticsService.run_diagnostics (ready (failing_port 12))
  = (Ok ("FAIL",
         [mkCheck "DIAGNOSTICS" false "Diagnostic error: USB write failed"
            None]),
     ready (record_calls
              (read_transaction 0x1D 0 ++ read_transaction 0x4D 0
               ++ [WriteReg 2 0; WriteReg 0 2]) (failing_port 12))).
Proof. vm_compute. reflexivity. Qed.

(** X27: the diagnostics route on a connected controller always
    answers with a report, never with status 500: its [error_count] is the
    number of failed entries, its status is PASS exactly when that number
    is 0, and its timestamp is the time of the call. *)
Theorem run_diagnostics_route (now : string) (s : TX7332Controller) :
  has_port s = true ->
  exists response s',
    run_diagnostics now s = (Ok response, s') /\
    timestamp response = now /\
    error_count response = len (failed_checks (checks response)) /\
    (overall_status response = "PASS" <-> error_count response = 0) /\
    fst (DiagnosticsService.run_diagnostics s)
    = Ok (overall_status response, checks response).
Proof.
  intros H. destruct (has_port_ready s H) as [d ->].
  destruct (run_diagnostics_shapes d)
    as (status & report & s' & Hrun & Hshape).
  exists (mkDiagnosticsResponse now status report
            (len (filter (fun check => negb (passed check)) report))), s'.
  split.
  { unfold run_diagnostics. apply http_errors_Ok.
    rewrite (bind_Ok _ _ _ _ _ (is_connected_ready d)). cbn [negb].
    rewrite (bind_Ok _ _ _ _ _ (ret_Ok tt _)).
    rewrite (bind_Ok _ _ _ _ _ Hrun). reflexivity. }
  cbn [timestamp error_count overall_status checks].
  split; [reflexivity |]. split.
  { unfold failed_checks, len. now rewrite length_map. }
  split; [| now rewrite Hrun].
  assert (Hcount : len (filter (fun check => negb (passed check)) report) = 0
                   <-> failed_checks report = []).
  { unfold failed_checks, len.
    destruct (filter (fun check => negb (passed check)) report);
      cbn [map List.length]; split; (reflexivity || discriminate || lia). }
  rewrite Hcount.
  destruct Hshape as [(-> & _ & Hnone & _)
                     | [(-> & first & reset & -> & _ & Hfail & _)
                       | (-> & msg & ->)]].
  - tauto.
  - split; [discriminate |]. rewrite failed_checks_app. intros Hnone.
    apply app_eq_nil in Hnone as [Hnone _]. contradiction.
  - split; discriminate.
Qed.

Lemma run_diagnostics_route_witness :
  exists response s',
    run_diagnostics "2025-11-14T10:30:00" (ready quiet_port)
    = (Ok response, s') /\
    timestamp response = "2025-11-14T10:30:00" /\
    error_count response = len (failed_checks (checks response)) /\
    (overall_status response = "PASS" <-> error_count response = 0) /\
    fst (DiagnosticsService.run_diagnostics (ready quiet_port))
    = Ok (overall_status response, checks response).
Proof.
  apply (run_diagnostics_route "2025-11-14T10:30:00" (ready quiet_port)).
  reflexivity.
Defined.

Example run_diagnostics_route_zero_registers :
  exists response s',
    run_diagnostics "t" (ready quiet_port) = (Ok response, s') /\
    overall_status response = "FAIL" /\ error_count response = 6.
Proof. do 2 eexists. split; [vm_compute; reflexivity |]. split; reflexivity. Qed.

(** ** The preset table *)

(** X28: the two look-ups of [PatternService] agree.
    [get_preset_by_type] returns a preset under a key exactly when
    [get_presets] lists that preset and the key is the preset's own
    [pattern_type]: the keys of the table are the types of its entries,
    and a key that is no listed type gives [None]. *)
Theorem get_presets_by_type (pattern_type : string) (preset : Preset) :
  PatternService.get_preset_by_type pattern_type = Some preset <->
  In preset get_presets /\ preset_pattern_type preset = pattern_type.
Proof.
  split.
  - intros Hget.
    unfold PatternService.get_preset_by_type,
      PatternService.PRESET_PATTERNS in Hget.
    cbn [PatternService.dict_get] in Hget.
    unfold get_presets, PatternService.PRESET_PATTERNS. cbn [map snd In].
    repeat match type of Hget with
           | context [String.eqb ?k pattern_type] =>
               destruct (String.eqb_spec k pattern_type) as [<- | _];
               [injection Hget as <-; split; [tauto | reflexivity] |]
           end.
    discriminate.
  - intros [Hin <-].
    unfold get_presets, PatternService.PRESET_PATTERNS in Hin.
    cbn [map snd In] in Hin.
    repeat match type of Hin with
           | _ \/ _ => destruct Hin as [<- | Hin]; [reflexivity |]
           end.
    contradiction.
Qed.
